(** * US labor dashboard: the Fetcher ([get_data.py]) and the Dashboard ([app.py])

    A shallow embedding of the two scripts of the repository.

    - Python values are modelled as the code has them: [str] as [string],
      [float] as the binary64 primitive [float], [int] as [Z], a [dict] as a
      [gmap], a raised exception as the [Raise] branch of [result].
    - The pandas operations the scripts call ([pivot], [reset_index],
      [sort_values], [dropna], [tail], [iloc]) are written out on a row-wise
      table; what pandas reads from text ([to_datetime], [to_numeric],
      [read_csv]) or writes to text ([to_csv], [repr]) is taken as a
      parameter, so every statement holds whatever those parsers accept.
    - The Fetcher's table has [float64] columns.  The table the Dashboard
      loads has the numeric columns [read_csv] gives it, [int64] for a
      column of whole numbers, [uint64] when they are too large for that,
      [float64] otherwise: the Dashboard is written over a type [V] of
      values with the operations of a dtype, and [scalar] is the dtype
      with these kinds of value.
    - [print] lines are left out: they neither touch the file nor raise.  *)

From Stdlib Require Import ZArith String Ascii List Lia.
From Stdlib Require Import PrimFloat FloatOps SpecFloat DecimalString.
From stdpp Require Import base option list gmap strings sorting.

Set Warnings "-inexact-float".
Local Open Scope Z_scope.
Local Open Scope string_scope.

(** ** Python: exceptions, numbers, strings *)

Module py.

(** The exceptions the two scripts can raise or let through. *)
Inductive exn : Type :=
| Exception (msg : string)
| KeyError (key : string)
| ValueError (msg : string)
| IndexError (msg : string)
| OverflowError (msg : string)
| FileNotFoundError (path : string)
| JSONDecodeError
| AttributeError (msg : string)
| RequestException (msg : string)
| StopException.

Inductive result (A : Type) : Type :=
| Ok (a : A)
| Raise (e : exn).
Arguments Ok {A} a.
Arguments Raise {A} e.

Definition bind {A B} (k : A → result B) (r : result A) : result B :=
  match r with
  | Ok a => k a
  | Raise e => Raise e
  end.

#[global] Instance result_ret : MRet result := @Ok.
#[global] Instance result_bind : MBind result := @bind.

(** A comprehension whose body may raise: the first exception wins. *)
Fixpoint traverse {A B} (f : A → result B) (l : list A) : result (list B) :=
  match l with
  | [] => Ok []
  | x :: l' => y ← f x; ys ← traverse f l'; Ok (y :: ys)
  end.

(** A Python number: [int] or [float]. *)
Inductive num : Type :=
| Int (z : Z)
| Float (f : float).

(** [str(n)] for an [int]. *)
Definition str_int (z : Z) : string := NilZero.string_of_int (Z.to_int z).

(** [s.startswith(p)] and [s[1:]]. *)
Definition startswith (s p : string) : bool := String.prefix p s.

Definition slice_from_1 (s : string) : string :=
  match s with
  | EmptyString => EmptyString
  | String _ rest => rest
  end.

(** [float(z)]: the nearest binary64, ties to even; [OverflowError] when
    the integer is beyond the finite range. *)
Definition float_of_int (z : Z) : result float :=
  match binary_normalize prec emax z 0 false with
  | S754_infinity _ => Raise (OverflowError "int too large to convert to float")
  | sf => Ok (SF2Prim sf)
  end.

(** *** Fixed-point formatting: the format spec [[+][,].<p>f]

    CPython converts the exact binary value to the nearest decimal with
    [p] fractional digits, ties to even. *)

Definition round_half_even (n d : Z) : Z :=
  let q := n / d in
  match (2 * (n mod d)) ?= d with
  | Lt => q
  | Gt => q + 1
  | Eq => if Z.even q then q else q + 1
  end.

(** [|x| * 10^p] rounded to an integer, for [|x| = m * 2^e]. *)
Definition scaled (p : nat) (m : positive) (e : Z) : Z :=
  if (0 <=? e)%Z then Z.pos m * 2 ^ e * 10 ^ Z.of_nat p
  else round_half_even (Z.pos m * 10 ^ Z.of_nat p) (2 ^ (- e)).

Fixpoint zeros (n : nat) : string :=
  match n with
  | O => ""
  | S n' => String "0" (zeros n')
  end.

(** Digits of a natural number, at least [p + 1] of them. *)
Definition digits_padded (p : nat) (q : Z) : string :=
  let s := NilZero.string_of_uint (N.to_uint (Z.to_N q)) in
  zeros (S p - String.length s) ++ s.

(** Thousands separators in a string of digits. *)
Fixpoint group_thousands (s : string) : string :=
  match s with
  | EmptyString => EmptyString
  | String c rest =>
      let n := String.length rest in
      if (0 <? n)%nat && (n mod 3 =? 0)%nat
      then String c (String "," (group_thousands rest))
      else String c (group_thousands rest)
  end.

Definition fixed_digits (grouping : bool) (p : nat) (q : Z) : string :=
  let s := digits_padded p q in
  let k := (String.length s - p)%nat in
  let int_part := String.substring 0 k s in
  let frac_part := String.substring k p s in
  (if grouping then group_thousands int_part else int_part)
    ++ match p with O => "" | _ => "." ++ frac_part end.

Definition sign_prefix (plus neg : bool) : string :=
  if neg then "-" else if plus then "+" else "".

Definition format_f (plus grouping : bool) (p : nat) (x : float) : string :=
  match Prim2SF x with
  | S754_nan => sign_prefix plus false ++ "nan"
  | S754_infinity s => sign_prefix plus s ++ "inf"
  | S754_zero s => sign_prefix plus s ++ fixed_digits grouping p 0
  | S754_finite s m e => sign_prefix plus s ++ fixed_digits grouping p (scaled p m e)
  end.

(** [float(n)]. *)
Definition float_of_num (n : num) : result float :=
  match n with
  | Float x => Ok x
  | Int z => float_of_int z
  end.

(** [format(n, "...f")]: an [int] is converted with [float(n)] first. *)
Definition format_num_f (plus grouping : bool) (p : nat) (n : num) : result string :=
  match n with
  | Float x => Ok (format_f plus grouping p x)
  | Int z => x ← float_of_int z; Ok (format_f plus grouping p x)
  end.

End py.

Import py.

(** ** pandas: the table operations the scripts call *)

Module pd.

(** A [Timestamp]: nanoseconds since 1970-01-01T00:00:00. *)
Abbreviation Timestamp := Z.

Definition ns_per_day : Z := 86400 * 1000000000.

(** Proleptic Gregorian calendar, days since the epoch. *)
Definition days_from_civil (y m d : Z) : Z :=
  let y' := if (m <=? 2)%Z then y - 1 else y in
  let era := y' / 400 in
  let yoe := y' - era * 400 in
  let mp := if (2 <? m)%Z then m - 3 else m + 9 in
  let doy := (153 * mp + 2) / 5 + d - 1 in
  let doe := yoe * 365 + yoe / 4 - yoe / 100 + doy in
  era * 146097 + doe - 719468.

Definition civil_from_days (z : Z) : Z * Z * Z :=
  let z' := z + 719468 in
  let era := z' / 146097 in
  let doe := z' - era * 146097 in
  let yoe := (doe - doe / 1460 + doe / 36524 - doe / 146096) / 365 in
  let doy := doe - (365 * yoe + yoe / 4 - yoe / 100) in
  let mp := (5 * doy + 2) / 153 in
  let d := doy - (153 * mp + 2) / 5 + 1 in
  let m := if (mp <? 10)%Z then mp + 3 else mp - 9 in
  let y := yoe + era * 400 in
  (if (m <=? 2)%Z then y + 1 else y, m, d).

Definition month_names : list string :=
  ["January"; "February"; "March"; "April"; "May"; "June"; "July";
   "August"; "September"; "October"; "November"; "December"].

(** [ts.strftime("%B %Y")]. *)
Definition strftime_B_Y (ts : Timestamp) : string :=
  let '(y, m, _) := civil_from_days (ts / ns_per_day) in
  default "" (month_names !! Z.to_nat (m - 1)) ++ " " ++ str_int y.

(** *** The values of a column

    What the scripts do with the values of a column, whatever its dtype:
    they subtract two of them ([latest - previous]), and they hand one to
    [format] and [str], which see the Python number [item] and, under a
    format [f], its conversion by [float].  [na] fills a position that has
    no value. *)
Class Dtype (V : Type) : Type := {
  na : V;
  sub : V → V → V;
  item : V → num;
  as_float : V → float
}.

(** A numeric dtype: [float] accepts every value of the column, and
    [as_float] is what it returns. *)
Class DtypeLaws (V : Type) `{!Dtype V} : Prop := {
  float_item (v : V) : float_of_num (item v) = Ok (as_float v)
}.

(** [numpy.float64]: a Python [float], with its subtraction. *)
#[global] Instance float64_dtype : Dtype float := {|
  na := nan;
  sub := PrimFloat.sub;
  item := Float;
  as_float := id
|}.

(** [numpy.int64] arithmetic: the result modulo 2^64, read as a signed
    number. *)
Definition wrap64 (z : Z) : Z := (z + 2 ^ 63) mod 2 ^ 64 - 2 ^ 63.

(** [numpy.uint64] arithmetic: the result modulo 2^64. *)
Definition wrapu64 (z : Z) : Z := z mod 2 ^ 64.

(** A value of a numeric column of [read_csv]: a [numpy.int64] (the
    integer [wrap64 z]), a [numpy.uint64] (the integer [wrapu64 z]) or a
    [numpy.float64]. *)
Inductive scalar : Type :=
| int64 (z : Z)
| uint64 (z : Z)
| float64 (x : float).

(** [float(v)]: the nearest binary64 for an integer, ties to even. *)
Definition scalar_float (v : scalar) : float :=
  match v with
  | int64 z => SF2Prim (binary_normalize prec emax (wrap64 z) 0 false)
  | uint64 z => SF2Prim (binary_normalize prec emax (wrapu64 z) 0 false)
  | float64 x => x
  end.

(** [a - b] on two numpy scalars: between two [int64] and between two
    [uint64] the arithmetic wraps around; any other pair is promoted to
    [float64] and both sides are converted. *)
Definition scalar_sub (a b : scalar) : scalar :=
  match a, b with
  | int64 x, int64 y => int64 (wrap64 (x - y))
  | uint64 x, uint64 y => uint64 (wrapu64 (x - y))
  | _, _ => float64 (scalar_float a - scalar_float b)
  end.

(** [format] and [str] treat an [int64] or a [uint64] as the [int] of the
    same value and a [float64] as a [float]. *)
Definition scalar_item (v : scalar) : num :=
  match v with
  | int64 z => Int (wrap64 z)
  | uint64 z => Int (wrapu64 z)
  | float64 x => Float x
  end.

(** The dtype of a table with [int64], [uint64] and [float64] columns. *)
#[global] Instance scalar_dtype : Dtype scalar := {|
  na := float64 nan;
  sub := scalar_sub;
  item := scalar_item;
  as_float := scalar_float
|}.

(** *** Tables

    A table with a date column (the index before [reset_index], the
    column named [date] after it) and columns of values in [V]; a missing
    [float64] is [nan].  [D] is the type of the dates: text as [read_csv]
    returns them, [Timestamp] after [to_datetime]. *)
Record Frame (D V : Type) : Type := mkFrame {
  columns : list string;
  rows : list (D * list V)
}.
Arguments mkFrame {D V} columns rows.
Arguments columns {D V} f.
Arguments rows {D V} f.

(** The table of the Fetcher: [float64] in every column. *)
Abbreviation DataFrame := (Frame Timestamp float).

(** [len(df)]. *)
Definition len {D V} (df : Frame D V) : nat := length (rows df).

(** Order on column labels: Python compares [str] by code point. *)
Definition str_le (a b : string) : Prop := String.leb a b.
#[global] Instance str_le_dec a b : Decision (str_le a b) := _.

Definition date_le {V} (r1 r2 : Timestamp * list V) : Prop := (r1.1 ≤ r2.1)%Z.
#[global] Instance date_le_dec {V} (r1 r2 : Timestamp * list V) :
  Decision (date_le r1 r2) := Z.le_dec r1.1 r2.1.

Definition date_ge {V} (r1 r2 : Timestamp * list V) : Prop := (r2.1 ≤ r1.1)%Z.
#[global] Instance date_ge_dec {V} (r1 r2 : Timestamp * list V) :
  Decision (date_ge r1 r2) := Z.le_dec r2.1 r1.1.

(** Sorting that keeps the order of the elements that compare equal: each
    element goes before the first one it is not after.  This is what the
    default [kind] of pandas does on a column short enough to be sorted by
    insertion; on a longer column pandas does not promise an order for
    rows of the same date, and the statements below do not rely on one. *)
Fixpoint insort {A} (R : relation A) `{!∀ x y, Decision (R x y)}
    (x : A) (l : list A) : list A :=
  match l with
  | [] => [x]
  | y :: l' => if decide (R x y) then x :: l else y :: insort R x l'
  end.

Definition stable_sort {A} (R : relation A) `{!∀ x y, Decision (R x y)}
    (l : list A) : list A :=
  foldr (insort R) [] l.

(** A row of the long table: (date, series_name, value). *)
Abbreviation long_row := (Timestamp * string * float)%type.

Definition key (r : long_row) : Timestamp * string := r.1.

(** The value stored under (d, c), [nan] when there is none. *)
Definition cell (long : list long_row) (d : Timestamp) (c : string) : float :=
  match list_find (λ r, key r = (d, c)) long with
  | Some (_, r) => r.2
  | None => nan
  end.

(** The row the pivot builds for the date [d]: one cell per label. *)
Definition pivot_row (long : list long_row) (cols : list string) (d : Timestamp) :
    Timestamp * list float :=
  (d, cell long d <$> cols).

(** [df.pivot(index="date", columns="series_name", values="value")]:
    sorted unique dates, sorted unique labels, [ValueError] on a repeated
    (date, series_name). *)
Definition pivot (long : list long_row) : result DataFrame :=
  if decide (NoDup (key <$> long)) then
    let index := merge_sort Z.le (remove_dups ((λ r, r.1.1) <$> long)) in
    let cols := merge_sort str_le (remove_dups ((λ r, r.1.2) <$> long)) in
    Ok (mkFrame cols (pivot_row long cols <$> index))
  else Raise (ValueError "Index contains duplicate entries, cannot reshape").

(** [df.reset_index()]: the index becomes the column [date]; refused when
    a column of that name is already there. *)
Definition reset_index (df : DataFrame) : result DataFrame :=
  if decide ("date" ∈ columns df)
  then Raise (ValueError "cannot insert date, already exists")
  else Ok df.

(** [df.sort_values("date", ascending=...)]. *)
Definition sort_values {V} (ascending : bool) (df : Frame Timestamp V) :
    Frame Timestamp V :=
  mkFrame (columns df)
    (if ascending then stable_sort date_le (rows df)
     else stable_sort date_ge (rows df)).

Definition complete (r : Timestamp * list float) : Prop :=
  Forall (λ v, is_nan v = false) r.2.
#[global] Instance complete_dec r : Decision (complete r) :=
  Forall_dec (λ v, is_nan v = false) r.2.

(** [df.dropna()]: rows with a missing value in any column are dropped. *)
Definition dropna (df : DataFrame) : DataFrame :=
  mkFrame (columns df) (filter complete (rows df)).

(** [df.tail(n)]. *)
Definition tail {D V} (n : nat) (df : Frame D V) : Frame D V :=
  mkFrame (columns df) (drop (length (rows df) - n) (rows df)).

(** [df[c]] for a value column: [KeyError] when there is no such label. *)
Definition getitem {D V} `{!Dtype V} (df : Frame D V) (c : string) :
    result (list V) :=
  match list_find (λ x, x = c) (columns df) with
  | Some (i, _) => Ok ((λ r, default na (r.2 !! i)) <$> rows df)
  | None => Raise (KeyError c)
  end.

(** [s.iloc[k]], negative positions counted from the end. *)
Definition iloc {A} (l : list A) (k : Z) : result A :=
  let i := if (k <? 0)%Z then (Z.of_nat (length l) + k)%Z else k in
  if (i <? 0)%Z then Raise (IndexError "single positional indexer is out-of-bounds")
  else match l !! Z.to_nat i with
       | Some x => Ok x
       | None => Raise (IndexError "single positional indexer is out-of-bounds")
       end.

(** [df["date"].min()] and [.max()]; [None] stands for [NaT]. *)
Definition date_min {V} (df : Frame Timestamp V) : option Timestamp :=
  match (rows df).*1 with
  | [] => None
  | d :: ds => Some (foldr Z.min d ds)
  end.

Definition date_max {V} (df : Frame Timestamp V) : option Timestamp :=
  match (rows df).*1 with
  | [] => None
  | d :: ds => Some (foldr Z.max d ds)
  end.

(** The long form of a wide table: one (date, label, value) per cell. *)
Definition unpivot (df : DataFrame) : list long_row :=
  r ← rows df; zip_with (λ c v, (r.1, c, v)) (columns df) r.2.

End pd.

Import pd.

(** ** The statistics API: what the Fetcher sends and what comes back *)

Module bls.

(** The JSON body of the request. *)
Record request : Type := mkRequest {
  url : string;
  seriesid : list string;
  startyear : string;
  endyear : string;
  content_type : string
}.

(** One observation of a series, as the response carries it. *)
Record item : Type := mkItem {
  year : string;
  period : string;
  value : string
}.

Record series : Type := mkSeries {
  seriesID : string;
  data : list item
}.

(** The key [Results] of the body: absent, an object without the key
    [series], or an object with the list of the series. *)
Inductive results : Type :=
| no_Results
| no_series
| with_series (series_list : list series).

(** The decoded response body, a JSON object.  [status] and [message] may
    be absent ([dict.get]); [message] is the text [str] gives for the
    field. *)
Record body : Type := mkBody {
  status : option string;
  message : option string;
  Results_key : results
}.

(** [api_response["Results"]["series"]], when both keys are there. *)
Definition Results (api_response : body) : option (list series) :=
  match Results_key api_response with
  | with_series series_list => Some series_list
  | _ => None
  end.

(** What [response.json()] returns: an object, or a JSON value of another
    kind, which Python decodes to a value without the method [get]. *)
Inductive decoded : Type :=
| json_object (b : body)
| json_array
| json_string
| json_integer
| json_real
| json_boolean
| json_null.

(** [type(data).__name__] of a decoded value. *)
Definition type_name (data : decoded) : string :=
  match data with
  | json_object _ => "dict"
  | json_array => "list"
  | json_string => "str"
  | json_integer => "int"
  | json_real => "float"
  | json_boolean => "bool"
  | json_null => "NoneType"
  end.

(** What [requests.post] returns: the status code and the decoded body,
    [None] when the body is not JSON. *)
Record response : Type := mkResponse {
  status_code : Z;
  json : option decoded
}.

(** The network: the answer to a request, or the exception of the
    transport. *)
Abbreviation network := (request → result response).

End bls.

(** ** get_data.py *)

Module get_data.
Import bls.

(** The files of the working directory, by name. *)
Abbreviation files := (gmap string string).

(** A step of the script: it may raise and it may write files. *)
Definition script (A : Type) : Type := files → result A * files.

#[global] Instance script_ret : MRet script := λ A a σ, (Ok a, σ).
#[global] Instance script_bind : MBind script := λ A B k m σ,
  match m σ with
  | (Ok a, σ') => k a σ'
  | (Raise e, σ') => (Raise e, σ')
  end.

(** A call that touches no file. *)
Definition pure {A} (r : result A) : script A := λ σ, (r, σ).

(** [open(path, "w").write(text)]: the file is replaced. *)
Definition write_file (path text : string) : script () :=
  λ σ, (Ok (), <[path := text]> σ).

(** [data.get]: only a [dict] has the method. *)
Definition dict_get (data : decoded) : result body :=
  match data with
  | json_object b => Ok b
  | _ => Raise (AttributeError ("'" ++ type_name data
                                  ++ "' object has no attribute 'get'"))
  end.

(** Lines 6-31. *)
Definition fetch_bls_data (post : network)
    (series_ids : list string) (start_year end_year : Z) : result body :=
  let url := "https://api.bls.gov/publicAPI/v2/timeseries/data/" in
  let payload := mkRequest url series_ids (str_int start_year) (str_int end_year)
                   "application/json" in
  response ← post payload;
  if decide (status_code response ≠ 200)
  then Raise (Exception ("API request failed with status code "
                           ++ str_int (status_code response)))
  else
    data ← from_option Ok (Raise JSONDecodeError) (json response);
    data ← dict_get data;
    if decide (status data ≠ Some "REQUEST_SUCCEEDED")
    then Raise (Exception ("API request failed: "
                             ++ default "Unknown error" (message data)))
    else Ok data.

(** Lines 35-40. *)
Definition series_names : gmap string string :=
  <["LNS14000000" := "Unemployment_Rate"]>
  (<["CES0000000001" := "Total_Nonfarm_Employees"]>
  (<["CES0500000003" := "Avg_Hourly_Earnings"]>
  (<["CES0500000007" := "Avg_Weekly_Hours"]> ∅))).

(** An entry of [all_data] (lines 58-62). *)
Record observation : Type := mkObservation {
  date : string;
  series_name : string;
  value : string
}.

(** Lines 50-62: the entries one item contributes. *)
Definition keep (series_name : string) (item : item) : list observation :=
  let year := year item in
  let period := period item in
  if startswith period "M" then
    let month := slice_from_1 period in
    let date_str := year ++ "-" ++ month ++ "-01" in
    [mkObservation date_str series_name (bls.value item)]
  else [].

(** Lines 42-62: the two loops that fill [all_data]. *)
Definition all_data (series_list : list series) : list observation :=
  series ← series_list;
  let series_id := seriesID series in
  let series_name := default series_id (series_names !! series_id) in
  item ← data series;
  keep series_name item.

Section reshape.
(** [pd.to_datetime] on one string, [None] when it raises, and
    [pd.to_numeric(errors="coerce")] on one string, [nan] when the text
    is not a number. *)
Context (to_datetime : string → option Timestamp).
Context (to_numeric : string → float).

(** Lines 64-66: the typed long table.  An empty [all_data] gives a
    frame without columns, so [df["date"]] raises; the dates are
    converted before the values, and only the dates can raise. *)
Definition long_table (all_data : list observation) : result (list long_row) :=
  if decide (all_data = []) then Raise (KeyError "date")
  else
    traverse (λ o,
      d ← from_option Ok (Raise (ValueError (date o))) (to_datetime (date o));
      Ok (d, series_name o, to_numeric (value o))) all_data.

(** [api_response["Results"]["series"]] (line 44). *)
Definition series_of (api_response : body) : result (list series) :=
  match Results_key api_response with
  | no_Results => Raise (KeyError "Results")
  | no_series => Raise (KeyError "series")
  | with_series series_list => Ok series_list
  end.

(** Lines 33-75. *)
Definition clean_and_process_data (api_response : body) : result DataFrame :=
  series_list ← series_of api_response;
  df ← long_table (all_data series_list);
  df_pivot ← pivot df;
  df_pivot ← reset_index df_pivot;
  let df_pivot := sort_values true df_pivot in
  let df_pivot := dropna df_pivot in
  Ok df_pivot.

(** [df.to_csv(path, index=False)] renders the table as text. *)
Context (to_csv : DataFrame → string).

(** Lines 78-86. *)
Definition series_ids : list string :=
  ["LNS14000000"; "CES0000000001"; "CES0500000003"; "CES0500000007"].
Definition start_year : Z := 2022.
Definition end_year : Z := 2025.

(** Lines 88-91: the module-level execution. *)
Definition main_execution (post : network) : script () :=
  api_response ← pure (fetch_bls_data post series_ids start_year end_year);
  df_clean ← pure (clean_and_process_data api_response);
  write_file "labor_data.csv" (to_csv df_clean).

End reshape.

End get_data.

(** ** app.py *)

Module app.

(** A trace of the chart ([go.Scatter]) and the figure that holds them;
    [V] is the type of the values of the table. *)
Record Scatter (V : Type) : Type := mkScatter {
  x : list Timestamp;
  y : list V;
  name : string;
  line_color : string;
  line_width : Z;
  mode : string
}.
Arguments mkScatter {V} x y name line_color line_width mode.
Arguments x {V} s.
Arguments y {V} s.
Arguments name {V} s.
Arguments line_color {V} s.
Arguments line_width {V} s.
Arguments mode {V} s.

Record Layout : Type := mkLayout {
  title : string;
  xaxis_title : string;
  yaxis_title : string;
  hovermode : string;
  height : Z;
  template : string;
  legend_orientation : string;
  legend_yanchor : string;
  legend_y : float;
  legend_xanchor : string;
  legend_x : float
}.

Record Figure (V : Type) : Type := mkFigure {
  traces : list (Scatter V);
  layout : Layout
}.
Arguments mkFigure {V} traces layout.
Arguments traces {V} f.
Arguments layout {V} f.

(** What a run puts on the page, in the order of the calls.  The page
    configuration of lines 7-11 (title, icon, wide layout) precedes [main]
    and shows nothing; the layout containers ([with col1:], the expander)
    are kept as markers before the elements they hold. *)
Inductive element (V : Type) : Type :=
| st_title (body : string)
| st_markdown (body : string)
| st_error (body : string)
| st_info (body : string)
| st_header (body : string)
| st_columns (spec : list Z)
| st_metric (label value delta delta_color : string)
| st_divider
| st_selectbox (label : string) (options : list string) (index : nat)
| st_multiselect (label : string) (options default : list string)
| st_plotly_chart (fig : Figure V)
| st_warning (body : string)
| st_expander (label : string)
| st_dataframe (df : Frame Timestamp V).
Arguments st_title {V} body.
Arguments st_markdown {V} body.
Arguments st_error {V} body.
Arguments st_info {V} body.
Arguments st_header {V} body.
Arguments st_columns {V} spec.
Arguments st_metric {V} label value delta delta_color.
Arguments st_divider {V}.
Arguments st_selectbox {V} label options index.
Arguments st_multiselect {V} label options default.
Arguments st_plotly_chart {V} fig.
Arguments st_warning {V} body.
Arguments st_expander {V} label.
Arguments st_dataframe {V} df.

(** A step of the render pass: the elements it shows and its result. *)
Definition UI (V A : Type) : Type := list (element V) * result A.

#[global] Instance UI_ret {V} : MRet (UI V) := λ A a, ([], Ok a).
#[global] Instance UI_bind {V} : MBind (UI V) := λ A B k m,
  match m with
  | (out, Ok a) => let '(out', r) := k a in ((out ++ out')%list, r)
  | (out, Raise e) => (out, Raise e)
  end.

Definition show {V} (e : element V) : UI V () := ([e], Ok ()).
Definition lift {V A} (r : result A) : UI V A := ([], r).

(** [st.stop()]: the run ends here; Streamlit catches the exception. *)
Definition st_stop {V A} : UI V A := ([], Raise StopException).

(** How Streamlit ends a pass: the script returned, [st.stop()] was
    called, or an exception escaped and is shown with its traceback. *)
Inductive outcome : Type :=
| finished
| stopped
| uncaught (e : exn).

Definition outcome_of (r : result ()) : outcome :=
  match r with
  | Ok _ => finished
  | Raise StopException => stopped
  | Raise e => uncaught e
  end.

Definition nl : string := String (ascii_of_nat 10) "".

Section dtype.
(** The values of the loaded table. *)
Context {V : Type} `{!Dtype V}.

(** Lines 20-26.  The difference is the one of the dtype of the column,
    and the result is the numpy scalar [format] then reads. *)
Definition calculate_change (df : Frame Timestamp V) (column_name : string) :
    result num :=
  if decide (len df < 2)%nat then Ok (Int 0)
  else
    col ← getitem df column_name;
    latest ← iloc col (-1);
    col ← getitem df column_name;
    previous ← iloc col (-2);
    Ok (item (sub latest previous)).

(** Lines 126-131. *)
Definition filter_time_range (time_range : string) (df : Frame Timestamp V) :
    Frame Timestamp V :=
  if decide (time_range = "Last 12 Months") then tail 12 df
  else if decide (time_range = "Last 6 Months") then tail 6 df
  else df.

Definition series_options : list string :=
  ["Unemployment_Rate"; "Total_Nonfarm_Employees";
   "Avg_Hourly_Earnings"; "Avg_Weekly_Hours"].

(** Lines 151-156. *)
Definition colors : gmap string string :=
  <["Unemployment_Rate" := "#FF6B6B"]>
  (<["Total_Nonfarm_Employees" := "#4ECDC4"]>
  (<["Avg_Hourly_Earnings" := "#45B7D1"]>
  (<["Avg_Weekly_Hours" := "#FFA07A"]> ∅))).

(** Lines 159-164. *)
Definition display_names : gmap string string :=
  <["Unemployment_Rate" := "Unemployment Rate (%)"]>
  (<["Total_Nonfarm_Employees" := "Total Nonfarm Employees (thousands)"]>
  (<["Avg_Hourly_Earnings" := "Avg Hourly Earnings ($)"]>
  (<["Avg_Weekly_Hours" := "Avg Weekly Hours"]> ∅))).

(** [d[k]] on a [dict]. *)
Definition dict_getitem (d : gmap string string) (k : string) : result string :=
  from_option Ok (Raise (KeyError k)) (d !! k).

(** Lines 167-175: one trace. *)
Definition scatter (df_filtered : Frame Timestamp V) (series : string) :
    result (Scatter V) :=
  let x := (rows df_filtered).*1 in
  y ← getitem df_filtered series;
  name ← dict_getitem display_names series;
  color ← dict_getitem colors series;
  Ok (mkScatter x y name color 2 "lines+markers").

(** Lines 177-191. *)
Definition chart_layout : Layout :=
  mkLayout "US Labor Statistics Trends" "Date" "Value" "x unified" 500
    "plotly_white" "h" "bottom" 1.02 "right" 1.

(** Lines 146-195. *)
Definition chart (df_filtered : Frame Timestamp V) (selected_series : list string) :
    UI V () :=
  if decide (selected_series ≠ []) then
    traces ← lift (traverse (scatter df_filtered) selected_series);
    show (st_plotly_chart (mkFigure traces chart_layout))
  else
    show (st_warning "Please select at least one series to display.").

(** [df["date"].min().strftime("%B %Y")]; [NaT] has no [strftime]. *)
Definition strftime (d : option Timestamp) : result string :=
  match d with
  | Some ts => Ok (strftime_B_Y ts)
  | None => Raise (ValueError "NaTType does not support strftime")
  end.

Definition intro_text : string :=
  nl ++ "    This interactive dashboard visualizes key trends in US labor statistics, " ++ nl
  ++ "    sourcing data directly from the **Bureau of Labor Statistics (BLS) Public API**." ++ nl
  ++ "    " ++ nl
  ++ "    Data includes the last three years of monthly observations across four critical indicators:" ++ nl
  ++ "    - **Unemployment Rate** (seasonally adjusted)" ++ nl
  ++ "    - **Total Nonfarm Employment** (in thousands)" ++ nl
  ++ "    - **Average Hourly Earnings** (private sector)" ++ nl
  ++ "    - **Average Weekly Hours** (private sector)" ++ nl
  ++ "    ".

Definition footer_text : string :=
  nl ++ "    **Data Source:** [U.S. Bureau of Labor Statistics](https://www.bls.gov/)  " ++ nl
  ++ "    **Last Updated:** Check the date range above for the most recent data point." ++ nl
  ++ "    ".

Definition missing_file_text : string :=
  "⚠️ Data file 'labor_data.csv' not found. Please run 'get_data.py' first to fetch the data.".

Section render.
(** [pd.read_csv] on the text of the file, the dates still text; and
    [pd.to_datetime] on one of them, [None] when it raises. *)
Context (read_csv : string → result (Frame string V)).
Context (to_datetime : string → option Timestamp).
(** [str] of a [float]: the shortest text that reads back as it. *)
Context (str_float : float → string).

(** Lines 13-18. *)
Definition load_data (files : gmap string string) : result (Frame Timestamp V) :=
  text ← from_option Ok (Raise (FileNotFoundError "labor_data.csv"))
           (files !! "labor_data.csv");
  df ← read_csv text;
  dated ← traverse (λ r : string * list V,
             d ← from_option Ok (Raise (ValueError r.1)) (to_datetime r.1);
             Ok (d, r.2)) (rows df);
  Ok (mkFrame (columns df) dated).

(** Lines 28-38. *)
Definition format_value (value : num) (metric_type : string) : result string :=
  if decide (metric_type = "rate") then
    s ← format_num_f false false 1 value; Ok (s ++ "%")
  else if decide (metric_type = "employees") then
    s ← format_num_f false true 0 value; Ok (s ++ "K")
  else if decide (metric_type = "earnings") then
    s ← format_num_f false false 2 value; Ok ("$" ++ s)
  else if decide (metric_type = "hours") then
    format_num_f false false 1 value
  else
    Ok match value with
       | Int z => str_int z
       | Float f => str_float f
       end.

(** Lines 69-108: the four summary cards. *)
Definition summary_cards (df : Frame Timestamp V) : UI V () :=
  col ← lift (getitem df "Unemployment_Rate");
  latest_unemp ← lift (iloc col (-1));
  change_unemp ← lift (calculate_change df "Unemployment_Rate");
  value ← lift (format_value (item latest_unemp) "rate");
  delta ← lift (format_num_f true false 1 change_unemp);
  show (st_metric "Unemployment Rate" value (delta ++ "%") "inverse");;
  col ← lift (getitem df "Total_Nonfarm_Employees");
  latest_emp ← lift (iloc col (-1));
  change_emp ← lift (calculate_change df "Total_Nonfarm_Employees");
  value ← lift (format_value (item latest_emp) "employees");
  delta ← lift (format_num_f true true 0 change_emp);
  show (st_metric "Total Nonfarm Employees" value (delta ++ "K") "normal");;
  col ← lift (getitem df "Avg_Hourly_Earnings");
  latest_earnings ← lift (iloc col (-1));
  change_earnings ← lift (calculate_change df "Avg_Hourly_Earnings");
  value ← lift (format_value (item latest_earnings) "earnings");
  delta ← lift (format_num_f true false 2 change_earnings);
  show (st_metric "Avg Hourly Earnings" value ("$" ++ delta) "normal");;
  col ← lift (getitem df "Avg_Weekly_Hours");
  latest_hours ← lift (iloc col (-1));
  change_hours ← lift (calculate_change df "Avg_Weekly_Hours");
  value ← lift (format_value (item latest_hours) "hours");
  delta ← lift (format_num_f true false 1 change_hours);
  show (st_metric "Avg Weekly Hours" value delta "normal").

(** Lines 40-210.  [time_range] and [selected_series] are what the two
    widgets return for this pass. *)
Definition main (files : gmap string string)
    (time_range : string) (selected_series : list string) : UI V () :=
  show (st_title "📊 US Labor Statistics Dashboard");;
  show (st_markdown intro_text);;
  df ← match load_data files with
       | Ok df => mret df
       | Raise (FileNotFoundError _) => show (st_error missing_file_text);; st_stop
       | Raise e => lift (Raise e)
       end;
  first ← lift (strftime (date_min df));
  last ← lift (strftime (date_max df));
  show (st_info ("📅 Data Range: " ++ first ++ " to " ++ last));;
  show (st_header "📈 Current Indicators");;
  show (st_columns [1; 1; 1; 1]);;
  summary_cards df;;
  show st_divider;;
  show (st_header "📉 Time Series Analysis");;
  show (st_columns [1; 3]);;
  show (st_selectbox "Select Time Range:"
          ["Full Range"; "Last 12 Months"; "Last 6 Months"] 0);;
  let df_filtered := filter_time_range time_range df in
  show (st_multiselect "Select Series to Display:" series_options
          ["Unemployment_Rate"; "Total_Nonfarm_Employees"]);;
  chart df_filtered selected_series;;
  show (st_expander "📋 View Raw Data");;
  show (st_dataframe (sort_values false df_filtered));;
  show st_divider;;
  show (st_markdown footer_text).

End render.

End dtype.

End app.

(** ** Plain-text readers and writers

    Instances of the text conversions, for running the model on examples:
    ISO dates, plain decimal numbers, comma-separated files.  The theorems
    below do not depend on them. *)

Module sample.

Definition digit (c : ascii) : option Z :=
  let n := Z.of_N (N_of_ascii c) in
  if (48 <=? n)%Z && (n <=? 57)%Z then Some (n - 48) else None.

Fixpoint digits_acc (s : string) (acc : Z) : option Z :=
  match s with
  | EmptyString => Some acc
  | String c rest => d ← digit c; digits_acc rest (10 * acc + d)
  end.

(** A non-empty run of decimal digits. *)
Definition natural (s : string) : option Z :=
  match s with
  | EmptyString => None
  | _ => digits_acc s 0
  end.

Fixpoint split (sep : ascii) (s : string) : list string :=
  match s with
  | EmptyString => [EmptyString]
  | String c rest =>
      if Ascii.eqb c sep then EmptyString :: split sep rest
      else match split sep rest with
           | [] => [String c EmptyString]
           | w :: ws => String c w :: ws
           end
  end.

Definition is_leap (y : Z) : bool :=
  ((y mod 4 =? 0)%Z && negb (y mod 100 =? 0)%Z) || (y mod 400 =? 0)%Z.

Definition days_in_month (y m : Z) : Z :=
  if (m =? 2)%Z then (if is_leap y then 29 else 28)
  else if (m =? 4)%Z || (m =? 6)%Z || (m =? 9)%Z || (m =? 11)%Z then 30
  else 31.

(** [YYYY-MM-DD], a real calendar day within the range of a [Timestamp]. *)
Definition to_datetime (s : string) : option Timestamp :=
  match split "-" s with
  | [ys; ms; ds] =>
      if (String.length ys =? 4)%nat && (String.length ms =? 2)%nat
         && (String.length ds =? 2)%nat
      then
        y ← natural ys; m ← natural ms; d ← natural ds;
        let ts := (days_from_civil y m d * ns_per_day)%Z in
        if (1 <=? m)%Z && (m <=? 12)%Z && (1 <=? d)%Z && (d <=? days_in_month y m)%Z
           && (- 2 ^ 63 <? ts)%Z && (ts <? 2 ^ 63)%Z
        then Some ts else None
      else None
  | _ => None
  end.

(** The binary64 nearest to [n / d] ([d > 0]), ties to even: the
    quotient is cut with a sticky last bit, then rounded once. *)
Definition nearest_float (neg : bool) (n d : Z) : float :=
  let k := (Z.log2 d + 64)%Z in
  let q := (n * 2 ^ k / d)%Z in
  let sticky := if ((n * 2 ^ k) mod d =? 0)%Z then q else Z.lor q 1 in
  SF2Prim (binary_normalize prec emax (if neg then - sticky else sticky)%Z (- k) neg).

Definition unsigned_decimal (neg : bool) (s : string) : float :=
  match split "." s with
  | [i] => match natural i with
           | Some n => nearest_float neg n 1
           | None => nan
           end
  | [i; f] => match natural i, natural f with
              | Some n, Some m =>
                  let p := Z.of_nat (String.length f) in
                  nearest_float neg (n * 10 ^ p + m) (10 ^ p)
              | _, _ => nan
              end
  | _ => nan
  end.

(** [digits], [digits.digits], with an optional [-]; [nan] otherwise. *)
Definition to_numeric (s : string) : float :=
  match s with
  | String "-" rest => unsigned_decimal true rest
  | _ => unsigned_decimal false s
  end.

Fixpoint strip_zeros (s : string) : string :=
  match s with
  | EmptyString => EmptyString
  | String c rest =>
      match strip_zeros rest with
      | EmptyString =>
          if Ascii.eqb c "0" then EmptyString
          else if Ascii.eqb c "." then ".0"
          else String c EmptyString
      | r => String c r
      end
  end.

(** A [float] written out in full: its exact decimal expansion. *)
Definition str_float (x : float) : string :=
  match Prim2SF x with
  | S754_finite _ _ e =>
      strip_zeros (format_f false false (Z.to_nat (Z.max 1 (- e))) x)
  | _ => format_f false false 1 x
  end.

Definition two_digits (n : Z) : string :=
  (if (n <? 10)%Z then "0" else "") ++ str_int n.

Definition iso_date (ts : Timestamp) : string :=
  let '(y, m, d) := civil_from_days (ts / ns_per_day) in
  str_int y ++ "-" ++ two_digits m ++ "-" ++ two_digits d.

Definition join (sep : string) (l : list string) : string :=
  match l with
  | [] => ""
  | w :: ws => foldl (λ acc v, acc ++ sep ++ v) w ws
  end.

Definition newline : string := String (ascii_of_nat 10) "".

(** One header line, one line per row, the date first. *)
Definition to_csv (df : DataFrame) : string :=
  join newline
    (join "," ("date" :: columns df)
     :: ((λ r, join "," (iso_date r.1 :: (str_float <$> r.2))) <$> rows df))
  ++ newline.

Definition field (s : string) : float :=
  match s with
  | EmptyString => nan
  | _ => to_numeric s
  end.

(** The inverse layout: a header with a [date] label, then the rows, the
    fields still text. *)
Definition read_fields (text : string) : result (Frame string string) :=
  match filter (λ l, l ≠ "") (split (ascii_of_nat 10) text) with
  | [] => Raise (ValueError "No columns to parse from file")
  | header :: lines =>
      let labels := split "," header in
      match list_find (λ c, c = "date") labels with
      | None => Raise (KeyError "date")
      | Some (i, _) =>
          rows ← traverse (λ l,
            let fields := split "," l in
            if decide (length fields = length labels) then
              Ok (default "" (fields !! i), delete i fields)
            else Raise (ValueError "Error tokenizing data")) lines;
          Ok (mkFrame (delete i labels) rows)
      end
  end.

(** A reader for the files the Fetcher writes, where every number has a
    decimal point: every column is [float64]. *)
Definition read_csv (text : string) : result (Frame string float) :=
  df ← read_fields text;
  Ok (mkFrame (columns df)
        ((λ r : string * list string, (r.1, field <$> r.2)) <$> rows df)).

(** A whole number: digits, with an optional [-]. *)
Definition integer (s : string) : option Z :=
  match s with
  | String "-" rest => Z.opp <$> natural rest
  | _ => natural s
  end.

(** The whole numbers of a column, when every field is one and all lie
    between [lo] and [hi]. *)
Definition integers (lo hi : Z) (fields : list string) : option (list Z) :=
  zs ← mapM integer fields;
  if forallb (λ z, (lo <=? z)%Z && (z <=? hi)%Z) zs then Some zs else None.

(** The dtype [pd.read_csv] gives a column of numbers: [int64] when every
    field is a whole number an [int64] can hold; else [uint64] when every
    field is a whole number a [uint64] can hold; [float64] for the
    columns with a decimal point or an empty field. *)
Definition infer_dtype (fields : list string) : list scalar :=
  match integers (- 2 ^ 63) (2 ^ 63 - 1) fields with
  | Some zs => int64 <$> zs
  | None =>
      match integers 0 (2 ^ 64 - 1) fields with
      | Some zs => uint64 <$> zs
      | None => float64 ∘ field <$> fields
      end
  end.

(** A reader for files of numbers that gives each column its dtype.
    A column with other text, or with whole numbers that neither [int64]
    nor [uint64] holds together, is an [object] column in pandas, which
    [scalar] does not have: this reader is for the other files. *)
Definition read_csv_dtypes (text : string) : result (Frame string scalar) :=
  df ← read_fields text;
  let column (j : nat) : list scalar :=
    infer_dtype ((λ r : string * list string, default "" (r.2 !! j)) <$> rows df) in
  let value (i j : nat) : scalar := default (float64 nan) (column j !! i) in
  Ok (mkFrame (columns df)
        (imap (λ i (r : string * list string),
                 (r.1, imap (λ j _, value i j) r.2)) (rows df))).

End sample.

(** ** Vocabulary of the statements *)

(** The request the script sends. *)
Definition the_request : bls.request :=
  bls.mkRequest "https://api.bls.gov/publicAPI/v2/timeseries/data/"
    ["LNS14000000"; "CES0000000001"; "CES0500000003"; "CES0500000007"]
    "2022" "2025" "application/json".

(** The periods the specification lists for a monthly observation. *)
Definition month_periods : list string :=
  ["M01"; "M02"; "M03"; "M04"; "M05"; "M06";
   "M07"; "M08"; "M09"; "M10"; "M11"; "M12"].

Definition month_numbers : list string :=
  ["01"; "02"; "03"; "04"; "05"; "06"; "07"; "08"; "09"; "10"; "11"; "12"].

(** The column name of a series: its entry in [series_names], else the
    identifier itself ([series_names.get(series_id, series_id)]). *)
Definition column_name (series_id : string) : string :=
  default series_id (get_data.series_names !! series_id).

(** The color and the display label the source fixes for each series. *)
Definition trace_style : list (string * string * string) :=
  [("Unemployment_Rate", "Unemployment Rate (%)", "#FF6B6B");
   ("Total_Nonfarm_Employees", "Total Nonfarm Employees (thousands)", "#4ECDC4");
   ("Avg_Hourly_Earnings", "Avg Hourly Earnings ($)", "#45B7D1");
   ("Avg_Weekly_Hours", "Avg Weekly Hours", "#FFA07A")].

Definition is_card {V} (e : app.element V) : bool :=
  match e with
  | app.st_metric _ _ _ _ => true
  | _ => false
  end.

Definition is_chart_or_table {V} (e : app.element V) : bool :=
  match e with
  | app.st_plotly_chart _ | app.st_dataframe _ => true
  | _ => false
  end.

Definition is_other {V} (e : app.element V) : bool := negb (is_chart_or_table e).

(** Two calls end the same way: both return, or both raise the same. *)
Definition same_outcome {A B} (r1 : result A) (r2 : result B) : Prop :=
  match r1, r2 with
  | Ok _, Ok _ => True
  | Raise e1, Raise e2 => e1 = e2
  | _, _ => False
  end.

(** The request [fetch_bls_data] builds from its arguments. *)
Definition request_for (series_ids : list string) (start_year end_year : Z) :
    bls.request :=
  bls.mkRequest "https://api.bls.gov/publicAPI/v2/timeseries/data/" series_ids
    (str_int start_year) (str_int end_year) "application/json".

(** The observation the loop appends for an item it keeps (lines 55-62). *)
Definition observation_of (series_name : string) (item : bls.item) :
    get_data.observation :=
  get_data.mkObservation
    (bls.year item +:+ "-" +:+ slice_from_1 (bls.period item) +:+ "-01")
    series_name (bls.value item).

(** A row of the typed long table is the observation it comes from, with
    the date and the value converted (lines 64-66). *)
Definition typed_row (to_datetime : string → option Timestamp)
    (to_numeric : string → float) (o : get_data.observation) (r : long_row) : Prop :=
  to_datetime (get_data.date o) = Some r.1.1
  ∧ r.1.2 = get_data.series_name o
  ∧ r.2 = to_numeric (get_data.value o).

#[global] Instance observation_eq_dec : EqDecision get_data.observation.
Proof. solve_decision. Defined.

(** The integers a [numpy.int64] can hold, and a [numpy.uint64]. *)
Definition in_int64 (z : Z) : Prop := (- 2 ^ 63 ≤ z < 2 ^ 63)%Z.

Definition in_uint64 (z : Z) : Prop := (0 ≤ z < 2 ^ 64)%Z.

(** [df[c].iloc[-1]], the latest value of a column. *)
Definition last_value {V} `{!Dtype V} (df : Frame Timestamp V) (c : string) :
    result V :=
  col ← getitem df c; iloc col (-1).

(** The delta of a card before its unit: the change of the column in the
    format [[+][,].<p>f]. *)
Definition delta_text {V} `{!Dtype V} (df : Frame Timestamp V) (c : string)
    (grouping : bool) (p : nat) : result string :=
  change ← app.calculate_change df c; format_num_f true grouping p change.

(** The four cards of lines 69-108, from the latest values and the delta
    texts of the four columns; a value is formatted as the [float] it
    converts to. *)
Definition four_cards {V} `{!Dtype V} (u n a w : V) (du dn da dw : string) :
    list (app.element V) :=
  [app.st_metric "Unemployment Rate"
     (format_f false false 1 (as_float u) +:+ "%") (du +:+ "%") "inverse";
   app.st_metric "Total Nonfarm Employees"
     (format_f false true 0 (as_float n) +:+ "K") (dn +:+ "K") "normal";
   app.st_metric "Avg Hourly Earnings"
     ("$" +:+ format_f false false 2 (as_float a)) ("$" +:+ da) "normal";
   app.st_metric "Avg Weekly Hours"
     (format_f false false 1 (as_float w)) dw "normal"].

(** ** Fixtures *)

Module fixture.

Definition jan_2024 : Timestamp := 1704067200000000000.
Definition feb_2024 : Timestamp := 1706745600000000000.
Definition mar_2024 : Timestamp := 1709251200000000000.

Definition three_months : DataFrame :=
  mkFrame ["Unemployment_Rate"; "Total_Nonfarm_Employees"]
    [(jan_2024, [3.7; 157049]%float);
     (feb_2024, [3.8; 157285]%float);
     (mar_2024, [3.9; 157531]%float)].

Definition all_indicators : DataFrame :=
  mkFrame ["Avg_Hourly_Earnings"; "Avg_Weekly_Hours";
           "Total_Nonfarm_Employees"; "Unemployment_Rate"]
    [(jan_2024, [34.55; 34.2; 157049; 3.7]%float);
     (feb_2024, [34.61; 34.3; 157285; 3.8]%float);
     (mar_2024, [34.75; 34.4; 157531; 3.9]%float)].

(** The file of an earlier, successful run. *)
Definition earlier_run : gmap string string :=
  {["labor_data.csv" := sample.to_csv all_indicators]}.

Definition quarter_and_annual : list bls.series :=
  [bls.mkSeries "LNS14000000"
     [bls.mkItem "2024" "M03" "3.8"; bls.mkItem "2024" "Q01" "3.8";
      bls.mkItem "2024" "A01" "4.0"];
   bls.mkSeries "LNU04000000" [bls.mkItem "2024" "M13" "4.0"]].

(** The API is down. *)
Definition unavailable : bls.network :=
  λ _, Ok (bls.mkResponse 503 None).

(** The API answers, and refuses the request. *)
Definition refusal : bls.response :=
  bls.mkResponse 200
    (Some (bls.json_object
             (bls.mkBody (Some "REQUEST_NOT_PROCESSED")
                (Some "['Request could not be serviced, as the daily threshold has been reached.']")
                bls.no_Results))).

Definition refused : bls.network := λ _, Ok refusal.


(** Two series over three months, newest first as the API sends them:
    the employment figure of March is not out yet, and the rate has a
    quarterly observation too. *)
Definition first_quarter : bls.body :=
  bls.mkBody (Some "REQUEST_SUCCEEDED") None
    (bls.with_series
      [bls.mkSeries "LNS14000000"
         [bls.mkItem "2024" "M03" "3.8"; bls.mkItem "2024" "M02" "3.9";
          bls.mkItem "2024" "M01" "3.7"; bls.mkItem "2024" "Q01" "3.8"];
       bls.mkSeries "CES0000000001"
         [bls.mkItem "2024" "M03" "-"; bls.mkItem "2024" "M02" "157285";
          bls.mkItem "2024" "M01" "157049"]]).

Definition first_quarter_table : DataFrame :=
  mkFrame ["Total_Nonfarm_Employees"; "Unemployment_Rate"]
    [(jan_2024, [157049; 3.7]%float);
     (feb_2024, [157285; 3.9]%float)].

(** March comes twice for the same series. *)
Definition march_twice : bls.body :=
  bls.mkBody (Some "REQUEST_SUCCEEDED") None
    (bls.with_series
      [bls.mkSeries "LNS14000000"
         [bls.mkItem "2024" "M03" "3.8"; bls.mkItem "2024" "M03" "3.9";
          bls.mkItem "2024" "M02" "3.9"]]).

Definition answers (b : bls.body) : bls.network :=
  λ _, Ok (bls.mkResponse 200 (Some (bls.json_object b))).

(** The first quarter again, the series and the months in another order. *)
Definition first_quarter_reordered : bls.body :=
  bls.mkBody (Some "REQUEST_SUCCEEDED") None
    (bls.with_series
      [bls.mkSeries "CES0000000001"
         [bls.mkItem "2024" "M01" "157049"; bls.mkItem "2024" "M03" "-";
          bls.mkItem "2024" "M02" "157285"];
       bls.mkSeries "LNS14000000"
         [bls.mkItem "2024" "Q01" "3.8"; bls.mkItem "2024" "M01" "3.7";
          bls.mkItem "2024" "M02" "3.9"; bls.mkItem "2024" "M03" "3.8"]]).

(** Quarterly and annual observations only. *)
Definition quarters_only : bls.body :=
  bls.mkBody (Some "REQUEST_SUCCEEDED") None
    (bls.with_series
      [bls.mkSeries "LNS14000000"
         [bls.mkItem "2024" "Q01" "3.8"; bls.mkItem "2023" "A01" "3.6"]]).

(** The annual average comes as period M13, after December. *)
Definition with_annual_average : bls.body :=
  bls.mkBody (Some "REQUEST_SUCCEEDED") None
    (bls.with_series
      [bls.mkSeries "LNS14000000"
         [bls.mkItem "2023" "M12" "3.7"; bls.mkItem "2023" "M13" "3.6";
          bls.mkItem "2023" "M11" "3.7"]]).

(** A series whose identifier is the word date. *)
Definition series_called_date : bls.body :=
  bls.mkBody (Some "REQUEST_SUCCEEDED") None
    (bls.with_series
      [bls.mkSeries "LNS14000000" [bls.mkItem "2024" "M01" "3.7"];
       bls.mkSeries "date" [bls.mkItem "2024" "M01" "1"]]).

(** The file of an earlier run beside a file of the user. *)
Definition two_files : gmap string string :=
  <["notes.txt" := "keep"]> earlier_run.

(** One month of the four indicators. *)
Definition one_month : DataFrame :=
  mkFrame ["Avg_Hourly_Earnings"; "Avg_Weekly_Hours";
           "Total_Nonfarm_Employees"; "Unemployment_Rate"]
    [(mar_2024, [34.75; 34.4; 157531; 3.9]%float)].

(** A file without a line. *)
Definition empty_file : gmap string string := {["labor_data.csv" := ""]}.

(** Eight months, from August 2023 to March 2024. *)
Definition eight_months : DataFrame :=
  mkFrame ["Unemployment_Rate"]
    [((days_from_civil 2023 8 1 * ns_per_day)%Z, [3.8]%float);
     ((days_from_civil 2023 9 1 * ns_per_day)%Z, [3.8]%float);
     ((days_from_civil 2023 10 1 * ns_per_day)%Z, [3.8]%float);
     ((days_from_civil 2023 11 1 * ns_per_day)%Z, [3.7]%float);
     ((days_from_civil 2023 12 1 * ns_per_day)%Z, [3.7]%float);
     (jan_2024, [3.7]%float);
     (feb_2024, [3.9]%float);
     (mar_2024, [3.8]%float)].

(** The first quarter as [read_csv] types it when the counts of employees
    are written without a decimal point: the rate is [float64], the count
    is [int64]. *)
Definition three_months_typed : Frame Timestamp scalar :=
  mkFrame ["Unemployment_Rate"; "Total_Nonfarm_Employees"]
    [(jan_2024, [float64 3.7; int64 157049]);
     (feb_2024, [float64 3.8; int64 157285]);
     (mar_2024, [float64 3.9; int64 157531])].

Definition one_month_typed : Frame Timestamp scalar :=
  mkFrame ["Unemployment_Rate"; "Total_Nonfarm_Employees"]
    [(mar_2024, [float64 3.9; int64 157531])].

(** The least and the greatest [int64], one month after the other. *)
Definition int64_ends : Frame Timestamp scalar :=
  mkFrame ["Total_Nonfarm_Employees"]
    [(jan_2024, [int64 (-9223372036854775808)]);
     (feb_2024, [int64 9223372036854775807])].

(** A file that writes the counts of employees as whole numbers. *)
Definition typed_file : gmap string string :=
  {["labor_data.csv" :=
      "date,Avg_Hourly_Earnings,Avg_Weekly_Hours,Total_Nonfarm_Employees,Unemployment_Rate"
      ++ sample.newline
      ++ "2024-01-01,34.55,34.2,157049,3.7" ++ sample.newline
      ++ "2024-02-01,34.61,34.3,157285,3.8" ++ sample.newline
      ++ "2024-03-01,34.75,34.4,157531,3.9" ++ sample.newline]}.

Definition all_indicators_typed : Frame Timestamp scalar :=
  mkFrame ["Avg_Hourly_Earnings"; "Avg_Weekly_Hours";
           "Total_Nonfarm_Employees"; "Unemployment_Rate"]
    [(jan_2024, [float64 34.55; float64 34.2; int64 157049; float64 3.7]);
     (feb_2024, [float64 34.61; float64 34.3; int64 157285; float64 3.8]);
     (mar_2024, [float64 34.75; float64 34.4; int64 157531; float64 3.9])].

Definition int64_file : gmap string string :=
  {["labor_data.csv" :=
      "date,Total_Nonfarm_Employees" ++ sample.newline
      ++ "2024-01-01,-9223372036854775808" ++ sample.newline
      ++ "2024-02-01,9223372036854775807" ++ sample.newline]}.

(** The greatest [uint64], then zero. *)
Definition uint64_ends : Frame Timestamp scalar :=
  mkFrame ["Total_Nonfarm_Employees"]
    [(jan_2024, [uint64 18446744073709551615]);
     (feb_2024, [uint64 0])].

Definition uint64_file : gmap string string :=
  {["labor_data.csv" :=
      "date,Total_Nonfarm_Employees" ++ sample.newline
      ++ "2024-01-01,18446744073709551615" ++ sample.newline
      ++ "2024-02-01,0" ++ sample.newline]}.

(** The four requested series over the first quarter, newest first. *)
Definition four_series : bls.body :=
  bls.mkBody (Some "REQUEST_SUCCEEDED") None
    (bls.with_series
      [bls.mkSeries "LNS14000000"
         [bls.mkItem "2024" "M03" "3.9"; bls.mkItem "2024" "M02" "3.8";
          bls.mkItem "2024" "M01" "3.7"];
       bls.mkSeries "CES0000000001"
         [bls.mkItem "2024" "M03" "157531"; bls.mkItem "2024" "M02" "157285";
          bls.mkItem "2024" "M01" "157049"];
       bls.mkSeries "CES0500000003"
         [bls.mkItem "2024" "M03" "34.75"; bls.mkItem "2024" "M02" "34.61";
          bls.mkItem "2024" "M01" "34.55"];
       bls.mkSeries "CES0500000007"
         [bls.mkItem "2024" "M03" "34.4"; bls.mkItem "2024" "M02" "34.3";
          bls.mkItem "2024" "M01" "34.2"]]).

End fixture.

(** ** The dtypes are numeric *)

(** [float] of an [int64] or a [uint64] is never out of range: a mantissa
    of at most 64 bits is rounded at an exponent far below the largest
    one. *)
Local Close Scope string_scope.

Lemma Zdigits2_log2 (z : Z) : 0 < z → Zdigits2 z = Z.log2 z + 1.
Proof.
  destruct z as [|p|p]; try lia. intros _. simpl.
  induction p as [p IH|p IH|]; simpl; try lia.
  - rewrite Pos2Z.inj_succ. destruct p; simpl in *; lia.
  - rewrite Pos2Z.inj_succ. destruct p; simpl in *; lia.
Qed.

Lemma Zdigits2_nonneg (z : Z) : (0 ≤ Zdigits2 z)%Z.
Proof. destruct z; simpl; lia. Qed.

Lemma Zdigits2_le (a b : Z) : 0 ≤ a ≤ b → Zdigits2 a ≤ Zdigits2 b.
Proof.
  intros [Ha Hab]. destruct (Z.eq_dec a 0) as [->|Hne].
  - apply Zdigits2_nonneg.
  - rewrite !Zdigits2_log2 by lia. pose proof (Z.log2_le_mono a b Hab). lia.
Qed.

Lemma Zdigits2_succ (a : Z) : 0 ≤ a → Zdigits2 (a + 1) ≤ Zdigits2 a + 1.
Proof.
  intros Ha. destruct (Z.eq_dec a 0) as [->|Hne]; [simpl; lia|].
  rewrite !Zdigits2_log2 by lia.
  pose proof (Z.log2_succ_le a). unfold Z.succ in *. lia.
Qed.

Lemma Zdigits2_bound (a : Z) (n : Z) : 0 ≤ n → 0 ≤ a < 2 ^ n → Zdigits2 a ≤ n.
Proof.
  intros Hn [Ha Hlt]. destruct (Z.eq_dec a 0) as [->|Hne]; [simpl; lia|].
  rewrite Zdigits2_log2 by lia.
  assert (Z.log2 a < n) by (apply Z.log2_lt_pow2; lia). lia.
Qed.

Lemma shr_1_bound mrs :
  0 ≤ shr_m mrs → 0 ≤ shr_m (shr_1 mrs) ≤ shr_m mrs.
Proof.
  destruct mrs as [m r s]. simpl. intros Hm.
  destruct m as [|[p|p|]|p]; simpl; lia.
Qed.

Lemma iter_shr_1_bound (p : positive) mrs :
  0 ≤ shr_m mrs → 0 ≤ shr_m (@SpecFloat.iter_pos _ shr_1 p mrs) ≤ shr_m mrs.
Proof.
  revert mrs. induction p as [p IH|p IH|]; intros mrs Hm; simpl.
  - pose proof (shr_1_bound mrs Hm) as H1.
    pose proof (IH (shr_1 mrs) (proj1 H1)) as H2.
    pose proof (IH _ (proj1 H2)) as H3. lia.
  - pose proof (IH mrs Hm) as H2.
    pose proof (IH _ (proj1 H2)) as H3. lia.
  - apply shr_1_bound; exact Hm.
Qed.

Lemma shr_bound mrs e n mrs' e' :
  0 ≤ shr_m mrs → shr mrs e n = (mrs', e') →
  e' = Z.max e (e + n) ∧ 0 ≤ shr_m mrs' ≤ shr_m mrs.
Proof.
  intros Hm. unfold shr. destruct n as [|p|p]; intros [= <- <-].
  - split; lia.
  - split; [lia|]. by apply iter_shr_1_bound.
  - split; lia.
Qed.

Lemma shr_fexp_bound m e l mrs' e' :
  0 ≤ m → shr_fexp prec emax m e l = (mrs', e') →
  e' = Z.max e (fexp prec emax (Zdigits2 m + e)) ∧ 0 ≤ shr_m mrs' ≤ m.
Proof.
  intros Hm. unfold shr_fexp. intros H.
  apply shr_bound in H as [-> Hb].
  - split; [lia|]. revert Hb. by destruct l as [|[]].
  - by destruct l as [|[]].
Qed.

Lemma round_nearest_even_bound m l :
  0 ≤ m → 0 ≤ round_nearest_even m l ≤ m + 1.
Proof.
  intros Hm. unfold round_nearest_even.
  destruct l as [|[]]; try lia. destruct (Z.even m); lia.
Qed.

(** Rounding a mantissa of at most [n] bits at an exponent of at most [k]
    does not reach the infinities as long as [n + k] is small. *)
Lemma binary_round_aux_finite sx m e n :
  0 ≤ m < 2 ^ n → 0 ≤ n ≤ 400 → e ≤ 0 →
  ∀ s, binary_round_aux prec emax sx m e loc_Exact ≠ S754_infinity s.
Proof.
  intros [Hm Hlt] Hn He s. unfold binary_round_aux.
  destruct (shr_fexp prec emax m e loc_Exact) as [mrs' e'] eqn:H1.
  apply shr_fexp_bound in H1 as [He' Hm']; [|done].
  destruct (shr_fexp prec emax _ e' loc_Exact) as [mrs'' e''] eqn:H2.
  pose proof (round_nearest_even_bound (shr_m mrs') (loc_of_shr_record mrs')
                (proj1 Hm')) as Hr.
  apply shr_fexp_bound in H2 as [He'' Hm'']; [|lia].
  destruct (shr_m mrs'') as [|p|p]; [done| |done].
  assert (Zdigits2 m ≤ n) as Hd by (apply Zdigits2_bound; lia).
  assert (Zdigits2 (round_nearest_even (shr_m mrs') (loc_of_shr_record mrs'))
          ≤ n + 1) as Hd'.
  { etrans; [apply Zdigits2_le; split; [apply Hr|apply Hr]|].
    etrans; [apply Zdigits2_succ; lia|].
    pose proof (Zdigits2_le (shr_m mrs') m Hm'). lia. }
  pose proof (Zdigits2_nonneg m).
  unfold fexp, emin in *. unfold prec, emax in *.
  rewrite (proj2 (Z.leb_le _ _)); [done|]. lia.
Qed.

Lemma binary_round_finite sx (p : positive) :
  Z.pos p < 2 ^ 64 →
  ∀ s, binary_round prec emax sx p 0 ≠ S754_infinity s.
Proof.
  intros Hp s. unfold binary_round.
  destruct (shl_align _ _ _) as [mz ez] eqn:Halign.
  unfold shl_align in Halign.
  assert (Zdigits2 (Z.pos p) ≤ 64) as Hd by (apply Zdigits2_bound; lia).
  simpl Zdigits2 in Hd.
  destruct (_ - 0) as [|k|k] eqn:Hk; injection Halign as <- <-.
  - apply (binary_round_aux_finite sx (Z.pos p) 0 64); lia.
  - apply (binary_round_aux_finite sx (Z.pos p) 0 64); lia.
  - apply (binary_round_aux_finite sx _ _ 64); unfold prec, emax, fexp, emin in *;
      [|lia|lia].
    change (Pos.iter xO p k) with (shift_pos k p).
    rewrite shift_pos_correct, Z.pow_pos_fold. split; [lia|].
    set (d := Z.pos (digits2_pos p)) in *.
    assert (Z.pos p < 2 ^ d) as Hlt.
    { change d with (Zdigits2 (Z.pos p)). rewrite Zdigits2_log2 by lia.
      apply Z.log2_spec. lia. }
    assert (Z.pos k = 53 - d) as -> by lia.
    apply Z.lt_trans with (2 ^ (53 - d) * 2 ^ d).
    + apply Z.mul_lt_mono_pos_l; [apply Z.pow_pos_nonneg; lia|done].
    + rewrite <- Z.pow_add_r by lia. apply Z.pow_lt_mono_r; lia.
Qed.

Lemma binary_normalize_finite (z : Z) (szero : bool) :
  - 2 ^ 64 < z < 2 ^ 64 →
  ∀ s, binary_normalize prec emax z 0 szero ≠ S754_infinity s.
Proof.
  intros Hz s. destruct z as [|p|p]; simpl; [done|..];
    apply binary_round_finite; lia.
Qed.

Lemma wrap64_range (z : Z) : (- 2 ^ 63 ≤ wrap64 z < 2 ^ 63)%Z.
Proof.
  unfold wrap64. pose proof (Z.mod_pos_bound (z + 2 ^ 63) (2 ^ 64)). lia.
Qed.

Lemma wrapu64_range (z : Z) : (0 ≤ wrapu64 z < 2 ^ 64)%Z.
Proof. unfold wrapu64. apply Z.mod_pos_bound. lia. Qed.

Lemma float_of_int_64 (z : Z) :
  - 2 ^ 64 < z < 2 ^ 64 →
  float_of_int z = Ok (SF2Prim (binary_normalize prec emax z 0 false)).
Proof.
  intros Hz. unfold float_of_int.
  pose proof (binary_normalize_finite z false Hz) as Hfin.
  destruct (binary_normalize prec emax z 0 false) as [|s| |] eqn:Hn; try done.
  destruct (Hfin s eq_refl).
Qed.

Lemma float_scalar_item (v : scalar) :
  float_of_num (scalar_item v) = Ok (scalar_float v).
Proof.
  destruct v as [z|z|x]; [| |done]; simpl; apply float_of_int_64.
  - pose proof (wrap64_range z). lia.
  - pose proof (wrapu64_range z). lia.
Qed.

Local Open Scope string_scope.

#[local] Instance float64_laws : DtypeLaws float.
Proof. by split. Qed.

#[local] Instance scalar_laws : DtypeLaws scalar.
Proof. split. apply float_scalar_item. Qed.

(** ** The formats and the readers on examples *)

Example format_f_samples :
  py.format_f false false 1 3.95 = "4.0" ∧
  py.format_f false false 1 4.963 = "5.0" ∧
  py.format_f false true 0 150234 = "150,234" ∧
  py.format_f false false 2 28.5 = "28.50" ∧
  py.format_f true false 1 (-0.04) = "-0.0" ∧
  py.format_f true true 0 1234567.5 = "+1,234,568" ∧
  py.format_f false false 1 0.25 = "0.2" ∧
  py.format_f false false 1 0.35 = "0.3" ∧
  py.format_f true false 1 0 = "+0.0".
Proof. vm_compute. repeat split. Qed.

Example sample_readers :
  sample.to_numeric "3.7" = 3.7%float ∧
  sample.to_numeric "150234" = 150234%float ∧
  sample.to_numeric "-0.1" = (-0.1)%float ∧
  sample.to_numeric "28.50" = 28.5%float ∧
  sample.to_numeric "0.000001" = 0.000001%float ∧
  sample.to_numeric "9007199254740993" = 9007199254740992%float ∧
  sample.to_numeric "3.70000000000000017763568394002504646778106689453125" = 3.7%float ∧
  PrimFloat.is_nan (sample.to_numeric "-") = true ∧
  sample.to_datetime "2024-03-01" = Some 1709251200000000000%Z ∧
  sample.to_datetime "2024-13-01" = None ∧
  sample.to_datetime "2023-02-29" = None ∧
  strftime_B_Y 1709251200000000000 = "March 2024" ∧
  sample.iso_date 1709251200000000000 = "2024-03-01" ∧
  sample.str_float 3.7 = "3.70000000000000017763568394002504646778106689453125" ∧
  sample.str_float 150234 = "150234.0" ∧
  sample.str_float 0 = "0.0".
Proof. vm_compute. repeat split. Qed.

Local Open Scope list_scope.

(** ** The Dashboard's helpers *)

Section format_value_examples.
Context (str_float : float → string).

(** C5: the metric formatter on the examples of the specification:
    a rate has one decimal and a trailing percent sign (3.95 gives 4.0%,
    4.963 gives 5.0%), an employee count is a grouped integer with a
    trailing K (150234, as [int] and as [float], gives 150,234K), earnings
    have a leading dollar sign and two decimals (28.5 gives $28.50), hours
    have one decimal (34.3 gives 34.3). *)
Theorem format_value_examples :
  app.format_value str_float (Float 3.95) "rate" = Ok "4.0%" ∧
  app.format_value str_float (Float 4.963) "rate" = Ok "5.0%" ∧
  app.format_value str_float (Int 150234) "employees" = Ok "150,234K" ∧
  app.format_value str_float (Float 150234) "employees" = Ok "150,234K" ∧
  app.format_value str_float (Float 28.5) "earnings" = Ok "$28.50" ∧
  app.format_value str_float (Float 34.3) "hours" = Ok "34.3".
Proof. repeat split; vm_compute; reflexivity. Qed.

End format_value_examples.

Section pandas_facts.
Context {D V : Type} `{!Dtype V}.
Implicit Types (df : Frame D V) (c : string).

Lemma getitem_length df c col : getitem df c = Ok col → length col = len df.
Proof.
  unfold getitem, len. destruct (list_find _ _) as [[i ?]|]; [|done].
  intros [= <-]. by rewrite length_fmap.
Qed.

Lemma iloc_back {A} (l : list A) (k : nat) (a : A) :
  (0 < k ≤ length l)%nat → l !! (length l - k)%nat = Some a →
  iloc l (- Z.of_nat k) = Ok a.
Proof.
  intros [Hk Hlen] Hl. unfold iloc.
  destruct (Z.ltb_spec (- Z.of_nat k) 0); [|lia].
  destruct (Z.ltb_spec (Z.of_nat (length l) + - Z.of_nat k) 0); [lia|].
  replace (Z.to_nat (Z.of_nat (length l) + - Z.of_nat k)) with (length l - k)%nat by lia.
  by rewrite Hl.
Qed.

Lemma tail_suffix (n : nat) df :
  rows df = take (len df - Nat.min n (len df)) (rows df) ++ rows (tail n df)
  ∧ len (tail n df) = Nat.min n (len df)
  ∧ columns (tail n df) = columns df.
Proof.
  unfold tail, len; simpl. split_and!; [|rewrite length_drop; lia|done].
  replace (length (rows df) - Nat.min n (length (rows df)))%nat
    with (length (rows df) - n)%nat by lia.
  by rewrite take_drop.
Qed.

End pandas_facts.

(** The change of a column, for the values of any dtype. *)
Lemma calculate_change_sub {V} `{!Dtype V} (df : Frame Timestamp V)
    (column_name : string) (col : list V) :
  (2 ≤ len df)%nat → getitem df column_name = Ok col →
  ∃ previous latest : V,
    col !! (len df - 2)%nat = Some previous ∧
    col !! (len df - 1)%nat = Some latest ∧
    app.calculate_change df column_name = Ok (item (sub latest previous)).
Proof.
  intros Hge Hcol. unfold app.calculate_change. rewrite decide_False by lia.
  pose proof (getitem_length _ _ _ Hcol) as Hlen.
  destruct (lookup_lt_is_Some_2 col (len df - 2)%nat) as [previous Hp]; [lia|].
  destruct (lookup_lt_is_Some_2 col (len df - 1)%nat) as [latest Hl]; [lia|].
  exists previous, latest. split_and!; [done..|].
  rewrite Hcol; simpl.
  rewrite <- Hlen in Hp, Hl.
  assert (iloc col (-1) = Ok latest) as ->
    by (apply (iloc_back col 1); [lia|done]).
  assert (iloc col (-2) = Ok previous) as ->
    by (apply (iloc_back col 2); [lia|done]).
  done.
Qed.

Lemma float_of_int_0 : float_of_int 0 = Ok 0%float.
Proof. reflexivity. Qed.

(** With fewer than two rows the delta of a card is a formatted zero. *)
Lemma delta_text_one_row {V} `{!Dtype V} (df : Frame Timestamp V)
    (c : string) (grouping : bool) (p : nat) :
  (len df < 2)%nat → delta_text df c grouping p = Ok (format_f true grouping p 0).
Proof.
  intros Hlen. unfold delta_text, app.calculate_change.
  rewrite decide_True by done.
  unfold mbind, result_bind, bind, format_num_f. by rewrite float_of_int_0.
Qed.

Lemma wrap64_in_range (z : Z) : in_int64 z → wrap64 z = z.
Proof.
  unfold in_int64, wrap64. intros Hz. rewrite Z.mod_small; lia.
Qed.

Lemma wrap64_idemp (z : Z) : wrap64 (wrap64 z) = wrap64 z.
Proof. apply wrap64_in_range, wrap64_range. Qed.

Lemma wrapu64_in_range (z : Z) : in_uint64 z → wrapu64 z = z.
Proof. unfold in_uint64, wrapu64. intros Hz. rewrite Z.mod_small; lia. Qed.

Lemma wrapu64_idemp (z : Z) : wrapu64 (wrapu64 z) = wrapu64 z.
Proof. apply wrapu64_in_range, wrapu64_range. Qed.

(** C3, as the code has it: with at least two rows, the change of a
    numeric column of the loaded table is its value in the last row minus
    its value in the row before, in the arithmetic of the column, and
    nothing is raised.  On a float64 column that is the binary64
    difference.  On an int64 column, which is what read_csv makes of a
    column of whole numbers, it is the difference of the two integers
    brought back into the int64 range: the difference itself when that is
    in the range, and not otherwise.  On a uint64 column, which is what
    read_csv makes of whole numbers too large for int64, it is the
    difference modulo 2^64.  With fewer than two rows the change is the
    integer 0, whatever the column, nothing is raised, and the delta of a
    card is that zero in the format of the card. *)
Theorem calculate_change_last_two (df : Frame Timestamp scalar)
    (column_name : string) :
  ((len df < 2)%nat →
   app.calculate_change df column_name = Ok (Int 0)
   ∧ ∀ grouping p, delta_text df column_name grouping p
                   = Ok (format_f true grouping p 0)) ∧
  (∀ col : list scalar,
     (2 ≤ len df)%nat → getitem df column_name = Ok col →
     ∃ previous latest : scalar,
       col !! (len df - 2)%nat = Some previous ∧
       col !! (len df - 1)%nat = Some latest ∧
       app.calculate_change df column_name = Ok (item (sub latest previous)) ∧
       (∀ a b : float, previous = float64 a → latest = float64 b →
          app.calculate_change df column_name = Ok (Float (b - a))) ∧
       (∀ a b : Z, previous = int64 a → latest = int64 b →
          app.calculate_change df column_name = Ok (Int (wrap64 (b - a)))
          ∧ (in_int64 (b - a) →
             app.calculate_change df column_name = Ok (Int (b - a)))) ∧
       (∀ a b : Z, previous = uint64 a → latest = uint64 b →
          app.calculate_change df column_name = Ok (Int (wrapu64 (b - a)))
          ∧ (in_uint64 (b - a) →
             app.calculate_change df column_name = Ok (Int (b - a))))).
Proof.
  split.
  - intros Hlt. split; [|intros grouping p; by apply delta_text_one_row].
    unfold app.calculate_change. by rewrite decide_True.
  - intros col Hge Hcol.
    destruct (calculate_change_sub df column_name col Hge Hcol)
      as (previous & latest & Hp & Hl & Hchange).
    exists previous, latest. split_and!; [done..| | |].
    + by intros a b -> ->.
    + intros a b -> ->. rewrite Hchange. simpl. rewrite wrap64_idemp.
      split; [done|]. intros Hin. by rewrite wrap64_in_range.
    + intros a b -> ->. rewrite Hchange. simpl. rewrite wrapu64_idemp.
      split; [done|]. intros Hin. by rewrite wrapu64_in_range.
Qed.

Lemma calculate_change_last_two_witness :
  (app.calculate_change fixture.one_month_typed "Total_Nonfarm_Employees"
   = Ok (Int 0)
   ∧ delta_text fixture.one_month_typed "Total_Nonfarm_Employees" true 0
     = Ok "+0")
  ∧ app.calculate_change fixture.three_months_typed "Total_Nonfarm_Employees"
    = Ok (Int 246)
  ∧ app.calculate_change fixture.three_months_typed "Unemployment_Rate"
    = Ok (Float (3.9 - 3.8))
  ∧ app.calculate_change fixture.int64_ends "Total_Nonfarm_Employees"
    = Ok (Int (wrap64 (9223372036854775807 - -9223372036854775808)))
  ∧ app.calculate_change fixture.uint64_ends "Total_Nonfarm_Employees"
    = Ok (Int (wrapu64 (0 - 18446744073709551615))).
Proof.
  split; [|split_and!].
  - destruct (calculate_change_last_two fixture.one_month_typed
                "Total_Nonfarm_Employees") as [Hone _].
    destruct Hone as [Hzero Hdelta]; [vm_compute; lia|].
    split; [exact Hzero|]. by rewrite Hdelta.
  - destruct (calculate_change_last_two fixture.three_months_typed
                "Total_Nonfarm_Employees") as [_ Htwo].
    destruct (Htwo [int64 157049; int64 157285; int64 157531])
      as (previous & latest & [= <-] & [= <-] & _ & _ & Hint & _);
      [vm_compute; lia|reflexivity|].
    apply (Hint 157285 157531)%Z; [done..|]. unfold in_int64. lia.
  - destruct (calculate_change_last_two fixture.three_months_typed
                "Unemployment_Rate") as [_ Htwo].
    destruct (Htwo [float64 3.7; float64 3.8; float64 3.9])
      as (previous & latest & [= <-] & [= <-] & _ & Hfloat & _);
      [vm_compute; lia|reflexivity|].
    by apply Hfloat.
  - destruct (calculate_change_last_two fixture.int64_ends
                "Total_Nonfarm_Employees") as [_ Htwo].
    destruct (Htwo [int64 (-9223372036854775808); int64 9223372036854775807])
      as (previous & latest & [= <-] & [= <-] & _ & _ & Hint & _);
      [vm_compute; lia|reflexivity|].
    by destruct (Hint _ _ eq_refl eq_refl) as [Hwrap _].
  - destruct (calculate_change_last_two fixture.uint64_ends
                "Total_Nonfarm_Employees") as [_ Htwo].
    destruct (Htwo [uint64 18446744073709551615; uint64 0])
      as (previous & latest & [= <-] & [= <-] & _ & _ & _ & Huint);
      [vm_compute; lia|reflexivity|].
    by destruct (Huint _ _ eq_refl eq_refl) as [Hwrap _].
Defined.

(** Whole numbers too large for int64 load as uint64, and there the
    change from the greatest one to zero is 1. *)
Example change_of_a_uint64_column :
  app.load_data sample.read_csv_dtypes sample.to_datetime fixture.uint64_file
  = Ok fixture.uint64_ends
  ∧ app.calculate_change fixture.uint64_ends "Total_Nonfarm_Employees"
    = Ok (Int 1).
Proof. split; by vm_compute. Qed.

(** C3 as stated fails on a column of whole numbers: the change is not
    always the last value minus the value before.  With the least int64
    in the row before the last and the greatest in the last row, both
    read from the file as they are written, the difference is 2^64 - 1
    and the change is -1; the card shows -1K. *)
Lemma change_beyond_int64 :
  app.load_data sample.read_csv_dtypes sample.to_datetime fixture.int64_file
  = Ok fixture.int64_ends
  ∧ getitem fixture.int64_ends "Total_Nonfarm_Employees"
    = Ok [int64 (-9223372036854775808); int64 9223372036854775807]
  ∧ app.calculate_change fixture.int64_ends "Total_Nonfarm_Employees"
    = Ok (Int (-1))
  ∧ (9223372036854775807 - -9223372036854775808 = 18446744073709551615)%Z
  ∧ delta_text fixture.int64_ends "Total_Nonfarm_Employees" true 0 = Ok "-1"
  ∧ ¬ (∀ (df : Frame Timestamp scalar) (column_name : string)
         (col : list scalar) (a b : Z),
         (2 ≤ len df)%nat → getitem df column_name = Ok col →
         in_int64 a → in_int64 b →
         col !! (len df - 2)%nat = Some (int64 a) →
         col !! (len df - 1)%nat = Some (int64 b) →
         app.calculate_change df column_name = Ok (Int (b - a))).
Proof.
  split_and!; [by vm_compute..|].
  intros Hclaim.
  assert (app.calculate_change fixture.int64_ends "Total_Nonfarm_Employees"
          = Ok (Int (9223372036854775807 - -9223372036854775808))) as Hchange.
  { apply (Hclaim fixture.int64_ends "Total_Nonfarm_Employees"
             [int64 (-9223372036854775808); int64 9223372036854775807]);
      [vm_compute; lia|reflexivity|unfold in_int64; lia..|done|done]. }
  discriminate Hchange.
Qed.

(** C6: the time-range filter keeps a suffix of the table: Last 6 Months
    (Last 12 Months) returns the last min(6, len T) (min(12, len T)) rows,
    the same rows in the same order under the same columns, and Full Range
    returns the table unchanged. *)
Theorem filter_time_range_suffix {V} (T : Frame Timestamp V) :
  let T6 := app.filter_time_range "Last 6 Months" T in
  let T12 := app.filter_time_range "Last 12 Months" T in
  (rows T = take (len T - Nat.min 6 (len T)) (rows T) ++ rows T6
   ∧ len T6 = Nat.min 6 (len T) ∧ columns T6 = columns T) ∧
  (rows T = take (len T - Nat.min 12 (len T)) (rows T) ++ rows T12
   ∧ len T12 = Nat.min 12 (len T) ∧ columns T12 = columns T) ∧
  app.filter_time_range "Full Range" T = T.
Proof.
  split; [|split].
  - apply (tail_suffix 6 T).
  - apply (tail_suffix 12 T).
  - reflexivity.
Qed.

(** ** The chart *)

Lemma traverse_Forall2 {A B} (f : A → result B) (P : A → B → Prop) (l : list A) :
  (∀ a, a ∈ l → ∃ b, f a = Ok b ∧ P a b) →
  ∃ bs, traverse f l = Ok bs ∧ Forall2 P l bs.
Proof.
  induction l as [|a l IH]; intros Hf; simpl.
  - exists []. by split.
  - destruct (Hf a) as (b & -> & Hb); [left|].
    destruct IH as (bs & -> & Hbs).
    { intros a' Ha'. apply Hf. by right. }
    exists (b :: bs). split; [done|by constructor].
Qed.

Lemma getitem_is_Ok {V} `{!Dtype V} {D} (df : Frame D V) (c : string) :
  c ∈ columns df → ∃ col, getitem df c = Ok col.
Proof.
  intros Hc. unfold getitem.
  destruct (list_find_elem_of (λ x, x = c) (columns df) c Hc eq_refl) as [[i x] ->].
  eauto.
Qed.

Lemma scatter_is_Ok {V} `{!Dtype V} (df : Frame Timestamp V) (series : string) :
  series ∈ columns df → series ∈ app.series_options →
  ∃ t, app.scatter df series = Ok t
       ∧ (series, app.name t, app.line_color t) ∈ trace_style
       ∧ getitem df series = Ok (app.y t)
       ∧ app.x t = (rows df).*1
       ∧ app.mode t = "lines+markers".
Proof.
  intros Hc Hs. destruct (getitem_is_Ok df series Hc) as [col Hcol].
  unfold app.scatter. rewrite Hcol. unfold app.series_options in Hs.
  repeat (apply elem_of_cons in Hs as [->|Hs]);
    [..|by apply elem_of_nil in Hs];
    eexists; (split; [reflexivity|]); simpl; split_and!; try done;
    compute_done.
Qed.

(** C7: drawing the chart never raises, whatever the user selects among
    the four indicator columns of a table that has them: with nothing
    selected there is no chart and the prompt is shown; otherwise there is
    one chart with one trace per selected series, in its fixed color and
    under its fixed display label, so four traces when all four are
    selected. *)
Theorem chart_never_raises {V} `{!Dtype V} (df : Frame Timestamp V)
    (selected_series : list string) :
  app.series_options ⊆ columns df →
  selected_series ⊆ app.series_options →
  if decide (selected_series = []) then
    app.chart df selected_series =
      ([app.st_warning "Please select at least one series to display."], Ok ())
  else
    ∃ traces,
      app.chart df selected_series =
        ([app.st_plotly_chart (app.mkFigure traces app.chart_layout)], Ok ())
      ∧ Forall2 (λ series t,
           (series, app.name t, app.line_color t) ∈ trace_style
           ∧ getitem df series = Ok (app.y t)
           ∧ app.x t = (rows df).*1
           ∧ app.mode t = "lines+markers") selected_series traces
      ∧ (selected_series ≡ₚ app.series_options → length traces = 4%nat).
Proof.
  intros Hcols Hsel. unfold app.chart. case_decide as Hnil.
  - by rewrite decide_False by (by intros ?).
  - rewrite decide_True by done.
    destruct (traverse_Forall2 (app.scatter df)
                (λ series t,
                   (series, app.name t, app.line_color t) ∈ trace_style
                   ∧ getitem df series = Ok (app.y t)
                   ∧ app.x t = (rows df).*1
                   ∧ app.mode t = "lines+markers") selected_series)
      as (traces & Htr & Hall).
    { intros s Hs. apply scatter_is_Ok; [apply Hcols, Hsel, Hs|apply Hsel, Hs]. }
    exists traces. rewrite Htr. split_and!; [done|done|].
    intros Hperm. rewrite <- (Forall2_length _ _ _ Hall).
    by rewrite Hperm.
Qed.

Lemma chart_never_raises_witness :
  app.chart fixture.all_indicators [] =
    ([app.st_warning "Please select at least one series to display."], Ok ())
  ∧ ∃ traces,
      app.chart fixture.all_indicators app.series_options =
        ([app.st_plotly_chart (app.mkFigure traces app.chart_layout)], Ok ())
      ∧ length traces = 4%nat.
Proof.
  split.
  - apply (chart_never_raises fixture.all_indicators []); compute_done.
  - destruct (chart_never_raises fixture.all_indicators app.series_options)
      as (traces & Hc & _ & Hlen).
    + compute_done.
    + compute_done.
    + exists traces. split; [exact Hc|]. by apply Hlen.
Defined.

(** ** The render pass *)

Lemma filter_cons_bool {A} (p : A → bool) (x : A) (l : list A) :
  filter (λ a, p a) (x :: l) = if p x then x :: filter (λ a, p a) l else filter (λ a, p a) l.
Proof. rewrite filter_cons. by destruct (p x). Qed.

(** Filter a list whose elements are known, one element at a time. *)
Ltac filter_simpl :=
  repeat first [rewrite filter_app | rewrite filter_nil
               | rewrite filter_cons_bool; simpl].

Tactic Notation "filter_simpl" "in" hyp(H) :=
  repeat first [rewrite filter_app in H | rewrite filter_nil in H
               | rewrite filter_cons_bool in H; simpl in H].

Lemma getitem_same_columns {V} `{!Dtype V} (df1 df2 : Frame Timestamp V) (c : string) :
  columns df1 = columns df2 → same_outcome (getitem df1 c) (getitem df2 c).
Proof.
  intros H. unfold getitem. rewrite H.
  by destruct (list_find _ _) as [[??]|].
Qed.

Lemma scatter_same_columns {V} `{!Dtype V} (df1 df2 : Frame Timestamp V) (s : string) :
  columns df1 = columns df2 →
  same_outcome (app.scatter df1 s) (app.scatter df2 s).
Proof.
  intros H. unfold app.scatter.
  pose proof (getitem_same_columns df1 df2 s H) as Hg.
  destruct (getitem df1 s), (getitem df2 s); simpl in *; try done.
  destruct (app.dict_getitem app.display_names s); simpl; [|done].
  by destruct (app.dict_getitem app.colors s).
Qed.

Lemma traverse_same_outcome {A B C} (f : A → result B) (g : A → result C) l :
  (∀ a, same_outcome (f a) (g a)) →
  same_outcome (traverse f l) (traverse g l).
Proof.
  intros H. induction l as [|a l IH]; simpl; [done|].
  specialize (H a). destruct (f a), (g a); simpl in *; try done.
  by destruct (traverse f l), (traverse g l).
Qed.

(** The chart block shows nothing and raises, or shows one element that is
    not a card. *)
Lemma chart_cases {V} `{!Dtype V} (df : Frame Timestamp V) (sel : list string) :
  (∃ e, app.chart df sel = ([], Raise e))
  ∨ (∃ el, app.chart df sel = ([el], Ok ()) ∧ is_card el = false).
Proof.
  unfold app.chart. case_decide.
  - destruct (traverse _ _) as [traces|e]; simpl; [right|left]; eauto.
  - right. eauto.
Qed.

Lemma chart_same_columns {V} `{!Dtype V} (df1 df2 : Frame Timestamp V)
    (sel : list string) :
  columns df1 = columns df2 →
  (app.chart df1 sel).2 = (app.chart df2 sel).2
  ∧ filter is_other (app.chart df1 sel).1
    = filter is_other (app.chart df2 sel).1.
Proof.
  intros H. unfold app.chart. case_decide; [|done].
  pose proof (traverse_same_outcome (app.scatter df1) (app.scatter df2) sel
                (λ s, scatter_same_columns df1 df2 s H)) as Ht.
  destruct (traverse (app.scatter df1) sel), (traverse (app.scatter df2) sel);
    simpl in *; try done.
  by subst.
Qed.

Lemma filter_time_range_columns {V} (r : string) (df : Frame Timestamp V) :
  columns (app.filter_time_range r df) = columns df.
Proof. unfold app.filter_time_range. by repeat case_decide. Qed.

Lemma strftime_Raise {V} (df : Frame Timestamp V) (e : exn) :
  app.strftime (date_min df) = Raise e ∨ app.strftime (date_max df) = Raise e →
  rows df = [].
Proof.
  unfold app.strftime, date_min, date_max.
  destruct (rows df) as [|r rs]; [done|]. simpl. by intros [|].
Qed.

Lemma getitem_Ok_column {V} `{!Dtype V} {D} (df : Frame D V)
    (c : string) (col : list V) :
  getitem df c = Ok col → c ∈ columns df.
Proof.
  unfold getitem. destruct (list_find _ _) as [[i x]|] eqn:Hfind; [|done].
  intros _. apply list_find_Some in Hfind as (Hi & -> & _).
  by eapply list_elem_of_lookup_2.
Qed.

Section render_pass.
Context {V : Type} `{!Dtype V, !DtypeLaws V}.
Context (read_csv : string → result (Frame string V)).
Context (to_datetime : string → option Timestamp).
Context (str_float : float → string).

Abbreviation main := (app.main read_csv to_datetime str_float).
Abbreviation load_data := (app.load_data read_csv to_datetime).
Abbreviation summary_cards := (app.summary_cards str_float).

Lemma load_data_missing (files : gmap string string) :
  files !! "labor_data.csv" = None →
  load_data files = Raise (FileNotFoundError "labor_data.csv").
Proof. intros H. unfold app.load_data. by rewrite H. Qed.

(** Without rows the first card already raises: nothing is shown. *)
Lemma summary_cards_no_rows (df : Frame Timestamp V) :
  rows df = [] → (summary_cards df).1 = [].
Proof.
  intros Hrows. unfold app.summary_cards.
  destruct (getitem df "Unemployment_Rate") as [col|e] eqn:Hcol; [|done].
  apply getitem_length in Hcol. unfold len in Hcol. rewrite Hrows in Hcol.
  by destruct col.
Qed.

(** The cards show cards only. *)
Lemma summary_cards_only_cards (df : Frame Timestamp V) :
  filter is_card (summary_cards df).1 = (summary_cards df).1.
Proof.
  unfold app.summary_cards.
  simpl.
  repeat match goal with
         | |- context [match ?r with Ok _ => _ | Raise _ => _ end] =>
             destruct r; simpl; try (by filter_simpl)
         end.
Qed.

(** The pass gets to the chart only with the four indicator columns in the
    table: the cards have read each of them. *)
Lemma summary_cards_Ok_columns (df : Frame Timestamp V) :
  (summary_cards df).2 = Ok () → app.series_options ⊆ columns df.
Proof.
  unfold app.summary_cards. simpl.
  repeat match goal with
         | |- context [match getitem df ?c with Ok _ => _ | Raise _ => _ end] =>
             let H := fresh "Hcol" in
             destruct (getitem df c) eqn:H; simpl; [|done];
             apply getitem_Ok_column in H
         | |- context [match ?r with Ok _ => _ | Raise _ => _ end] =>
             destruct r; simpl; [|done]
         end.
  intros _ s Hs. unfold app.series_options in Hs.
  repeat (apply elem_of_cons in Hs as [->|Hs]); try done.
  by apply elem_of_nil in Hs.
Qed.

(** C8: when labor_data.csv is not there, the pass shows the title and the
    introduction, then the error that tells the user to run get_data.py
    first, and stops: no range line, card, chart or table is shown, and
    the pass ends by st.stop(), not by an exception that escapes. *)
Theorem main_missing_file (files : gmap string string)
    (time_range : string) (selected_series : list string) :
  files !! "labor_data.csv" = None →
  main files time_range selected_series =
    ([app.st_title "📊 US Labor Statistics Dashboard";
      app.st_markdown app.intro_text;
      app.st_error "⚠️ Data file 'labor_data.csv' not found. Please run 'get_data.py' first to fetch the data."],
     Raise StopException)
  ∧ app.outcome_of (main files time_range selected_series).2 = app.stopped.
Proof.
  intros H. unfold app.main. rewrite (load_data_missing _ H). by split.
Qed.

(** C10: two passes over the same file that differ only in the chosen
    time range show the same summary cards, which are those computed from
    the whole loaded table; everything else they show is the same too,
    but for the chart and the raw-data table, and they end the same
    way. *)
Theorem cards_ignore_time_range (files : gmap string string)
    (range1 range2 : string) (selected_series : list string) :
  let pass1 := main files range1 selected_series in
  let pass2 := main files range2 selected_series in
  filter is_card pass1.1 = filter is_card pass2.1
  ∧ filter is_other pass1.1
    = filter is_other pass2.1
  ∧ pass1.2 = pass2.2
  ∧ ∀ df, load_data files = Ok df →
          filter is_card pass1.1 = (summary_cards df).1.
Proof.
  intros pass1 pass2. subst pass1 pass2. unfold app.main.
  destruct (load_data files) as [df|e];
    [|by destruct e; split_and!; try done; intros ? [=]].
  simpl.
  destruct (app.strftime (date_min df)) as [first|e1] eqn:Hmin.
  2:{ split_and!; try done. intros ? [= <-]. simpl.
      rewrite summary_cards_no_rows; [done|]. eapply strftime_Raise; eauto. }
  simpl.
  destruct (app.strftime (date_max df)) as [last|e1] eqn:Hmax.
  2:{ split_and!; try done. intros ? [= <-]. simpl.
      rewrite summary_cards_no_rows; [done|]. eapply strftime_Raise; eauto. }
  simpl.
  pose proof (summary_cards_only_cards df) as Hcards.
  destruct (summary_cards df) as [cards [[]|e]] eqn:Hsc; simpl in Hcards |- *.
  2:{ split_and!; try done. intros ? [= <-]. rewrite Hsc. by filter_simpl. }
  destruct (chart_same_columns (app.filter_time_range range1 df)
              (app.filter_time_range range2 df) selected_series) as [Hr Hf].
  { by rewrite !filter_time_range_columns. }
  destruct (chart_cases (app.filter_time_range range1 df) selected_series)
    as [[e1 H1]|(el1 & H1 & Hc1)];
  destruct (chart_cases (app.filter_time_range range2 df) selected_series)
    as [[e2 H2]|(el2 & H2 & Hc2)];
  rewrite H1, H2 in Hr, Hf |- *; simpl in Hr, Hf |- *; try done.
  - split_and!; try done. intros ? [= <-]. rewrite Hsc. filter_simpl.
    by rewrite Hcards, app_nil_r.
  - split_and!; [| |done|].
    + filter_simpl. by rewrite Hc1, Hc2.
    + filter_simpl. filter_simpl in Hf.
      destruct (is_other el1), (is_other el2); simplify_eq; done.
    + intros ? [= <-]. rewrite Hsc. filter_simpl.
      by rewrite Hc1, Hcards, app_nil_r.
Qed.

End render_pass.

Lemma main_missing_file_witness :
  app.main sample.read_csv sample.to_datetime sample.str_float ∅
    "Last 6 Months" ["Unemployment_Rate"] =
    ([app.st_title "📊 US Labor Statistics Dashboard";
      app.st_markdown app.intro_text;
      app.st_error "⚠️ Data file 'labor_data.csv' not found. Please run 'get_data.py' first to fetch the data."],
     Raise StopException)
  ∧ app.outcome_of
      (app.main sample.read_csv sample.to_datetime sample.str_float ∅
         "Last 6 Months" ["Unemployment_Rate"]).2 = app.stopped.
Proof.
  apply (main_missing_file sample.read_csv sample.to_datetime sample.str_float
           ∅ "Last 6 Months" ["Unemployment_Rate"]).
  reflexivity.
Defined.

Lemma cards_ignore_time_range_witness :
  filter is_card
    (app.main sample.read_csv sample.to_datetime sample.str_float
       fixture.earlier_run "Last 6 Months" ["Unemployment_Rate"]).1
  = (app.summary_cards sample.str_float fixture.all_indicators).1.
Proof.
  apply (cards_ignore_time_range sample.read_csv sample.to_datetime
           sample.str_float fixture.earlier_run "Last 6 Months" "Full Range"
           ["Unemployment_Rate"]).
  vm_compute. reflexivity.
Defined.

(** The scenario of the specification: the cards of March 2024. *)
Example cards_of_march :
  (app.summary_cards sample.str_float fixture.all_indicators).1 =
    [app.st_metric "Unemployment Rate" "3.9%" "+0.1%" "inverse";
     app.st_metric "Total Nonfarm Employees" "157,531K" "+246K" "normal";
     app.st_metric "Avg Hourly Earnings" "$34.75" "$+0.14" "normal";
     app.st_metric "Avg Weekly Hours" "34.4" "+0.1" "normal"].
Proof. vm_compute. reflexivity. Qed.

(** The same cards from a file that writes the counts as whole numbers:
    the reader makes the column int64, and the cards read the same. *)
Example cards_of_a_typed_file :
  app.load_data sample.read_csv_dtypes sample.to_datetime fixture.typed_file
  = Ok fixture.all_indicators_typed
  ∧ (app.summary_cards sample.str_float fixture.all_indicators_typed).1 =
      [app.st_metric "Unemployment Rate" "3.9%" "+0.1%" "inverse";
       app.st_metric "Total Nonfarm Employees" "157,531K" "+246K" "normal";
       app.st_metric "Avg Hourly Earnings" "$34.75" "$+0.14" "normal";
       app.st_metric "Avg Weekly Hours" "34.4" "+0.1" "normal"].
Proof. split; vm_compute; reflexivity. Qed.

(** ** The Fetcher: what is kept *)

Lemma keep_cases (series_name : string) (item : bls.item) :
  get_data.keep series_name item =
    if startswith (bls.period item) "M"
    then [get_data.mkObservation
            (bls.year item +:+ "-" +:+ slice_from_1 (bls.period item) +:+ "-01")
            series_name (bls.value item)]
    else [].
Proof. reflexivity. Qed.

Lemma series_names_other (series_id : string) :
  series_id ∉ get_data.series_ids →
  get_data.series_names !! series_id = None.
Proof.
  intros Hid. unfold get_data.series_names, get_data.series_ids in *.
  rewrite !lookup_insert_ne, lookup_empty; [done|..];
    intros <-; apply Hid; compute_done.
Qed.

(** C4, as the code has it: an observation is kept exactly when its period
    begins with M.  That covers M01 to M12, whose date is the first of the
    month, and leaves out the periods that begin with another letter
    (quarterly, annual); the column is the name the series has in
    [series_names], and the raw identifier when it has none.  Nothing here
    can fail. *)
Theorem all_data_keeps_M_periods (series_list : list bls.series) :
  (∀ o, o ∈ get_data.all_data series_list ↔
        ∃ s it, s ∈ series_list ∧ it ∈ bls.data s
                ∧ startswith (bls.period it) "M" = true
                ∧ o = get_data.mkObservation
                        (bls.year it +:+ "-" +:+ slice_from_1 (bls.period it) +:+ "-01")
                        (column_name (bls.seriesID s)) (bls.value it))
  ∧ (∀ name y mm v, mm ∈ month_numbers →
       get_data.keep name (bls.mkItem y ("M" +:+ mm) v)
       = [get_data.mkObservation (y +:+ "-" +:+ mm +:+ "-01") name v])
  ∧ (∀ name it, startswith (bls.period it) "M" = false →
       get_data.keep name it = [])
  ∧ column_name "LNS14000000" = "Unemployment_Rate"
  ∧ column_name "CES0000000001" = "Total_Nonfarm_Employees"
  ∧ column_name "CES0500000003" = "Avg_Hourly_Earnings"
  ∧ column_name "CES0500000007" = "Avg_Weekly_Hours"
  ∧ (∀ id, id ∉ get_data.series_ids → column_name id = id).
Proof.
  split_and!; try reflexivity.
  - intros o. unfold get_data.all_data. rewrite list_elem_of_bind. split.
    + intros (s & Ho & Hs). apply list_elem_of_bind in Ho as (it & Ho & Hit).
      rewrite keep_cases in Ho.
      destruct (startswith (bls.period it) "M") eqn:HM;
        [|by apply elem_of_nil in Ho].
      apply list_elem_of_singleton in Ho as ->. by exists s, it.
    + intros (s & it & Hs & Hit & HM & ->). exists s. split; [|done].
      apply list_elem_of_bind. exists it. split; [|done].
      rewrite keep_cases, HM. by apply list_elem_of_singleton.
  - intros name y mm v Hmm. unfold month_numbers in Hmm.
    repeat (apply elem_of_cons in Hmm as [->|Hmm]); try reflexivity.
    by apply elem_of_nil in Hmm.
  - intros name it HM. by rewrite keep_cases, HM.
  - intros id Hid. unfold column_name. by rewrite series_names_other.
Qed.

Lemma all_data_keeps_M_periods_witness :
  get_data.mkObservation "2024-03-01" "Unemployment_Rate" "3.8"
    ∈ get_data.all_data fixture.quarter_and_annual
  ∧ get_data.keep "Unemployment_Rate" (bls.mkItem "2024" "M12" "4.1")
    = [get_data.mkObservation "2024-12-01" "Unemployment_Rate" "4.1"]
  ∧ get_data.keep "Unemployment_Rate" (bls.mkItem "2024" "Q01" "3.8") = []
  ∧ column_name "LNU04000000" = "LNU04000000".
Proof.
  destruct (all_data_keeps_M_periods fixture.quarter_and_annual)
    as (Hin & Hmonth & Hother & _ & _ & _ & _ & Hraw).
  split_and!.
  - apply Hin.
    exists (bls.mkSeries "LNS14000000"
              [bls.mkItem "2024" "M03" "3.8"; bls.mkItem "2024" "Q01" "3.8";
               bls.mkItem "2024" "A01" "4.0"]),
           (bls.mkItem "2024" "M03" "3.8").
    split_and!; [by constructor|by constructor|reflexivity|reflexivity].
  - apply (Hmonth "Unemployment_Rate" "2024" "12" "4.1"). compute_done.
  - apply Hother. reflexivity.
  - apply Hraw. compute_done.
Defined.

(** C4 as stated fails: keeping is not limited to M01 .. M12.  The period
    M13, the annual average of the API, begins with M and is kept. *)
Lemma kept_beyond_M12 :
  get_data.keep "Unemployment_Rate" (bls.mkItem "2024" "M13" "4.0")
  = [get_data.mkObservation "2024-13-01" "Unemployment_Rate" "4.0"]
  ∧ ("M13" ∉ month_periods)
  ∧ ¬ (∀ name it, get_data.keep name it ≠ [] ↔ bls.period it ∈ month_periods).
Proof.
  assert ("M13" ∉ month_periods) as Hout by compute_done.
  split_and!; [reflexivity|done|].
  intros H.
  destruct (H "Unemployment_Rate" (bls.mkItem "2024" "M13" "4.0")) as [Hkept _].
  by apply Hout, Hkept.
Qed.

(** ** The Fetcher: failures write nothing *)

Lemma traverse_Ok {A B} (f : A → result B) (l : list A) (ys : list B) :
  traverse f l = Ok ys ↔ Forall2 (λ x y, f x = Ok y) l ys.
Proof.
  revert ys. induction l as [|x l IH]; intros ys; simpl.
  - split; [by intros [= <-]|]. by intros ->%Forall2_nil_inv_l.
  - split.
    + destruct (f x) as [y|] eqn:Hx; simpl; [|done].
      destruct (traverse f l) as [ys'|] eqn:Hl; simpl; [|done].
      intros [= <-]. constructor; [done|]. by apply IH.
    + intros (y & ys' & Hx & Hl & ->)%Forall2_cons_inv_l.
      apply IH in Hl. by rewrite Hx, Hl.
Qed.

(** The first failure of a comprehension is the exception of one of its
    elements. *)
Lemma traverse_Raise {A B} (f : A → result B) (l : list A) (e : exn) :
  traverse f l = Raise e → ∃ x, x ∈ l ∧ f x = Raise e.
Proof.
  induction l as [|x l IH]; simpl; [done|].
  destruct (f x) as [y|e'] eqn:Hx; simpl.
  - destruct (traverse f l) as [ys|e'']; simpl; [done|].
    intros [= <-]. destruct IH as (x' & ? & ?); [done|].
    exists x'. split; [by right|done].
  - intros [= <-]. exists x. split; [by left|done].
Qed.

Lemma pivot_Ok_NoDup (long : list long_row) (t : DataFrame) :
  pivot long = Ok t → NoDup (key <$> long).
Proof. unfold pivot. by case_decide. Qed.

Lemma pivot_repeated (long : list long_row) (i j : nat) (r1 r2 : long_row) :
  i ≠ j → long !! i = Some r1 → long !! j = Some r2 → key r1 = key r2 →
  pivot long = Raise (ValueError "Index contains duplicate entries, cannot reshape").
Proof.
  intros Hij H1 H2 Hkey. unfold pivot. rewrite decide_False; [done|].
  intros Hnd. apply Hij.
  apply (NoDup_lookup _ i j (key r1) Hnd); rewrite list_lookup_fmap.
  - by rewrite H1.
  - by rewrite H2, Hkey.
Qed.

(** The series of a body that has them. *)
Lemma series_of_Results (api_response : bls.body) (series_list : list bls.series) :
  bls.Results api_response = Some series_list ↔
  get_data.series_of api_response = Ok series_list.
Proof.
  unfold bls.Results, get_data.series_of.
  destruct (bls.Results_key api_response); naive_solver.
Qed.

Section fetcher.
Context (to_datetime : string → option Timestamp).
Context (to_numeric : string → float).
Context (to_csv : DataFrame → string).

Abbreviation long_table := (get_data.long_table to_datetime to_numeric).
Abbreviation clean_and_process_data :=
  (get_data.clean_and_process_data to_datetime to_numeric).
Abbreviation main_execution :=
  (get_data.main_execution to_datetime to_numeric to_csv).

Lemma fetch_bls_data_sends (post : bls.network) :
  get_data.fetch_bls_data post get_data.series_ids
    get_data.start_year get_data.end_year
  = (response ← post the_request;
     if decide (bls.status_code response ≠ 200)
     then Raise (Exception ("API request failed with status code "
                              +:+ str_int (bls.status_code response)))
     else
       data ← from_option Ok (Raise JSONDecodeError) (bls.json response);
       data ← get_data.dict_get data;
       if decide (bls.status data ≠ Some "REQUEST_SUCCEEDED")
       then Raise (Exception ("API request failed: "
                                +:+ default "Unknown error" (bls.message data)))
       else Ok data).
Proof. reflexivity. Qed.

(** C1: when the answer of the API has a status code other than 200 (so
    whenever it is not a success), or a body whose status field is not
    REQUEST_SUCCEEDED, the run raises an exception whose text gives the
    status code, respectively the message of the API, and the files are
    the ones the run started with: labor_data.csv, if it was there, has
    its old content. *)
Theorem failed_fetch_writes_nothing (post : bls.network)
    (σ : gmap string string) (response : bls.response) :
  post the_request = Ok response →
  bls.status_code response ≠ 200
  ∨ (∃ data, bls.json response = Some (bls.json_object data)
             ∧ bls.status data ≠ Some "REQUEST_SUCCEEDED") →
  ∃ msg,
    main_execution post σ = (Raise (Exception msg), σ)
    ∧ ((bls.status_code response ≠ 200
        ∧ msg = "API request failed with status code "
                  +:+ str_int (bls.status_code response))
       ∨ (bls.status_code response = 200
          ∧ ∃ data, bls.json response = Some (bls.json_object data)
                    ∧ msg = "API request failed: "
                              +:+ default "Unknown error" (bls.message data))).
Proof.
  intros Hpost Hfail.
  unfold get_data.main_execution, get_data.pure, mbind, get_data.script_bind.
  rewrite fetch_bls_data_sends, Hpost. simpl.
  case_decide as Hcode.
  - eexists. split; [reflexivity|by left].
  - destruct Hfail as [?|(data & Hjson & Hstatus)]; [done|].
    rewrite Hjson. simpl. rewrite decide_True by done.
    eexists. split; [reflexivity|]. right.
    split; [by destruct (decide (bls.status_code response = 200))|].
    by exists data.
Qed.

(** C9: when two of the kept observations, at different places of the
    response, have the same date and the same series name, the reshape
    raises and the run ends with that exception and the files it started
    with; when every date is readable the exception is the ValueError of
    the pivot, which returns a table only if no (date, series_name) pair
    occurs twice. *)
Theorem repeated_observation_aborts (post : bls.network)
    (σ : gmap string string) (api_response : bls.body)
    (series_list : list bls.series) (i j : nat) (o1 o2 : get_data.observation) :
  get_data.fetch_bls_data post get_data.series_ids
    get_data.start_year get_data.end_year = Ok api_response →
  bls.Results api_response = Some series_list →
  i ≠ j →
  get_data.all_data series_list !! i = Some o1 →
  get_data.all_data series_list !! j = Some o2 →
  get_data.date o1 = get_data.date o2 →
  get_data.series_name o1 = get_data.series_name o2 →
  (∃ e,
     clean_and_process_data api_response = Raise e
     ∧ main_execution post σ = (Raise e, σ)
     ∧ (Forall (λ o, is_Some (to_datetime (get_data.date o)))
          (get_data.all_data series_list) →
        e = ValueError "Index contains duplicate entries, cannot reshape"))
  ∧ (∀ long t, pivot long = Ok t → NoDup (key <$> long)).
Proof.
  intros Hfetch Hres Hij Hi Hj Hdate Hname.
  split; [|apply pivot_Ok_NoDup].
  assert (∃ e, clean_and_process_data api_response = Raise e
               ∧ (Forall (λ o, is_Some (to_datetime (get_data.date o)))
                    (get_data.all_data series_list) →
                  e = ValueError "Index contains duplicate entries, cannot reshape"))
    as (e & Hclean & He).
  { unfold get_data.clean_and_process_data. rewrite (proj1 (series_of_Results _ _) Hres). simpl.
    unfold get_data.long_table. rewrite decide_False.
    2:{ intros Hnil. by rewrite Hnil in Hi. }
    destruct (traverse _ (get_data.all_data series_list)) as [long|e] eqn:Hlong;
      simpl.
    - apply traverse_Ok in Hlong.
      destruct (Forall2_lookup_l _ _ _ _ _ Hlong Hi) as (r1 & Hr1 & Hf1).
      destruct (Forall2_lookup_l _ _ _ _ _ Hlong Hj) as (r2 & Hr2 & Hf2).
      rewrite (pivot_repeated long i j r1 r2); [by eexists| done..|].
      rewrite <- Hdate, <- Hname in Hf2.
      destruct (to_datetime (get_data.date o1)); simpl in *; [|done].
      by simplify_eq.
    - exists e. split; [done|]. intros Hall.
      apply traverse_Raise in Hlong as (o & Ho & Hraise).
      rewrite Forall_forall in Hall. destruct (Hall o Ho) as [d Hd].
      by rewrite Hd in Hraise. }
  exists e. split_and!; [done| |done].
  unfold get_data.main_execution, get_data.pure, mbind, get_data.script_bind.
  by rewrite Hfetch, Hclean.
Qed.

End fetcher.

Lemma failed_fetch_writes_nothing_witness :
  get_data.main_execution sample.to_datetime sample.to_numeric sample.to_csv
    fixture.unavailable fixture.earlier_run
  = (Raise (Exception "API request failed with status code 503"),
     fixture.earlier_run)
  ∧ get_data.main_execution sample.to_datetime sample.to_numeric sample.to_csv
      fixture.refused fixture.earlier_run
    = (Raise (Exception "API request failed: ['Request could not be serviced, as the daily threshold has been reached.']"),
       fixture.earlier_run).
Proof.
  split.
  - destruct (failed_fetch_writes_nothing sample.to_datetime sample.to_numeric
                sample.to_csv fixture.unavailable fixture.earlier_run
                (bls.mkResponse 503 None))
      as (msg & Hrun & [[_ ->]|[Hcode _]]).
    + reflexivity.
    + left. simpl. lia.
    + exact Hrun.
    + simpl in Hcode. lia.
  - destruct (failed_fetch_writes_nothing sample.to_datetime sample.to_numeric
                sample.to_csv fixture.refused fixture.earlier_run fixture.refusal)
      as (msg & Hrun & [[Hcode _]|(_ & data & [= <-] & ->)]).
    + reflexivity.
    + right. eexists. split; [reflexivity|]. simpl. discriminate.
    + by simpl in Hcode.
    + exact Hrun.
Defined.

Lemma repeated_observation_aborts_witness :
  ∃ e,
    get_data.clean_and_process_data sample.to_datetime sample.to_numeric
      fixture.march_twice = Raise e
    ∧ get_data.main_execution sample.to_datetime sample.to_numeric sample.to_csv
        (fixture.answers fixture.march_twice) fixture.earlier_run
      = (Raise e, fixture.earlier_run).
Proof.
  destruct (repeated_observation_aborts sample.to_datetime sample.to_numeric
              sample.to_csv (fixture.answers fixture.march_twice)
              fixture.earlier_run fixture.march_twice
              [bls.mkSeries "LNS14000000"
                 [bls.mkItem "2024" "M03" "3.8"; bls.mkItem "2024" "M03" "3.9";
                  bls.mkItem "2024" "M02" "3.9"]]
              0%nat 1%nat
              (get_data.mkObservation "2024-03-01" "Unemployment_Rate" "3.8")
              (get_data.mkObservation "2024-03-01" "Unemployment_Rate" "3.9"))
    as [(e & Hclean & Hrun & _) _]; try reflexivity.
  - lia.
  - exists e. by split.
Defined.

(** ** The Fetcher: the reshaped table *)

#[local] Instance date_le_total {V} : Total (@date_le V).
Proof. intros r1 r2. unfold date_le. lia. Qed.

#[local] Instance date_le_trans {V} : Transitive (@date_le V).
Proof. intros r1 r2 r3. unfold date_le. lia. Qed.

(** The stable sort returns the same elements, in order. *)
Lemma insort_Permutation {A} (R : relation A) `{!∀ x y, Decision (R x y)}
    (x : A) (l : list A) :
  insort R x l ≡ₚ x :: l.
Proof.
  induction l as [|y l IH]; simpl; [done|]. case_decide; [done|].
  by rewrite IH, Permutation_swap.
Qed.

Lemma stable_sort_Permutation {A} (R : relation A) `{!∀ x y, Decision (R x y)}
    (l : list A) :
  stable_sort R l ≡ₚ l.
Proof.
  induction l as [|x l IH]; simpl; [done|].
  by rewrite insort_Permutation, IH.
Qed.

Lemma StronglySorted_insort {A} (R : relation A) `{!∀ x y, Decision (R x y)}
    `{!Total R, !Transitive R} (x : A) (l : list A) :
  StronglySorted R l → StronglySorted R (insort R x l).
Proof.
  induction 1 as [|y l Hl IH Hy]; simpl; [by repeat constructor|].
  case_decide as Hxy.
  - constructor; [by constructor|]. constructor; [done|].
    eapply Forall_impl; [exact Hy|]. intros z Hz. by trans y.
  - constructor; [done|]. rewrite insort_Permutation. constructor; [|done].
    by destruct (total R x y).
Qed.

Lemma StronglySorted_stable_sort {A} (R : relation A)
    `{!∀ x y, Decision (R x y)} `{!Total R, !Transitive R} (l : list A) :
  StronglySorted R (stable_sort R l).
Proof.
  induction l as [|x l IH]; simpl; [constructor|].
  by apply StronglySorted_insort.
Qed.

Lemma Sorted_stable_sort {A} (R : relation A)
    `{!∀ x y, Decision (R x y)} `{!Total R, !Transitive R} (l : list A) :
  Sorted R (stable_sort R l).
Proof. apply StronglySorted_Sorted, StronglySorted_stable_sort; apply _. Qed.

(** A list already in order is left as it is. *)
Lemma stable_sort_sorted {A} (R : relation A) `{!∀ x y, Decision (R x y)}
    (l : list A) :
  StronglySorted R l → stable_sort R l = l.
Proof.
  induction 1 as [|x l Hl IH Hx]; simpl; [done|]. rewrite IH.
  destruct Hx as [|y l' Hy _]; simpl; [done|]. by rewrite decide_True.
Qed.

Lemma StronglySorted_le_lt (l : list Z) :
  StronglySorted Z.le l → NoDup l → StronglySorted Z.lt l.
Proof.
  induction 1 as [|x l Hl IH Hx]; intros Hnd; [constructor|].
  apply NoDup_cons in Hnd as [Hx' Hnd].
  constructor; [by apply IH|].
  rewrite Forall_forall in Hx |- *. intros y Hy.
  specialize (Hx y Hy). assert (x ≠ y) by (by intros ->). lia.
Qed.

Lemma StronglySorted_sublist {A} (R : relation A) (l k : list A) :
  sublist l k → StronglySorted R k → StronglySorted R l.
Proof.
  intros Hsub Hk. revert l Hsub.
  induction Hk as [|x k Hk IH Hx]; intros l Hsub.
  - apply sublist_nil_r in Hsub as ->. constructor.
  - apply sublist_cons_r in Hsub as [Hsub|(l' & -> & Hsub)]; [by apply IH|].
    constructor; [by apply IH|].
    rewrite Forall_forall in Hx |- *. intros y Hy. apply Hx.
    by eapply elem_of_sublist.
Qed.

Lemma cell_found (long : list long_row) (d : Timestamp) (c : string) (v : float) :
  NoDup (key <$> long) → (d, c, v) ∈ long → cell long d c = v.
Proof.
  intros Hnd Hin. unfold cell.
  destruct (list_find _ long) as [[i r]|] eqn:Hfind.
  - apply list_find_Some in Hfind as (Hi & Hkey & _).
    apply list_elem_of_lookup in Hin as [j Hj].
    assert (i = j) as ->.
    { apply (NoDup_lookup _ i j (d, c) Hnd); rewrite list_lookup_fmap.
      - by rewrite Hi; simpl; rewrite Hkey.
      - by rewrite Hj. }
    rewrite Hi in Hj. by injection Hj as ->.
  - apply list_find_None in Hfind. rewrite Forall_forall in Hfind.
    by destruct (Hfind _ Hin).
Qed.

Lemma cell_present (long : list long_row) (d : Timestamp) (c : string) :
  is_nan (cell long d c) = false → (d, c, cell long d c) ∈ long.
Proof.
  unfold cell. destruct (list_find _ long) as [[i [[d' c'] v]]|] eqn:Hfind.
  - intros _. apply list_find_Some in Hfind as (Hi & Hkey & _).
    unfold key in Hkey; simpl in *. injection Hkey as -> ->.
    by eapply list_elem_of_lookup_2.
  - done.
Qed.

Lemma pivot_Ok_inv (long : list long_row) (p : DataFrame) :
  pivot long = Ok p →
  NoDup (key <$> long)
  ∧ ∃ index cols,
      NoDup index ∧ Sorted Z.le index
      ∧ (∀ d, d ∈ index ↔ ∃ c v, (d, c, v) ∈ long)
      ∧ NoDup cols
      ∧ (∀ c, c ∈ cols ↔ ∃ d v, (d, c, v) ∈ long)
      ∧ p = mkFrame cols (pivot_row long cols <$> index).
Proof.
  unfold pivot. case_decide as Hnd; [|done]. intros [= <-]. split; [done|].
  eexists _, _. split_and!; [| | | | |reflexivity].
  - rewrite merge_sort_Permutation. apply NoDup_remove_dups.
  - apply Sorted_merge_sort, _.
  - intros d. rewrite merge_sort_Permutation, elem_of_remove_dups, list_elem_of_fmap.
    split.
    + intros ([[d' c] v] & -> & Hin). by exists c, v.
    + intros (c & v & Hin). by exists (d, c, v).
  - rewrite merge_sort_Permutation. apply NoDup_remove_dups.
  - intros c. rewrite merge_sort_Permutation, elem_of_remove_dups, list_elem_of_fmap.
    split.
    + intros ([[d c'] v] & -> & Hin). by exists d, v.
    + intros (d & v & Hin). by exists (d, c, v).
Qed.

Lemma filter_fst_sublist {A B} (P : A * B → Prop) `{!∀ x, Decision (P x)} (l : list (A * B)) :
  sublist (filter P l).*1 l.*1.
Proof.
  induction l as [|x l IH]; [done|].
  rewrite filter_cons. case_decide; simpl; by constructor.
Qed.

Lemma fmap_fst_section {A B} (g : A → A * B) (l : list (A * B)) :
  Forall (λ r, r = g r.1) l → l = g <$> l.*1.
Proof.
  induction 1 as [|r l Hr _ IH]; [done|]. csimpl. by rewrite <- Hr, <- IH.
Qed.

(** The rows of the reshaped table, for a pivot over [index] and [cols]. *)
Lemma reshaped_rows (long : list long_row) (cols : list string) (index : list Timestamp) :
  NoDup index → 
  let t := dropna (sort_values true (mkFrame cols (pivot_row long cols <$> index))) in
  StronglySorted Z.lt (rows t).*1
  ∧ rows t = pivot_row long cols <$> (rows t).*1
  ∧ (∀ d, d ∈ (rows t).*1 ↔ d ∈ index ∧ complete (pivot_row long cols d)).
Proof.
  intros Hnd t. subst t. unfold dropna, sort_values; simpl.
  set (sorted := stable_sort date_le (pivot_row long cols <$> index)).
  assert (sorted ≡ₚ pivot_row long cols <$> index) as Hperm
    by apply stable_sort_Permutation.
  assert (sorted.*1 ≡ₚ index) as Hdates.
  { rewrite Hperm, <- list_fmap_compose. by rewrite list_fmap_id. }
  split_and!.
  - eapply StronglySorted_sublist; [apply filter_fst_sublist|].
    apply StronglySorted_le_lt; [|by rewrite Hdates].
    apply (StronglySorted_fmap fst date_le Z.le); [done|].
    apply StronglySorted_stable_sort; apply _.
  - apply fmap_fst_section, Forall_forall.
    intros r [_ Hr]%list_elem_of_filter.
    rewrite Hperm in Hr. by apply list_elem_of_fmap in Hr as (d & -> & _).
  - intros d. rewrite list_elem_of_fmap. split.
    + intros (r & -> & [Hc Hr]%list_elem_of_filter).
      rewrite Hperm in Hr. apply list_elem_of_fmap in Hr as (d & -> & Hd). done.
    + intros [Hd Hc]. exists (pivot_row long cols d). split; [done|].
      apply list_elem_of_filter. split; [done|].
      rewrite Hperm. by apply list_elem_of_fmap_2.
Qed.

Lemma StronglySorted_lt_NoDup (l : list Z) : StronglySorted Z.lt l → NoDup l.
Proof.
  induction 1 as [|x l _ IH Hx]; constructor; [|done].
  intros Hin. rewrite Forall_forall in Hx. specialize (Hx x Hin). lia.
Qed.

Lemma unpivot_reshaped (long : list long_row) (cols : list string) (t : DataFrame) :
  columns t = cols →
  rows t = pivot_row long cols <$> (rows t).*1 →
  unpivot t = d ← (rows t).*1; (λ c, (d, c, cell long d c)) <$> cols.
Proof.
  intros Hcols Hrows. unfold unpivot. rewrite Hcols.
  rewrite Hrows at 1. generalize ((rows t).*1). intros ds.
  induction ds as [|d ds IH]; [done|]. csimpl. rewrite IH. f_equal.
  rewrite zip_with_fmap_r, zip_with_diag. done.
Qed.

Section reshape.
Context (to_datetime : string → option Timestamp).
Context (to_numeric : string → float).

Abbreviation clean_and_process_data :=
  (get_data.clean_and_process_data to_datetime to_numeric).

(** C2: the table the reshape returns has a value in every cell of every
    row, its dates increase strictly from row to row (so none occurs
    twice), and its cells, read back as (date, column, value) entries,
    are exactly the monthly observations of the response whose date is in
    the table and whose value is not missing, each once. *)
Theorem reshape_table (api_response : bls.body) (t : DataFrame) :
  clean_and_process_data api_response = Ok t →
  ∃ series_list long,
    bls.Results api_response = Some series_list
    ∧ Forall2 (λ o r, to_datetime (get_data.date o) = Some r.1.1
                      ∧ r.1.2 = get_data.series_name o
                      ∧ r.2 = to_numeric (get_data.value o))
        (get_data.all_data series_list) long
    ∧ (∀ r, r ∈ rows t →
            length r.2 = length (columns t)
            ∧ Forall (λ v, is_nan v = false) r.2)
    ∧ StronglySorted Z.lt (rows t).*1
    ∧ NoDup (rows t).*1
    ∧ unpivot t ≡ₚ filter (λ r, r.1.1 ∈ (rows t).*1 ∧ is_nan r.2 = false) long.
Proof.
  unfold get_data.clean_and_process_data.
  destruct (get_data.series_of api_response) as [series_list|] eqn:Hseries;
    [simpl|done].
  apply series_of_Results in Hseries.
  destruct (get_data.long_table _ _ _) as [long|] eqn:Hlong; [simpl|done].
  destruct (pivot long) as [p|] eqn:Hpivot; [simpl|done].
  unfold reset_index. case_decide as Hdate; [done|]. simpl. intros [= <-].
  exists series_list, long.
  apply pivot_Ok_inv in Hpivot
    as (Hkeys & index & cols & Hindex & _ & Hin_index & Hcols & Hin_cols & ->).
  destruct (reshaped_rows long cols index Hindex) as (Hsorted & Hrows & Hdates).
  set (t := dropna (sort_values true (mkFrame cols (pivot_row long cols <$> index)))) in *.
  assert (∀ d, d ∈ (rows t).*1 → ∀ c, c ∈ cols → is_nan (cell long d c) = false) as Hfull.
  { intros d [_ Hd]%Hdates c Hc. unfold complete, pivot_row in Hd; simpl in Hd.
    rewrite Forall_fmap, Forall_forall in Hd. by apply Hd. }
  split_and!; [done| | |done|by apply StronglySorted_lt_NoDup|].
  - unfold get_data.long_table in Hlong. case_decide; [done|].
    apply traverse_Ok in Hlong. eapply Forall2_impl; [exact Hlong|].
    intros o r. simpl.
    destruct (to_datetime (get_data.date o)); simpl; [|done]. by intros [= <-].
  - intros r Hr. rewrite Hrows in Hr.
    apply list_elem_of_fmap in Hr as (d & -> & Hd). simpl.
    split; [by rewrite length_fmap|]. by apply Hdates.
  - apply NoDup_Permutation.
    + rewrite (unpivot_reshaped long cols t); [|done..].
      apply NoDup_bind.
      * intros d1 d2 x _ _ (c1 & -> & _)%list_elem_of_fmap (c2 & [= -> _ _] & _)%list_elem_of_fmap.
        done.
      * intros d _. apply NoDup_fmap_2_strong; [|done]. by intros c1 c2 _ _ [= ->].
      * by apply StronglySorted_lt_NoDup.
    + apply NoDup_filter. by eapply NoDup_fmap_1.
    + intros [[d c] v].
      rewrite (unpivot_reshaped long cols t), list_elem_of_filter, list_elem_of_bind;
        [|done..].
      simpl. split.
      * intros (d' & (c' & [= -> -> ->] & Hc)%list_elem_of_fmap & Hd).
        pose proof (Hfull _ Hd _ Hc) as Hnan.
        split_and!; [done|done|]. by apply cell_present.
      * intros [[Hd Hnan] Hin]. exists d. split; [|done].
        apply list_elem_of_fmap. exists c. split.
        -- by rewrite (cell_found long d c v).
        -- apply Hin_cols. eauto.
Qed.

(** When is there a table?  Whenever the response has its series, at
    least one observation is kept, every kept date is readable, no
    (date, series_name) pair comes twice and no series is called
    [date]. *)
Lemma reshape_returns (api_response : bls.body) (series_list : list bls.series) :
  bls.Results api_response = Some series_list →
  get_data.all_data series_list ≠ [] →
  Forall (λ o, is_Some (to_datetime (get_data.date o)))
    (get_data.all_data series_list) →
  (∀ i j o1 o2,
     get_data.all_data series_list !! i = Some o1 →
     get_data.all_data series_list !! j = Some o2 →
     to_datetime (get_data.date o1) = to_datetime (get_data.date o2) →
     get_data.series_name o1 = get_data.series_name o2 → i = j) →
  "date" ∉ get_data.series_name <$> get_data.all_data series_list →
  ∃ t, clean_and_process_data api_response = Ok t.
Proof.
  intros Hres Hne Hdates Huniq Hname.
  unfold get_data.clean_and_process_data, get_data.long_table.
  rewrite (proj1 (series_of_Results _ _) Hres); simpl. rewrite decide_False by done.
  destruct (traverse_Forall2
              (λ o, d ← from_option Ok (Raise (ValueError (get_data.date o)))
                          (to_datetime (get_data.date o));
                    Ok (d, get_data.series_name o, to_numeric (get_data.value o)))
              (λ o r, to_datetime (get_data.date o) = Some r.1.1
                      ∧ r.1.2 = get_data.series_name o)
              (get_data.all_data series_list)) as (long & -> & Hlong).
  { intros o Ho. rewrite Forall_forall in Hdates.
    destruct (Hdates o Ho) as [d Hd]. rewrite Hd. simpl. by eexists. }
  simpl. unfold pivot. rewrite decide_True.
  - simpl. unfold reset_index; simpl. rewrite decide_False; [by eexists|].
    rewrite merge_sort_Permutation, elem_of_remove_dups, list_elem_of_fmap.
    intros (r & Hr & Hin). apply Hname.
    apply list_elem_of_lookup in Hin as [i Hi].
    destruct (Forall2_lookup_r _ _ _ _ _ Hlong Hi) as (o & Ho & _ & Ho2).
    apply list_elem_of_fmap. exists o. split; [congruence|].
    by eapply list_elem_of_lookup_2.
  - apply NoDup_alt. intros i j k Hi Hj.
    rewrite list_lookup_fmap in Hi, Hj.
    destruct (long !! i) as [r1|] eqn:Hr1; [|done].
    destruct (long !! j) as [r2|] eqn:Hr2; [|done].
    simpl in *.
    destruct (Forall2_lookup_r _ _ _ _ _ Hlong Hr1) as (o1 & Ho1 & Hd1 & Hn1).
    destruct (Forall2_lookup_r _ _ _ _ _ Hlong Hr2) as (o2 & Ho2 & Hd2 & Hn2).
    apply (Huniq i j o1 o2); [done|done|..].
    + rewrite Hd1, Hd2. unfold key in *. congruence.
    + rewrite <- Hn1, <- Hn2. unfold key in *. congruence.
Qed.

End reshape.

Lemma reshape_table_witness :
  ∃ series_list long,
    bls.Results fixture.first_quarter = Some series_list
    ∧ Forall2 (λ o r, sample.to_datetime (get_data.date o) = Some r.1.1
                      ∧ r.1.2 = get_data.series_name o
                      ∧ r.2 = sample.to_numeric (get_data.value o))
        (get_data.all_data series_list) long
    ∧ (∀ r, r ∈ rows fixture.first_quarter_table →
            length r.2 = length (columns fixture.first_quarter_table)
            ∧ Forall (λ v, is_nan v = false) r.2)
    ∧ StronglySorted Z.lt (rows fixture.first_quarter_table).*1
    ∧ NoDup (rows fixture.first_quarter_table).*1
    ∧ unpivot fixture.first_quarter_table
      ≡ₚ filter (λ r, r.1.1 ∈ (rows fixture.first_quarter_table).*1
                      ∧ is_nan r.2 = false) long.
Proof.
  apply (reshape_table sample.to_datetime sample.to_numeric
           fixture.first_quarter fixture.first_quarter_table).
  vm_compute. reflexivity.
Defined.

(** ** The Fetcher: the request and its answer *)

(** X1: fetch_bls_data returns a body exactly when the answer to its one
    request has status code 200 and a JSON body that is an object whose
    status is REQUEST_SUCCEEDED, and what it returns is that body,
    unchanged. *)
Theorem fetch_bls_data_Ok_iff (post : bls.network) (series_ids : list string)
    (start_year end_year : Z) (data : bls.body) :
  get_data.fetch_bls_data post series_ids start_year end_year = Ok data ↔
  ∃ response,
    post (request_for series_ids start_year end_year) = Ok response
    ∧ bls.status_code response = 200
    ∧ bls.json response = Some (bls.json_object data)
    ∧ bls.status data = Some "REQUEST_SUCCEEDED".
Proof.
  unfold get_data.fetch_bls_data.
  change (bls.mkRequest _ _ _ _ _) with (request_for series_ids start_year end_year).
  split.
  - destruct (post _) as [response|]; simpl; [|done].
    case_decide as Hcode; [done|].
    destruct (bls.json response) as [[body| | | | | |]|] eqn:Hjson; simpl;
      try done.
    case_decide as Hstatus; [done|]. intros [= <-].
    exists response. split_and!; [done| |done|].
    + lia.
    + destruct (decide (bls.status body = Some "REQUEST_SUCCEEDED")); [done|].
      by destruct Hstatus.
  - intros (response & -> & Hcode & Hjson & Hstatus). simpl.
    rewrite decide_False by naive_solver. rewrite Hjson. simpl.
    by rewrite decide_False by naive_solver.
Qed.


Lemma fetch_bls_data_Ok_iff_witness :
  get_data.fetch_bls_data (fixture.answers fixture.first_quarter)
    get_data.series_ids get_data.start_year get_data.end_year
  = Ok fixture.first_quarter.
Proof.
  apply (fetch_bls_data_Ok_iff (fixture.answers fixture.first_quarter)).
  exists (bls.mkResponse 200 (Some (bls.json_object fixture.first_quarter))).
  split_and!; reflexivity.
Defined.


(** ** The Fetcher: the run and the files *)

Section run.
Context (to_datetime : string → option Timestamp).
Context (to_numeric : string → float).
Context (to_csv : DataFrame → string).

Abbreviation main_execution := (get_data.main_execution to_datetime to_numeric to_csv).
Abbreviation clean_and_process_data :=
  (get_data.clean_and_process_data to_datetime to_numeric).

(** The two outcomes of a run. *)
Lemma main_execution_cases (post : bls.network) (σ : gmap string string) :
  (∃ e, main_execution post σ = (Raise e, σ)
        ∧ ((api_response ← get_data.fetch_bls_data post get_data.series_ids
                               get_data.start_year get_data.end_year;
            clean_and_process_data api_response) = Raise e))
  ∨ (∃ api_response t,
       get_data.fetch_bls_data post get_data.series_ids
         get_data.start_year get_data.end_year = Ok api_response
       ∧ clean_and_process_data api_response = Ok t
       ∧ main_execution post σ = (Ok (), <["labor_data.csv" := to_csv t]> σ)).
Proof.
  unfold get_data.main_execution, get_data.pure, mbind, get_data.script_bind,
    result_bind.
  destruct (get_data.fetch_bls_data _ _ _ _) as [api_response|e] eqn:Hfetch; simpl.
  - destruct (clean_and_process_data api_response) as [t|e] eqn:Hclean; simpl.
    + right. by exists api_response, t.
    + left. by exists e.
  - left. by exists e.
Qed.

(** X3: a run that raises, whatever the exception and wherever it comes
    from, leaves every file as it was; a run that returns has written
    labor_data.csv, which then holds the text of the table reshaped from
    the fetched answer, and has changed no other file. *)
Theorem main_execution_frame (post : bls.network) (σ : gmap string string) :
  (∀ e, (main_execution post σ).1 = Raise e → (main_execution post σ).2 = σ)
  ∧ ((main_execution post σ).1 = Ok () →
     ∃ api_response t,
       get_data.fetch_bls_data post get_data.series_ids
         get_data.start_year get_data.end_year = Ok api_response
       ∧ clean_and_process_data api_response = Ok t
       ∧ (main_execution post σ).2 !! "labor_data.csv" = Some (to_csv t))
  ∧ (∀ path, path ≠ "labor_data.csv" →
             (main_execution post σ).2 !! path = σ !! path).
Proof.
  destruct (main_execution_cases post σ)
    as [(e & -> & _)|(api_response & t & Hfetch & Hclean & ->)]; simpl.
  - done.
  - split_and!; [done| |].
    + intros _. exists api_response, t. by rewrite lookup_insert_eq.
    + intros path Hpath. by rewrite lookup_insert_ne.
Qed.

(** X4: when the fetch and the reshape return, the run returns and
    labor_data.csv holds the text of the reshaped table; what the file held
    before, if it was there, plays no part, so running again with the same
    answer changes nothing. *)
Theorem main_execution_overwrites (post : bls.network) (σ : gmap string string)
    (api_response : bls.body) (t : DataFrame) :
  get_data.fetch_bls_data post get_data.series_ids
    get_data.start_year get_data.end_year = Ok api_response →
  clean_and_process_data api_response = Ok t →
  main_execution post σ = (Ok (), <["labor_data.csv" := to_csv t]> σ)
  ∧ (∀ old, main_execution post (<["labor_data.csv" := old]> σ) = main_execution post σ)
  ∧ main_execution post (main_execution post σ).2 = main_execution post σ.
Proof.
  intros Hfetch Hclean.
  assert (∀ σ', main_execution post σ'
                = (Ok (), <["labor_data.csv" := to_csv t]> σ')) as Hrun.
  { intros σ'. destruct (main_execution_cases post σ')
      as [(e & _ & He)|(api' & t' & Hfetch' & Hclean' & ->)].
    - rewrite Hfetch in He. simpl in He. by rewrite Hclean in He.
    - rewrite Hfetch in Hfetch'. injection Hfetch' as <-.
      rewrite Hclean in Hclean'. by injection Hclean' as <-. }
  split_and!.
  - apply Hrun.
  - intros old. by rewrite !Hrun, insert_insert_eq.
  - rewrite (Hrun σ). simpl. by rewrite Hrun, insert_insert_eq.
Qed.

End run.

Lemma main_execution_frame_witness :
  (get_data.main_execution sample.to_datetime sample.to_numeric sample.to_csv
     (fixture.answers fixture.with_annual_average) fixture.two_files).2
  = fixture.two_files
  ∧ (∃ api_response t,
       get_data.fetch_bls_data (fixture.answers fixture.first_quarter)
         get_data.series_ids get_data.start_year get_data.end_year
       = Ok api_response
       ∧ get_data.clean_and_process_data sample.to_datetime sample.to_numeric
           api_response = Ok t
       ∧ (get_data.main_execution sample.to_datetime sample.to_numeric
            sample.to_csv (fixture.answers fixture.first_quarter)
            fixture.two_files).2 !! "labor_data.csv"
         = Some (sample.to_csv t))
  ∧ (get_data.main_execution sample.to_datetime sample.to_numeric sample.to_csv
       (fixture.answers fixture.first_quarter) fixture.two_files).2 !! "notes.txt"
    = fixture.two_files !! "notes.txt".
Proof.
  destruct (main_execution_frame sample.to_datetime sample.to_numeric
              sample.to_csv (fixture.answers fixture.with_annual_average)
              fixture.two_files) as (Hfail & _ & _).
  destruct (main_execution_frame sample.to_datetime sample.to_numeric
              sample.to_csv (fixture.answers fixture.first_quarter)
              fixture.two_files) as (_ & Hwritten & Hother).
  split_and!.
  - apply (Hfail (ValueError "2023-13-01")). vm_compute. reflexivity.
  - apply Hwritten. vm_compute. reflexivity.
  - apply Hother. discriminate.
Defined.

Lemma main_execution_overwrites_witness :
  get_data.main_execution sample.to_datetime sample.to_numeric sample.to_csv
    (fixture.answers fixture.first_quarter) fixture.earlier_run
  = (Ok (), {["labor_data.csv" := sample.to_csv fixture.first_quarter_table]}).
Proof.
  destruct (main_execution_overwrites sample.to_datetime sample.to_numeric
              sample.to_csv (fixture.answers fixture.first_quarter)
              fixture.earlier_run fixture.first_quarter
              fixture.first_quarter_table) as (-> & _).
  - reflexivity.
  - vm_compute. reflexivity.
  - unfold fixture.earlier_run. by rewrite insert_singleton_eq.
Defined.

(** ** The Fetcher: columns, dates and order of the table *)

#[local] Instance str_le_total : Total str_le.
Proof.
  intros a b. unfold str_le.
  destruct (String.leb_total a b) as [->| ->]; [by left|by right].
Qed.

#[local] Instance str_le_antisym : AntiSymm (=) str_le.
Proof.
  intros a b Hab Hba. unfold str_le in *.
  apply String.leb_antisym; by apply Is_true_true.
Qed.

#[local] Instance str_le_trans : Transitive str_le.
Proof.
  unfold str_le, String.leb. intros a.
  induction a as [|x a IH]; intros [|y b] [|z c]; simpl; try done.
  unfold Ascii.compare.
  destruct (N.compare_spec (N_of_ascii x) (N_of_ascii y)) as [Hxy|Hxy|Hxy],
           (N.compare_spec (N_of_ascii y) (N_of_ascii z)) as [Hyz|Hyz|Hyz],
           (N.compare_spec (N_of_ascii x) (N_of_ascii z)) as [Hxz|Hxz|Hxz];
    simpl; try done; try lia.
  apply IH.
Qed.

Lemma traverse_first_Raise {A B} (f : A → result B) (pre post : list A) (x : A) (e : exn) :
  Forall (λ a, ∃ b, f a = Ok b) pre → f x = Raise e →
  traverse f (pre ++ x :: post) = Raise e.
Proof.
  intros Hpre Hx. induction Hpre as [|a pre [b Ha] _ IH]; simpl.
  - by rewrite Hx.
  - by rewrite Ha, IH.
Qed.

Lemma traverse_Permutation {A B} (f : A → result B) (l1 l2 : list A) (ys1 : list B) :
  l1 ≡ₚ l2 → traverse f l1 = Ok ys1 →
  ∃ ys2, traverse f l2 = Ok ys2 ∧ ys1 ≡ₚ ys2.
Proof.
  intros Hperm. revert ys1.
  induction Hperm as [|x l1 l2 _ IH|x y l|l1 l2 l3 _ IH1 _ IH2]; intros ys1; simpl.
  - intros [= <-]. by exists [].
  - destruct (f x) as [b|]; simpl; [|done].
    destruct (traverse f l1) as [ys|]; simpl; [|done]. intros [= <-].
    destruct (IH ys eq_refl) as (ys2 & -> & Hys). simpl.
    exists (b :: ys2). by rewrite Hys.
  - destruct (f y) as [b|]; simpl; [|done].
    destruct (f x) as [a|]; simpl; [|done].
    destruct (traverse f l) as [ys|]; simpl; [|done]. intros [= <-].
    exists (a :: b :: ys). split; [done|]. apply Permutation_swap.
  - intros H1. destruct (IH1 ys1 H1) as (ys2 & H2 & Hp12).
    destruct (IH2 ys2 H2) as (ys3 & H3 & Hp23).
    exists ys3. split; [done|]. by rewrite Hp12.
Qed.

Lemma cell_absent (long : list long_row) (d : Timestamp) (c : string) :
  (∀ v, (d, c, v) ∉ long) → cell long d c = nan.
Proof.
  intros Hno. unfold cell.
  destruct (list_find _ long) as [[i [[d' c'] v]]|] eqn:Hfind; [|done].
  apply list_find_Some in Hfind as (Hi & Hkey & _).
  unfold key in Hkey; simpl in Hkey. injection Hkey as -> ->.
  destruct (Hno v). by eapply list_elem_of_lookup_2.
Qed.

(** A cell has a value exactly when the long table has one, not missing,
    for that date and label. *)
Lemma cell_valued (long : list long_row) (d : Timestamp) (c : string) :
  NoDup (key <$> long) →
  is_nan (cell long d c) = false ↔ ∃ v, (d, c, v) ∈ long ∧ is_nan v = false.
Proof.
  intros Hnd. split.
  - intros Hnan. exists (cell long d c). split; [by apply cell_present|done].
  - intros (v & Hin & Hnan). by rewrite (cell_found long d c v).
Qed.

Lemma cell_Permutation (long1 long2 : list long_row) (d : Timestamp) (c : string) :
  NoDup (key <$> long1) → long1 ≡ₚ long2 → cell long1 d c = cell long2 d c.
Proof.
  intros Hnd Hperm.
  assert (NoDup (key <$> long2)) as Hnd2 by (by rewrite <- Hperm).
  destruct (list_find (λ r, key r = (d, c)) long1) as [[i [[d' c'] v]]|] eqn:Hfind.
  - apply list_find_Some in Hfind as (Hi & Hkey & _).
    unfold key in Hkey; simpl in Hkey. injection Hkey as -> ->.
    apply list_elem_of_lookup_2 in Hi.
    rewrite (cell_found long1 d c v), (cell_found long2 d c v); try done.
    by rewrite <- Hperm.
  - apply list_find_None in Hfind. rewrite Forall_forall in Hfind.
    rewrite !cell_absent; [done|..]; intros v Hin; eapply (Hfind (d, c, v)); try done.
    by rewrite Hperm.
Qed.

Lemma merge_sort_Permutation_eq {A} (R : relation A)
    `{!∀ x y, Decision (R x y), !Total R, !Transitive R, !AntiSymm (=) R}
    (l1 l2 : list A) :
  l1 ≡ₚ l2 → merge_sort R l1 = merge_sort R l2.
Proof.
  intros Hperm. apply (Sorted_unique R); [apply Sorted_merge_sort, _..|].
  by rewrite !merge_sort_Permutation.
Qed.

Lemma remove_dups_Permutation `{EqDecision A} (l1 l2 : list A) :
  l1 ≡ₚ l2 → remove_dups l1 ≡ₚ remove_dups l2.
Proof.
  intros Hperm. apply NoDup_Permutation; [apply NoDup_remove_dups..|].
  intros x. by rewrite !elem_of_remove_dups, Hperm.
Qed.

(** The pivot does not depend on the order of the long table. *)
Lemma pivot_Permutation (long1 long2 : list long_row) :
  long1 ≡ₚ long2 → pivot long1 = pivot long2.
Proof.
  intros Hperm. unfold pivot.
  destruct (decide (NoDup (key <$> long1))) as [Hnd|Hnd].
  - rewrite decide_True by (by rewrite <- Hperm). f_equal.
    assert (merge_sort str_le (remove_dups ((λ r : long_row, r.1.2) <$> long1))
            = merge_sort str_le (remove_dups ((λ r : long_row, r.1.2) <$> long2))) as <-.
    { apply merge_sort_Permutation_eq; [apply _..|].
      by apply remove_dups_Permutation, fmap_Permutation. }
    assert (merge_sort Z.le (remove_dups ((λ r : long_row, r.1.1) <$> long1))
            = merge_sort Z.le (remove_dups ((λ r : long_row, r.1.1) <$> long2))) as <-.
    { apply merge_sort_Permutation_eq; [apply _..|].
      by apply remove_dups_Permutation, fmap_Permutation. }
    f_equal. apply list_fmap_ext. intros _ d _. unfold pivot_row. f_equal.
    apply list_fmap_ext. intros _ c _. by apply cell_Permutation.
  - by rewrite decide_False by (by rewrite <- Hperm).
Qed.

Section reshape_more.
Context (to_datetime : string → option Timestamp).
Context (to_numeric : string → float).
Context (to_csv : DataFrame → string).

Abbreviation clean_and_process_data :=
  (get_data.clean_and_process_data to_datetime to_numeric).
Abbreviation long_table := (get_data.long_table to_datetime to_numeric).

Abbreviation typed := (typed_row to_datetime to_numeric).

Lemma long_table_Ok (all_data : list get_data.observation) (long : list long_row) :
  long_table all_data = Ok long → all_data ≠ [] ∧ Forall2 typed all_data long.
Proof.
  unfold get_data.long_table. case_decide; [done|]. intros Hlong.
  split; [done|]. apply traverse_Ok in Hlong.
  eapply Forall2_impl; [exact Hlong|]. intros o r. simpl. unfold typed_row.
  destruct (to_datetime (get_data.date o)); simpl; [|done]. by intros [= <-].
Qed.

(** What a returned table is made of. *)
Lemma reshape_Ok_inv (api_response : bls.body) (t : DataFrame) :
  clean_and_process_data api_response = Ok t →
  ∃ series_list long index,
    bls.Results api_response = Some series_list
    ∧ long_table (get_data.all_data series_list) = Ok long
    ∧ pivot long = Ok (mkFrame (columns t) (pivot_row long (columns t) <$> index))
    ∧ ("date" ∉ columns t)
    ∧ t = dropna (sort_values true
                    (mkFrame (columns t) (pivot_row long (columns t) <$> index))).
Proof.
  unfold get_data.clean_and_process_data.
  destruct (get_data.series_of api_response) as [series_list|] eqn:Hseries;
    [simpl|done].
  apply series_of_Results in Hseries.
  destruct (get_data.long_table _ _ _) as [long|] eqn:Hlong; [simpl|done].
  destruct (pivot long) as [p|] eqn:Hpivot; [simpl|done].
  unfold reset_index. case_decide as Hdate; [done|]. simpl. intros [= <-].
  pose proof Hpivot as Hp.
  apply pivot_Ok_inv in Hp as (_ & index & cols & _ & _ & _ & _ & _ & ->).
  by exists series_list, long, index.
Qed.

(** X5: the columns of the returned table are the names of the series with
    at least one kept observation, each once, in the order of Python's
    string comparison, and none of them is called date. *)
Theorem reshape_columns (api_response : bls.body) (t : DataFrame) :
  clean_and_process_data api_response = Ok t →
  ∃ series_list,
    bls.Results api_response = Some series_list
    ∧ (∀ c, c ∈ columns t ↔
            ∃ o, o ∈ get_data.all_data series_list ∧ get_data.series_name o = c)
    ∧ NoDup (columns t)
    ∧ Sorted str_le (columns t)
    ∧ "date" ∉ columns t.
Proof.
  intros (series_list & long & index & Hres & Hlong & Hpivot & Hdate & _)%reshape_Ok_inv.
  exists series_list. split; [done|].
  apply long_table_Ok in Hlong as [_ Hlong].
  pose proof Hpivot as Hcols. unfold pivot in Hcols.
  case_decide; [|done]. injection Hcols as Hcols _.
  apply pivot_Ok_inv in Hpivot as (_ & _ & cols & _ & _ & _ & Hnd & Hin & [= <- _]).
  split_and!; [|done| |done].
  - intros c. rewrite Hin. split.
    + intros (d & v & [i Hi]%list_elem_of_lookup).
      destruct (Forall2_lookup_r _ _ _ _ _ Hlong Hi) as (o & Ho & _ & Hname & _).
      exists o. split; [by eapply list_elem_of_lookup_2|done].
    + intros (o & [i Hi]%list_elem_of_lookup & <-).
      destruct (Forall2_lookup_l _ _ _ _ _ Hlong Hi) as ([[d c] v] & Hr & _ & Hname & _).
      simpl in Hname. subst c. exists d, v. by eapply list_elem_of_lookup_2.
  - rewrite <- Hcols. apply Sorted_merge_sort, _.
Qed.

(** X6: a month is a row of the returned table exactly when every series of
    the table has an observation for it whose value is a number: one
    missing or unreadable value drops the whole month. *)
Theorem reshape_dates (api_response : bls.body) (t : DataFrame) :
  clean_and_process_data api_response = Ok t →
  ∃ series_list long,
    bls.Results api_response = Some series_list
    ∧ Forall2 typed (get_data.all_data series_list) long
    ∧ ∀ d, d ∈ (rows t).*1 ↔
           (∃ c v, (d, c, v) ∈ long)
           ∧ ∀ c, c ∈ columns t → ∃ v, (d, c, v) ∈ long ∧ is_nan v = false.
Proof.
  intros (series_list & long & index & Hres & Hlong & Hpivot & _ & Ht)%reshape_Ok_inv.
  exists series_list, long. split; [done|].
  apply long_table_Ok in Hlong as [_ Hlong]. split; [done|].
  apply pivot_Ok_inv in Hpivot
    as (Hkeys & index' & cols & Hindex & _ & Hin_index & _ & _ & [= <- Hrows]).
  destruct (reshaped_rows long (columns t) index' Hindex) as (_ & _ & Hdates).
  rewrite Hrows in Ht. rewrite <- Ht in Hdates.
  intros d. rewrite Hdates, Hin_index. unfold complete, pivot_row. simpl.
  rewrite Forall_fmap, Forall_forall.
  split; intros [Hd Hall]; (split; [done|]); intros c Hc.
  - by apply (cell_valued long d c Hkeys), Hall.
  - by apply (cell_valued long d c Hkeys), Hall.
Qed.

(** X7: the table does not depend on the order in which the response lists
    its series and observations: two responses whose kept observations are
    the same up to order give the same table. *)
Theorem reshape_order_irrelevant (api1 api2 : bls.body)
    (series1 series2 : list bls.series) (t : DataFrame) :
  bls.Results api1 = Some series1 →
  bls.Results api2 = Some series2 →
  get_data.all_data series1 ≡ₚ get_data.all_data series2 →
  clean_and_process_data api1 = Ok t →
  clean_and_process_data api2 = Ok t.
Proof.
  intros H1 H2 Hperm. unfold get_data.clean_and_process_data.
  rewrite (proj1 (series_of_Results _ _) H1), (proj1 (series_of_Results _ _) H2).
  simpl. unfold get_data.long_table.
  case_decide as Hnil; [done|].
  rewrite decide_False.
  2:{ intros Hnil2. rewrite Hnil2 in Hperm. by apply Permutation_nil_r in Hperm. }
  destruct (traverse _ (get_data.all_data series1)) as [long1|] eqn:Hlong1;
    simpl; [|done].
  destruct (traverse_Permutation _ _ _ _ Hperm Hlong1) as (long2 & -> & Hlong).
  simpl. by rewrite (pivot_Permutation long1 long2 Hlong).
Qed.

(** Reordering the series is such a reordering of the observations. *)
Lemma all_data_Permutation (series1 series2 : list bls.series) :
  series1 ≡ₚ series2 → get_data.all_data series1 ≡ₚ get_data.all_data series2.
Proof. intros Hperm. unfold get_data.all_data. by rewrite Hperm. Qed.

(** X8: a response in which no period begins with M, one without series
    included, has no table: [df["date"]] raises the KeyError of a frame
    without columns. *)
Theorem reshape_nothing_kept (api_response : bls.body)
    (series_list : list bls.series) :
  bls.Results api_response = Some series_list →
  (∀ s it, s ∈ series_list → it ∈ bls.data s →
           startswith (bls.period it) "M" = false) →
  clean_and_process_data api_response = Raise (KeyError "date").
Proof.
  intros Hres Hnone. unfold get_data.clean_and_process_data. rewrite (proj1 (series_of_Results _ _) Hres). simpl.
  unfold get_data.long_table. rewrite decide_True; [done|].
  apply elem_of_nil_inv. intros o. unfold get_data.all_data.
  intros (s & (it & Ho & Hit)%list_elem_of_bind & Hs)%list_elem_of_bind.
  rewrite keep_cases, (Hnone s it Hs Hit) in Ho. by apply elem_of_nil in Ho.
Qed.

(** X9: when the date of a kept observation cannot be read, and those of
    the observations before it can, the reshape raises the ValueError of
    that date: one such observation is enough to have no table. *)
Theorem reshape_unreadable_date (api_response : bls.body)
    (series_list : list bls.series)
    (before after : list get_data.observation) (o : get_data.observation) :
  bls.Results api_response = Some series_list →
  get_data.all_data series_list = before ++ o :: after →
  Forall (λ o', is_Some (to_datetime (get_data.date o'))) before →
  to_datetime (get_data.date o) = None →
  clean_and_process_data api_response = Raise (ValueError (get_data.date o)).
Proof.
  intros Hres Hall Hbefore Ho. unfold get_data.clean_and_process_data.
  rewrite (proj1 (series_of_Results _ _) Hres). simpl. unfold get_data.long_table. rewrite Hall.
  rewrite decide_False by (by destruct before).
  rewrite (traverse_first_Raise _ before after o (ValueError (get_data.date o)));
    [done| |by rewrite Ho].
  eapply Forall_impl; [exact Hbefore|]. intros o' [d Hd]. rewrite Hd. by eexists.
Qed.

(** X10: an identifier without entry in series_names is used as column
    name, and the table cannot take a column called date beside its dates:
    when the observations are otherwise fit for a table (every date
    readable, no date and series twice) and one of them belongs to a series
    called date, reset_index raises its ValueError. *)
Theorem reshape_series_called_date (api_response : bls.body)
    (series_list : list bls.series) (o : get_data.observation) :
  bls.Results api_response = Some series_list →
  Forall (λ o, is_Some (to_datetime (get_data.date o)))
    (get_data.all_data series_list) →
  (∀ i j o1 o2,
     get_data.all_data series_list !! i = Some o1 →
     get_data.all_data series_list !! j = Some o2 →
     to_datetime (get_data.date o1) = to_datetime (get_data.date o2) →
     get_data.series_name o1 = get_data.series_name o2 → i = j) →
  o ∈ get_data.all_data series_list →
  get_data.series_name o = "date" →
  clean_and_process_data api_response
  = Raise (ValueError "cannot insert date, already exists").
Proof.
  intros Hres Hdates Huniq Ho Hname.
  unfold get_data.clean_and_process_data, get_data.long_table.
  rewrite (proj1 (series_of_Results _ _) Hres); simpl. rewrite decide_False by (by eapply elem_of_not_nil).
  destruct (traverse_Forall2
              (λ o, d ← from_option Ok (Raise (ValueError (get_data.date o)))
                          (to_datetime (get_data.date o));
                    Ok (d, get_data.series_name o, to_numeric (get_data.value o)))
              typed (get_data.all_data series_list)) as (long & -> & Hlong).
  { intros o' Ho'. rewrite Forall_forall in Hdates.
    destruct (Hdates o' Ho') as [d Hd]. rewrite Hd. simpl. by eexists. }
  simpl. unfold pivot. rewrite decide_True.
  - simpl. unfold reset_index; simpl. rewrite decide_True; [done|].
    rewrite merge_sort_Permutation, elem_of_remove_dups, list_elem_of_fmap.
    apply list_elem_of_lookup in Ho as [i Hi].
    destruct (Forall2_lookup_l _ _ _ _ _ Hlong Hi) as (r & Hr & _ & Hrname & _).
    exists r. split; [congruence|]. by eapply list_elem_of_lookup_2.
  - apply NoDup_alt. intros i j k Hi Hj.
    rewrite list_lookup_fmap in Hi, Hj.
    destruct (long !! i) as [r1|] eqn:Hr1; [|done].
    destruct (long !! j) as [r2|] eqn:Hr2; [|done].
    simpl in *.
    destruct (Forall2_lookup_r _ _ _ _ _ Hlong Hr1) as (o1 & Ho1 & Hd1 & Hn1 & _).
    destruct (Forall2_lookup_r _ _ _ _ _ Hlong Hr2) as (o2 & Ho2 & Hd2 & Hn2 & _).
    apply (Huniq i j o1 o2); [done|done|..].
    + rewrite Hd1, Hd2. unfold key in *. congruence.
    + rewrite <- Hn1, <- Hn2. unfold key in *. congruence.
Qed.

End reshape_more.

Lemma reshape_columns_witness :
  ∃ series_list,
    bls.Results fixture.first_quarter = Some series_list
    ∧ (∀ c, c ∈ columns fixture.first_quarter_table ↔
            ∃ o, o ∈ get_data.all_data series_list ∧ get_data.series_name o = c)
    ∧ NoDup (columns fixture.first_quarter_table)
    ∧ Sorted str_le (columns fixture.first_quarter_table)
    ∧ ("date" ∉ columns fixture.first_quarter_table).
Proof.
  apply (reshape_columns sample.to_datetime sample.to_numeric
           fixture.first_quarter fixture.first_quarter_table).
  vm_compute. reflexivity.
Defined.

Lemma reshape_dates_witness :
  ∃ series_list long,
    bls.Results fixture.first_quarter = Some series_list
    ∧ Forall2 (typed_row sample.to_datetime sample.to_numeric)
        (get_data.all_data series_list) long
    ∧ ∀ d, d ∈ (rows fixture.first_quarter_table).*1 ↔
           (∃ c v, (d, c, v) ∈ long)
           ∧ ∀ c, c ∈ columns fixture.first_quarter_table →
                  ∃ v, (d, c, v) ∈ long ∧ is_nan v = false.
Proof.
  apply (reshape_dates sample.to_datetime sample.to_numeric
           fixture.first_quarter fixture.first_quarter_table).
  vm_compute. reflexivity.
Defined.

Lemma reshape_order_irrelevant_witness :
  get_data.clean_and_process_data sample.to_datetime sample.to_numeric
    fixture.first_quarter_reordered = Ok fixture.first_quarter_table.
Proof.
  apply (reshape_order_irrelevant sample.to_datetime sample.to_numeric
           fixture.first_quarter fixture.first_quarter_reordered _ _
           fixture.first_quarter_table eq_refl eq_refl).
  - vm_compute. compute_done.
  - vm_compute. reflexivity.
Defined.

Lemma reshape_nothing_kept_witness :
  get_data.clean_and_process_data sample.to_datetime sample.to_numeric
    fixture.quarters_only = Raise (KeyError "date").
Proof.
  apply (reshape_nothing_kept sample.to_datetime sample.to_numeric
           fixture.quarters_only
           [bls.mkSeries "LNS14000000"
              [bls.mkItem "2024" "Q01" "3.8"; bls.mkItem "2023" "A01" "3.6"]]).
  - reflexivity.
  - intros s it Hs Hit.
    apply list_elem_of_singleton in Hs as ->. simpl in Hit.
    repeat (apply elem_of_cons in Hit as [->|Hit]; [reflexivity|]).
    by apply elem_of_nil in Hit.
Defined.

Lemma reshape_unreadable_date_witness :
  get_data.clean_and_process_data sample.to_datetime sample.to_numeric
    fixture.with_annual_average = Raise (ValueError "2023-13-01").
Proof.
  apply (reshape_unreadable_date sample.to_datetime sample.to_numeric
           fixture.with_annual_average
           [bls.mkSeries "LNS14000000"
              [bls.mkItem "2023" "M12" "3.7"; bls.mkItem "2023" "M13" "3.6";
               bls.mkItem "2023" "M11" "3.7"]]
           [get_data.mkObservation "2023-12-01" "Unemployment_Rate" "3.7"]
           [get_data.mkObservation "2023-11-01" "Unemployment_Rate" "3.7"]
           (get_data.mkObservation "2023-13-01" "Unemployment_Rate" "3.6")).
  - reflexivity.
  - reflexivity.
  - repeat constructor. by eexists.
  - reflexivity.
Defined.

Lemma reshape_series_called_date_witness :
  get_data.clean_and_process_data sample.to_datetime sample.to_numeric
    fixture.series_called_date
  = Raise (ValueError "cannot insert date, already exists").
Proof.
  apply (reshape_series_called_date sample.to_datetime sample.to_numeric
           fixture.series_called_date
           [bls.mkSeries "LNS14000000" [bls.mkItem "2024" "M01" "3.7"];
            bls.mkSeries "date" [bls.mkItem "2024" "M01" "1"]]
           (get_data.mkObservation "2024-01-01" "date" "1")).
  - reflexivity.
  - repeat constructor; by eexists.
  - intros [|[|i]] [|[|j]] o1 o2 Ho1 Ho2 _ Hname; try done;
      simpl in Ho1, Ho2; simplify_eq; done.
  - vm_compute. by right; left.
  - reflexivity.
Defined.

(** X11: the kept observations come in the order of the response, series
    after series and, within a series, item after item; a series gives one
    for each of its items whose period begins with M, so splitting the
    response splits them and their number is the number of such items. *)
Theorem all_data_in_order (series_list : list bls.series) :
  get_data.all_data series_list
  = (s ← series_list;
     observation_of (column_name (bls.seriesID s))
       <$> filter (λ it, startswith (bls.period it) "M") (bls.data s))
  ∧ length (get_data.all_data series_list)
    = sum_list ((λ s, length (filter (λ it, startswith (bls.period it) "M")
                                (bls.data s))) <$> series_list)
  ∧ ∀ l1 l2, series_list = l1 ++ l2 →
             get_data.all_data series_list
             = get_data.all_data l1 ++ get_data.all_data l2.
Proof.
  assert (∀ name items,
            (it ← items; get_data.keep name it)
            = observation_of name
                <$> filter (λ it, startswith (bls.period it) "M") items) as Hitems.
  { intros name items. induction items as [|it items IH]; [done|].
    csimpl. rewrite IH, keep_cases, filter_cons.
    by destruct (startswith (bls.period it) "M"). }
  assert (get_data.all_data series_list
          = (s ← series_list;
             observation_of (column_name (bls.seriesID s))
               <$> filter (λ it, startswith (bls.period it) "M") (bls.data s)))
    as Hall.
  { unfold get_data.all_data. induction series_list as [|s l IH]; [done|].
    csimpl. by rewrite IH, Hitems. }
  split_and!; [done| |].
  - rewrite Hall. clear Hall. induction series_list as [|s l IH]; [done|].
    csimpl. by rewrite length_app, length_fmap, IH.
  - intros l1 l2 ->. unfold get_data.all_data. by rewrite bind_app.
Qed.

Lemma all_data_in_order_witness :
  length (get_data.all_data fixture.quarter_and_annual) = 2%nat.
Proof.
  destruct (all_data_in_order fixture.quarter_and_annual) as (_ & -> & _).
  reflexivity.
Defined.

(** ** The Dashboard: the time range and the last rows *)

Lemma getitem_missing {V} `{!Dtype V} {D} (df : Frame D V) (c : string) :
  c ∉ columns df → getitem df c = Raise (KeyError c).
Proof.
  intros Hc. unfold getitem.
  destruct (list_find _ _) as [[i x]|] eqn:Hfind; [|done].
  apply list_find_Some in Hfind as (Hi & -> & _).
  destruct Hc. by eapply list_elem_of_lookup_2.
Qed.

Lemma getitem_tail {V} `{!Dtype V} {D} (n : nat) (df : Frame D V) (c : string) :
  getitem (tail n df) c = col ← getitem df c; Ok (drop (len df - n) col).
Proof.
  unfold getitem, tail, len; simpl.
  destruct (list_find _ _) as [[i x]|]; simpl; [|done].
  by rewrite fmap_drop.
Qed.

Lemma iloc_drop {A} (l : list A) (k j : nat) :
  (0 < j ≤ length l - k)%nat →
  iloc (drop k l) (- Z.of_nat j) = iloc l (- Z.of_nat j).
Proof.
  intros Hj. unfold iloc. rewrite length_drop.
  destruct (Z.ltb_spec (- Z.of_nat j) 0); [|lia].
  destruct (Z.ltb_spec (Z.of_nat (length l - k) + - Z.of_nat j) 0); [lia|].
  destruct (Z.ltb_spec (Z.of_nat (length l) + - Z.of_nat j) 0); [lia|].
  rewrite lookup_drop.
  replace (k + Z.to_nat (Z.of_nat (length l - k) + - Z.of_nat j))%nat
    with (Z.to_nat (Z.of_nat (length l) + - Z.of_nat j)) by lia.
  done.
Qed.

Lemma calculate_change_tail {V} `{!Dtype V} (n : nat) (df : Frame Timestamp V)
    (column_name : string) :
  (2 ≤ n)%nat →
  app.calculate_change (tail n df) column_name = app.calculate_change df column_name.
Proof.
  intros Hn. unfold app.calculate_change.
  destruct (tail_suffix n df) as (_ & Hlen & _). rewrite Hlen.
  destruct (decide (len df < 2)%nat) as [Hlt|Hge].
  - by rewrite decide_True by lia.
  - rewrite decide_False by lia. rewrite getitem_tail.
    destruct (getitem df column_name) as [col|] eqn:Hcol; simpl; [|done].
    apply getitem_length in Hcol.
    change (-1)%Z with (- Z.of_nat 1)%Z. change (-2)%Z with (- Z.of_nat 2)%Z.
    rewrite !iloc_drop by lia. done.
Qed.

(** X12: the change of a column is the same on the table the time range
    keeps as on the whole table, whatever the range and the column, raised
    exceptions included: a card would show the same delta from either. *)
Theorem calculate_change_filtered {V} `{!Dtype V} (time_range : string) (df : Frame Timestamp V)
    (column_name : string) :
  app.calculate_change (app.filter_time_range time_range df) column_name
  = app.calculate_change df column_name.
Proof.
  unfold app.filter_time_range.
  repeat case_decide; [apply calculate_change_tail; lia..|done].
Qed.

Lemma tail_tail {V} {D} (n m : nat) (df : Frame D V) :
  tail n (tail m df) = tail (Nat.min n m) df.
Proof.
  unfold tail; simpl. f_equal. rewrite length_drop, drop_drop. f_equal. lia.
Qed.

Lemma tail_all {V} {D} (n : nat) (df : Frame D V) :
  (len df ≤ n)%nat → tail n df = df.
Proof.
  intros Hn. unfold tail, len in *.
  replace (length (rows df) - n)%nat with 0%nat by lia. by destruct df.
Qed.

(** X13: choosing a range twice is choosing it once; Last 6 Months of Last
    12 Months, in either order, is Last 6 Months; a table of at most 6 (12)
    rows is its own Last 6 (12) Months; and any other text for the range
    gives the whole table, as Full Range does. *)
Theorem filter_time_range_composes {V} (df : Frame Timestamp V) :
  (∀ r, app.filter_time_range r (app.filter_time_range r df)
        = app.filter_time_range r df)
  ∧ app.filter_time_range "Last 6 Months" (app.filter_time_range "Last 12 Months" df)
    = app.filter_time_range "Last 6 Months" df
  ∧ app.filter_time_range "Last 12 Months" (app.filter_time_range "Last 6 Months" df)
    = app.filter_time_range "Last 6 Months" df
  ∧ ((len df ≤ 6)%nat → app.filter_time_range "Last 6 Months" df = df)
  ∧ ((len df ≤ 12)%nat → app.filter_time_range "Last 12 Months" df = df)
  ∧ (∀ r, r ≠ "Last 12 Months" → r ≠ "Last 6 Months" →
          app.filter_time_range r df = df).
Proof.
  split_and!.
  - intros r. unfold app.filter_time_range. repeat case_decide; try done;
      by rewrite tail_tail.
  - apply (tail_tail 6 12).
  - apply (tail_tail 12 6).
  - apply (tail_all 6).
  - apply (tail_all 12).
  - intros r H12 H6. unfold app.filter_time_range. by rewrite !decide_False.
Qed.

Lemma filter_time_range_split {V} (time_range : string) (df : Frame Timestamp V) :
  ∃ left_out, rows df = left_out ++ rows (app.filter_time_range time_range df).
Proof.
  unfold app.filter_time_range.
  repeat case_decide; [eexists; apply (tail_suffix _ df)..|by exists []].
Qed.

(** X14: on a table whose dates increase from row to row, as the Fetcher
    writes it, the rows a time range keeps are the latest ones: their dates
    still increase, every date left out is earlier than every date kept,
    and what holds of every row of the table holds of every row kept, so
    that rows without missing value stay so. *)
Theorem filter_time_range_latest {V} (time_range : string) (df : Frame Timestamp V) :
  StronglySorted Z.lt (rows df).*1 →
  let kept := app.filter_time_range time_range df in
  StronglySorted Z.lt (rows kept).*1
  ∧ (∃ left_out, rows df = left_out ++ rows kept
       ∧ ∀ d1 d2, d1 ∈ left_out.*1 → d2 ∈ (rows kept).*1 → (d1 < d2)%Z)
  ∧ (∀ P : Timestamp * list V → Prop,
       Forall P (rows df) → Forall P (rows kept)).
Proof.
  intros Hsorted kept.
  destruct (filter_time_range_split time_range df) as [left_out Hrows].
  fold kept in Hrows.
  rewrite Hrows, fmap_app in Hsorted.
  apply StronglySorted_app in Hsorted as (Hlt & _ & Hkept).
  split_and!; [done|by exists left_out|].
  intros P. rewrite Hrows. by intros [_ ?]%Forall_app.
Qed.

#[local] Instance date_ge_total {V} : Total (@date_ge V).
Proof. intros r1 r2. unfold date_ge. lia. Qed.

#[local] Instance date_ge_trans {V} : Transitive (@date_ge V).
Proof. intros r1 r2 r3. unfold date_ge. lia. Qed.

Lemma reverse_dates_sorted {V} (l : list (Timestamp * list V)) :
  StronglySorted Z.lt l.*1 → StronglySorted date_ge (reverse l).
Proof.
  induction l as [|r l IH]; [constructor|]. csimpl.
  intros [Hr Hl]%StronglySorted_cons. rewrite reverse_cons.
  apply StronglySorted_app_2; [|by apply IH|repeat constructor].
  intros r1 r2 Hr1 Hr2%list_elem_of_singleton. subst r2.
  rewrite elem_of_reverse in Hr1.
  rewrite Forall_forall in Hr. unfold date_ge.
  assert (r.1 < r1.1)%Z; [|lia]. apply Hr. by apply list_elem_of_fmap_2.
Qed.

(** Sorting by date, latest first, a table whose dates increase. *)
Lemma sort_values_descending {V} (df : Frame Timestamp V) :
  StronglySorted Z.lt (rows df).*1 →
  rows (sort_values false df) = reverse (rows df).
Proof.
  intros Hsorted. unfold sort_values; simpl.
  apply (StronglySorted_unique_strong date_ge).
  - intros r1 r2 Hr1 Hr2 H12 H21.
    rewrite stable_sort_Permutation in Hr1. rewrite elem_of_reverse in Hr2.
    unfold date_ge in *.
    apply list_elem_of_lookup in Hr1 as [i Hi], Hr2 as [j Hj].
    assert (i = j) as ->; [|congruence].
    apply (NoDup_lookup (rows df).*1 i j r1.1);
      [by apply StronglySorted_lt_NoDup|rewrite list_lookup_fmap..].
    + by rewrite Hi.
    + rewrite Hj. simpl. f_equal. lia.
  - apply StronglySorted_stable_sort; apply _.
  - by apply reverse_dates_sorted.
  - by rewrite stable_sort_Permutation, reverse_Permutation.
Qed.

(** X15: the raw-data view shows the rows of the chosen range, each once,
    under the columns of the table, no date before a later one; when the
    dates of the table increase from row to row it is those rows in the
    opposite order, newest first. *)
Theorem raw_data_view {V} (time_range : string) (df : Frame Timestamp V) :
  let kept := app.filter_time_range time_range df in
  let view := sort_values false kept in
  rows view ≡ₚ rows kept
  ∧ Sorted date_ge (rows view)
  ∧ columns view = columns df
  ∧ (StronglySorted Z.lt (rows df).*1 → rows view = reverse (rows kept)).
Proof.
  intros kept view. split_and!.
  - apply stable_sort_Permutation.
  - apply Sorted_stable_sort; apply _.
  - apply filter_time_range_columns.
  - intros Hsorted. apply sort_values_descending.
    destruct (filter_time_range_split time_range df) as [left_out Hrows].
    fold kept in Hrows. rewrite Hrows, fmap_app in Hsorted.
    by apply StronglySorted_app in Hsorted as (_ & _ & ?).
Qed.

Lemma calculate_change_filtered_witness :
  app.calculate_change (app.filter_time_range "Last 6 Months" fixture.three_months)
    "Avg_Weekly_Hours" = Raise (KeyError "Avg_Weekly_Hours").
Proof.
  rewrite (calculate_change_filtered "Last 6 Months" fixture.three_months
             "Avg_Weekly_Hours").
  reflexivity.
Defined.

Lemma filter_time_range_composes_witness :
  app.filter_time_range "Last 6 Months" fixture.three_months = fixture.three_months
  ∧ app.filter_time_range "This Year" fixture.three_months = fixture.three_months.
Proof.
  destruct (filter_time_range_composes fixture.three_months)
    as (_ & _ & _ & H6 & _ & Hother).
  split.
  - apply H6. vm_compute. lia.
  - apply Hother; discriminate.
Defined.

Lemma three_months_sorted : StronglySorted Z.lt (rows fixture.three_months).*1.
Proof.
  vm_compute. repeat constructor.
Qed.

Lemma filter_time_range_latest_witness :
  let kept := app.filter_time_range "Last 6 Months" fixture.eight_months in
  StronglySorted Z.lt (rows kept).*1
  ∧ (∃ left_out, rows fixture.eight_months = left_out ++ rows kept
       ∧ ∀ d1 d2, d1 ∈ left_out.*1 → d2 ∈ (rows kept).*1 → (d1 < d2)%Z)
  ∧ (∀ P : Timestamp * list float → Prop,
       Forall P (rows fixture.eight_months) → Forall P (rows kept)).
Proof.
  apply (filter_time_range_latest "Last 6 Months" fixture.eight_months).
  vm_compute. repeat constructor.
Defined.

Lemma raw_data_view_witness :
  rows (sort_values false (app.filter_time_range "Full Range" fixture.three_months))
  = reverse (rows (app.filter_time_range "Full Range" fixture.three_months)).
Proof.
  apply (raw_data_view "Full Range" fixture.three_months).
  apply three_months_sorted.
Defined.

(** ** The Dashboard: cards, chart and the whole pass *)

Lemma last_value_Ok {V} `{!Dtype V} (df : Frame Timestamp V) (c : string) :
  c ∈ columns df → (1 ≤ len df)%nat → ∃ x, last_value df c = Ok x.
Proof.
  intros Hc Hlen. unfold last_value.
  destruct (getitem_is_Ok df c Hc) as [col Hcol]. rewrite Hcol. simpl.
  apply getitem_length in Hcol.
  destruct (lookup_lt_is_Some_2 col (length col - 1)%nat) as [x Hx]; [lia|].
  exists x. apply (iloc_back col 1); [lia|done].
Qed.

(** Formatting a value of the table never raises: it is formatted as the
    [float] it converts to. *)
Lemma format_num_f_item {V} `{!Dtype V, !DtypeLaws V} (plus grouping : bool) (p : nat) (v : V) :
  format_num_f plus grouping p (item v)
  = Ok (format_f plus grouping p (as_float v)).
Proof.
  pose proof (float_item v) as Hv. unfold format_num_f, float_of_num in *.
  destruct (item v); [by rewrite Hv|by injection Hv as ->].
Qed.

Lemma delta_text_Ok {V} `{!Dtype V, !DtypeLaws V} (df : Frame Timestamp V)
    (c : string) (grouping : bool) (p : nat) :
  c ∈ columns df → ∃ s, delta_text df c grouping p = Ok s.
Proof.
  intros Hc. unfold delta_text, app.calculate_change. case_decide as Hlen.
  - unfold mbind, result_bind, bind, format_num_f.
    rewrite float_of_int_0. by eexists.
  - destruct (getitem_is_Ok df c Hc) as [col Hcol]. rewrite Hcol. simpl.
    apply getitem_length in Hcol.
    destruct (lookup_lt_is_Some_2 col (length col - 1)%nat) as [x Hx]; [lia|].
    destruct (lookup_lt_is_Some_2 col (length col - 2)%nat) as [y Hy]; [lia|].
    assert (iloc col (-1) = Ok x) as -> by (apply (iloc_back col 1); [lia|done]).
    assert (iloc col (-2) = Ok y) as -> by (apply (iloc_back col 2); [lia|done]).
    simpl. rewrite format_num_f_item. by eexists.
Qed.

Section pass_more.
Context {V : Type} `{!Dtype V, !DtypeLaws V}.
Context (read_csv : string → result (Frame string V)).
Context (to_datetime : string → option Timestamp).
Context (str_float : float → string).

Abbreviation main := (app.main read_csv to_datetime str_float).
Abbreviation load_data := (app.load_data read_csv to_datetime).
Abbreviation summary_cards := (app.summary_cards str_float).

(** The four cards, from the latest values and the delta texts. *)
Lemma summary_cards_from (df : Frame Timestamp V) (u n a w : V) (du dn da dw : string) :
  last_value df "Unemployment_Rate" = Ok u →
  delta_text df "Unemployment_Rate" false 1 = Ok du →
  last_value df "Total_Nonfarm_Employees" = Ok n →
  delta_text df "Total_Nonfarm_Employees" true 0 = Ok dn →
  last_value df "Avg_Hourly_Earnings" = Ok a →
  delta_text df "Avg_Hourly_Earnings" false 2 = Ok da →
  last_value df "Avg_Weekly_Hours" = Ok w →
  delta_text df "Avg_Weekly_Hours" false 1 = Ok dw →
  summary_cards df =
    (four_cards u n a w du dn da dw, Ok ()).
Proof.
  unfold last_value, delta_text, app.summary_cards.
  intros Hu Hdu Hn Hdn Ha Hda Hw Hdw.
  repeat match goal with
         | H : (_ ← ?r; _) = Ok _ |- _ =>
             let x := fresh in destruct r as [x|] eqn:?; simpl in H; [|done]
         end.
  unfold app.lift, app.show, mbind, app.UI_bind.
  repeat match goal with
         | H : ?r = Ok _ |- context [?r] => rewrite H
         end.
  unfold app.format_value. simpl. by rewrite !format_num_f_item.
Qed.

Lemma summary_cards_no_rows_Raise (df : Frame Timestamp V) :
  rows df = [] → ∃ e, summary_cards df = ([], Raise e).
Proof.
  intros Hrows. unfold app.summary_cards.
  destruct (getitem df "Unemployment_Rate") as [col|e] eqn:Hcol; [|by exists e].
  apply getitem_length in Hcol. unfold len in Hcol. rewrite Hrows in Hcol.
  destruct col; [|done]. by eexists.
Qed.

(** With the four columns and a row, every card has its value and delta. *)
Lemma summary_cards_values (df : Frame Timestamp V) :
  app.series_options ⊆ columns df → (1 ≤ len df)%nat →
  ∃ (u n a w : V) (du dn da dw : string),
    last_value df "Unemployment_Rate" = Ok u
    ∧ delta_text df "Unemployment_Rate" false 1 = Ok du
    ∧ last_value df "Total_Nonfarm_Employees" = Ok n
    ∧ delta_text df "Total_Nonfarm_Employees" true 0 = Ok dn
    ∧ last_value df "Avg_Hourly_Earnings" = Ok a
    ∧ delta_text df "Avg_Hourly_Earnings" false 2 = Ok da
    ∧ last_value df "Avg_Weekly_Hours" = Ok w
    ∧ delta_text df "Avg_Weekly_Hours" false 1 = Ok dw
    ∧ summary_cards df = (four_cards u n a w du dn da dw, Ok ()).
Proof.
  intros Hcols Hlen.
  assert (∀ c, c ∈ app.series_options → c ∈ columns df) as Hc by done.
  destruct (last_value_Ok df "Unemployment_Rate") as [u Hu];
    [apply Hc; compute_done|done|].
  destruct (last_value_Ok df "Total_Nonfarm_Employees") as [n Hn];
    [apply Hc; compute_done|done|].
  destruct (last_value_Ok df "Avg_Hourly_Earnings") as [a Ha];
    [apply Hc; compute_done|done|].
  destruct (last_value_Ok df "Avg_Weekly_Hours") as [w Hw];
    [apply Hc; compute_done|done|].
  destruct (delta_text_Ok df "Unemployment_Rate" false 1) as [du Hdu];
    [apply Hc; compute_done|].
  destruct (delta_text_Ok df "Total_Nonfarm_Employees" true 0) as [dn Hdn];
    [apply Hc; compute_done|].
  destruct (delta_text_Ok df "Avg_Hourly_Earnings" false 2) as [da Hda];
    [apply Hc; compute_done|].
  destruct (delta_text_Ok df "Avg_Weekly_Hours" false 1) as [dw Hdw];
    [apply Hc; compute_done|].
  exists u, n, a, w, du, dn, da, dw. split_and!; try done.
  by apply summary_cards_from.
Qed.

(** X16: the four cards are shown, and nothing is raised, exactly when the
    table has the four indicator columns and at least one row; they come in
    the order rate, employees, earnings, hours, each with the latest value
    of its column and the signed change, and only the rate has the inverse
    delta color. *)
Theorem summary_cards_shown (df : Frame Timestamp V) :
  ((summary_cards df).2 = Ok () ↔
   app.series_options ⊆ columns df ∧ (1 ≤ len df)%nat)
  ∧ ((summary_cards df).2 = Ok () →
     ∃ (u n a w : V) (du dn da dw : string),
       last_value df "Unemployment_Rate" = Ok u
       ∧ delta_text df "Unemployment_Rate" false 1 = Ok du
       ∧ last_value df "Total_Nonfarm_Employees" = Ok n
       ∧ delta_text df "Total_Nonfarm_Employees" true 0 = Ok dn
       ∧ last_value df "Avg_Hourly_Earnings" = Ok a
       ∧ delta_text df "Avg_Hourly_Earnings" false 2 = Ok da
       ∧ last_value df "Avg_Weekly_Hours" = Ok w
       ∧ delta_text df "Avg_Weekly_Hours" false 1 = Ok dw
       ∧ summary_cards df = (four_cards u n a w du dn da dw, Ok ())).
Proof.
  assert ((summary_cards df).2 = Ok () →
          app.series_options ⊆ columns df ∧ (1 ≤ len df)%nat) as Hok.
  { intros Hok. split; [by apply (summary_cards_Ok_columns str_float)|].
    destruct (rows df) as [|r rs] eqn:Hrows.
    - destruct (summary_cards_no_rows_Raise df Hrows) as [e He].
      by rewrite He in Hok.
    - unfold len. rewrite Hrows. simpl. lia. }
  split; [split; [done|]|].
  - intros [Hcols Hlen].
    by destruct (summary_cards_values df Hcols Hlen)
      as (?&?&?&?&?&?&?&?&_&_&_&_&_&_&_&_& ->).
  - intros [Hcols Hlen]%Hok. by apply summary_cards_values.
Qed.

(** X17: on a table of one row the four cards show the values of that row
    and the deltas +0.0%, +0K, $+0.00 and +0.0. *)
Theorem summary_cards_one_row (df : Frame Timestamp V) :
  app.series_options ⊆ columns df → len df = 1%nat →
  ∃ u n a w : V,
    last_value df "Unemployment_Rate" = Ok u
    ∧ last_value df "Total_Nonfarm_Employees" = Ok n
    ∧ last_value df "Avg_Hourly_Earnings" = Ok a
    ∧ last_value df "Avg_Weekly_Hours" = Ok w
    ∧ summary_cards df =
        ([app.st_metric "Unemployment Rate"
            (format_f false false 1 (as_float u) +:+ "%") "+0.0%" "inverse";
          app.st_metric "Total Nonfarm Employees"
            (format_f false true 0 (as_float n) +:+ "K") "+0K" "normal";
          app.st_metric "Avg Hourly Earnings"
            ("$" +:+ format_f false false 2 (as_float a)) "$+0.00" "normal";
          app.st_metric "Avg Weekly Hours"
            (format_f false false 1 (as_float w)) "+0.0" "normal"],
         Ok ()).
Proof.
  intros Hcols Hlen.
  assert (∀ c, c ∈ app.series_options → c ∈ columns df) as Hc by done.
  destruct (last_value_Ok df "Unemployment_Rate") as [u Hu];
    [apply Hc; compute_done|lia|].
  destruct (last_value_Ok df "Total_Nonfarm_Employees") as [n Hn];
    [apply Hc; compute_done|lia|].
  destruct (last_value_Ok df "Avg_Hourly_Earnings") as [a Ha];
    [apply Hc; compute_done|lia|].
  destruct (last_value_Ok df "Avg_Weekly_Hours") as [w Hw];
    [apply Hc; compute_done|lia|].
  exists u, n, a, w. split_and!; try done.
  apply (summary_cards_from df u n a w "+0.0" "+0" "+0.00" "+0.0");
    try done; by rewrite delta_text_one_row by lia.
Qed.

End pass_more.

Lemma summary_cards_shown_witness :
  (app.summary_cards sample.str_float fixture.all_indicators).2 = Ok ()
  ∧ (app.summary_cards sample.str_float fixture.three_months).2 ≠ Ok ().
Proof.
  destruct (summary_cards_shown sample.str_float fixture.all_indicators) as [[_ Hyes] _].
  destruct (summary_cards_shown sample.str_float fixture.three_months) as [[Hno _] _].
  split.
  - apply Hyes. split; [compute_done|vm_compute; lia].
  - intros [Hcols _]%Hno. revert Hcols. compute_done.
Defined.

Lemma summary_cards_one_row_witness :
  ∃ u n a w : float,
    last_value fixture.one_month "Unemployment_Rate" = Ok u
    ∧ last_value fixture.one_month "Total_Nonfarm_Employees" = Ok n
    ∧ last_value fixture.one_month "Avg_Hourly_Earnings" = Ok a
    ∧ last_value fixture.one_month "Avg_Weekly_Hours" = Ok w
    ∧ app.summary_cards sample.str_float fixture.one_month =
        ([app.st_metric "Unemployment Rate"
            (format_f false false 1 u +:+ "%") "+0.0%" "inverse";
          app.st_metric "Total Nonfarm Employees"
            (format_f false true 0 n +:+ "K") "+0K" "normal";
          app.st_metric "Avg Hourly Earnings"
            ("$" +:+ format_f false false 2 a) "$+0.00" "normal";
          app.st_metric "Avg Weekly Hours"
            (format_f false false 1 w) "+0.0" "normal"],
         Ok ()).
Proof.
  destruct (summary_cards_one_row sample.str_float fixture.one_month)
    as (u & n & a & w & Hu & Hn & Ha & Hw & Hcards).
  - compute_done.
  - reflexivity.
  - exists u, n, a, w. split_and!; [done..|exact Hcards].
Defined.

(** Runs the cards on the values and delta texts found in the context, up
    to the column whose [getitem] raises. *)
Ltac cards_until_error :=
  unfold last_value, delta_text in *;
  repeat match goal with
         | H : (_ ← ?r; _) = Ok _ |- _ =>
             let x := fresh in destruct r as [x|] eqn:?; simpl in H; [|done]
         end;
  unfold app.summary_cards, app.lift, app.show, mbind, app.UI_bind;
  repeat match goal with
         | H : ?r = Ok _ |- context [?r] => rewrite H
         | H : ?r = Raise _ |- context [?r] => rewrite H
         end;
  unfold app.format_value; simpl; rewrite ?format_num_f_item;
  eexists; split_and!; [reflexivity|reflexivity|by repeat constructor].

Section cards_error.
Context {V : Type} `{!Dtype V, !DtypeLaws V}.
Context (str_float : float → string).

Abbreviation summary_cards := (app.summary_cards str_float).

(** X18: the cards are made one after the other, in the order of the four
    series: on a table with a row, when one of the four columns is missing
    and the ones before it are there, the cards of those are shown and the
    KeyError of the missing column is raised at its card. *)
Theorem summary_cards_missing_column (df : Frame Timestamp V)
    (before after : list string) (c : string) :
  app.series_options = before ++ c :: after →
  before ⊆ columns df → c ∉ columns df → (1 ≤ len df)%nat →
  ∃ cards,
    summary_cards df = (cards, Raise (KeyError c))
    ∧ length cards = length before
    ∧ Forall (λ e, is_card e = true) cards.
Proof.
  intros Heq Hbefore Hc Hlen.
  assert (∀ b, b ∈ before →
            (∃ x, last_value df b = Ok x)
            ∧ ∀ grouping p, ∃ s, delta_text df b grouping p = Ok s) as Hval.
  { intros b Hb. split; [|intros grouping p].
    - by apply last_value_Ok; [apply Hbefore|].
    - by apply delta_text_Ok, Hbefore. }
  pose proof (getitem_missing df c Hc) as Hmissing.
  unfold app.series_options in Heq.
  destruct before as [|b1 [|b2 [|b3 [|b4 before]]]]; simplify_eq/=.
  - cards_until_error.
  - destruct (Hval "Unemployment_Rate") as [[u Hu] Hd]; [by left|].
    destruct (Hd false 1%nat) as [du Hdu].
    cards_until_error.
  - destruct (Hval "Unemployment_Rate") as [[u Hu] Hd]; [by left|].
    destruct (Hd false 1%nat) as [du Hdu].
    destruct (Hval "Total_Nonfarm_Employees") as [[n Hn] Hd']; [by right; left|].
    destruct (Hd' true 0%nat) as [dn Hdn].
    cards_until_error.
  - destruct (Hval "Unemployment_Rate") as [[u Hu] Hd]; [by left|].
    destruct (Hd false 1%nat) as [du Hdu].
    destruct (Hval "Total_Nonfarm_Employees") as [[n Hn] Hd']; [by right; left|].
    destruct (Hd' true 0%nat) as [dn Hdn].
    destruct (Hval "Avg_Hourly_Earnings") as [[a Ha] Hd'']; [by do 2 right; left|].
    destruct (Hd'' false 2%nat) as [da Hda].
    cards_until_error.
  - by destruct before.
Qed.

End cards_error.

Lemma summary_cards_missing_column_witness :
  ∃ cards,
    app.summary_cards sample.str_float fixture.three_months
    = (cards, Raise (KeyError "Avg_Hourly_Earnings"))
    ∧ length cards = 2%nat
    ∧ Forall (λ e, is_card e = true) cards.
Proof.
  apply (summary_cards_missing_column sample.str_float fixture.three_months
           ["Unemployment_Rate"; "Total_Nonfarm_Employees"]
           ["Avg_Weekly_Hours"] "Avg_Hourly_Earnings").
  - reflexivity.
  - compute_done.
  - compute_done.
  - vm_compute. lia.
Defined.

Lemma dict_getitem_other (d : gmap string string) (k : string) :
  d !! k = None → app.dict_getitem d k = Raise (KeyError k).
Proof. intros H. unfold app.dict_getitem. by rewrite H. Qed.

Lemma display_names_other (series : string) :
  series ∉ app.series_options → app.display_names !! series = None.
Proof.
  intros Hs. unfold app.display_names, app.series_options in *.
  rewrite !lookup_insert_ne, lookup_empty; [done|..];
    intros <-; apply Hs; compute_done.
Qed.

(** A series the table or the two dicts do not have. *)
Lemma scatter_KeyError {V} `{!Dtype V} (df : Frame Timestamp V) (series : string) :
  series ∉ columns df ∨ series ∉ app.series_options →
  app.scatter df series = Raise (KeyError series).
Proof.
  unfold app.scatter.
  destruct (decide (series ∈ columns df)) as [Hin|Hout].
  - intros [?|Hs]; [done|].
    destruct (getitem_is_Ok df series Hin) as [col ->]. simpl.
    by rewrite (dict_getitem_other _ _ (display_names_other series Hs)).
  - intros _. by rewrite getitem_missing.
Qed.

(** X19: when a selected series is not a column of the table, or is not one
    of the four indicators, and the series selected before it are both, the
    chart block raises the KeyError of that series and shows nothing, the
    prompt neither. *)
Theorem chart_KeyError {V} `{!Dtype V} (df : Frame Timestamp V)
    (before after : list string)
    (series : string) :
  before ⊆ columns df → before ⊆ app.series_options →
  series ∉ columns df ∨ series ∉ app.series_options →
  app.chart df (before ++ series :: after) = ([], Raise (KeyError series)).
Proof.
  intros Hcols Hopts Hs. unfold app.chart.
  rewrite decide_True by (by destruct before).
  rewrite (traverse_first_Raise _ before after series (KeyError series));
    [done| |by apply scatter_KeyError].
  apply Forall_forall. intros s Hin.
  destruct (scatter_is_Ok df s) as (t & -> & _); [by apply Hcols|by apply Hopts|].
  by eexists.
Qed.

Lemma chart_Ok {V} `{!Dtype V} (df : Frame Timestamp V)
    (selected_series : list string) :
  app.series_options ⊆ columns df → selected_series ⊆ app.series_options →
  ∃ el, app.chart df selected_series = ([el], Ok ()) ∧ is_card el = false.
Proof.
  intros Hcols Hsel. unfold app.chart. case_decide.
  - destruct (traverse_Forall2 (app.scatter df) (λ _ _, True) selected_series)
      as (traces & -> & _).
    { intros s Hs. destruct (scatter_is_Ok df s) as (t & -> & _);
        [apply Hcols, Hsel, Hs|apply Hsel, Hs|]. by eexists. }
    by eexists.
  - by eexists.
Qed.

Lemma date_min_max_Some {V} (df : Frame Timestamp V) :
  (1 ≤ len df)%nat → ∃ first last, date_min df = Some first ∧ date_max df = Some last.
Proof.
  unfold len, date_min, date_max. destruct (rows df); simpl; [lia|]. by eexists _, _.
Qed.

Section pass_whole.
Context {V : Type} `{!Dtype V, !DtypeLaws V}.
Context (read_csv : string → result (Frame string V)).
Context (to_datetime : string → option Timestamp).
Context (str_float : float → string).

Abbreviation main := (app.main read_csv to_datetime str_float).
Abbreviation load_data := (app.load_data read_csv to_datetime).
Abbreviation summary_cards := (app.summary_cards str_float).

(** X20: load_data returns a table exactly when labor_data.csv is there,
    read_csv reads it and every date of it is readable; the table has the
    columns, the rows and the values read_csv returned, in the same order,
    with the dates converted. *)
Theorem load_data_Ok_iff (files : gmap string string) (df : Frame Timestamp V) :
  load_data files = Ok df ↔
  ∃ text raw,
    files !! "labor_data.csv" = Some text
    ∧ read_csv text = Ok raw
    ∧ columns df = columns raw
    ∧ Forall2 (λ r r', to_datetime r.1 = Some r'.1 ∧ r'.2 = r.2)
        (rows raw) (rows df).
Proof.
  unfold app.load_data. split.
  - destruct (files !! "labor_data.csv") as [text|]; simpl; [|done].
    destruct (read_csv text) as [raw|] eqn:Hraw; simpl; [|done].
    destruct (traverse _ (rows raw)) as [dated|] eqn:Hdated; simpl; [|done].
    intros [= <-]. exists text, raw. split_and!; try done. simpl.
    apply traverse_Ok in Hdated. eapply Forall2_impl; [exact Hdated|].
    intros r r'. simpl. destruct (to_datetime r.1); simpl; [|done].
    by intros [= <-].
  - intros (text & raw & -> & Hraw & Hcols & Hrows). simpl. rewrite Hraw. simpl.
    assert (traverse (λ r : string * list V,
                d ← from_option Ok (Raise (ValueError r.1)) (to_datetime r.1);
                Ok (d, r.2)) (rows raw) = Ok (rows df)) as ->.
    { apply traverse_Ok. eapply Forall2_impl; [exact Hrows|].
      intros r [d cells] [Hd Hc]. simpl in *. rewrite Hd. simpl. by subst. }
    simpl. rewrite <- Hcols. by destruct df.
Qed.

(** X21: only the missing file is caught: any other exception of the load
    (a file read_csv cannot read, a date to_datetime cannot read) escapes
    from the pass, after the title and the introduction and before anything
    else. *)
Theorem main_load_error (files : gmap string string) (time_range : string)
    (selected_series : list string) (e : exn) :
  load_data files = Raise e →
  (∀ path, e ≠ FileNotFoundError path) →
  main files time_range selected_series =
    ([app.st_title "📊 US Labor Statistics Dashboard";
      app.st_markdown app.intro_text], Raise e).
Proof.
  intros Hload He. unfold app.main. rewrite Hload.
  destruct e; try done. by destruct (He path).
Qed.

(** X22: with a table of at least one row that has the four indicator
    columns, and a selection among the four series, the pass finishes
    without an exception and shows, in this order: title, introduction,
    the range of the dates, the four cards, the two selectors, the chart
    or the prompt, and the rows of the chosen range, newest first. *)
Theorem main_finishes (files : gmap string string) (df : Frame Timestamp V)
    (time_range : string) (selected_series : list string) :
  load_data files = Ok df →
  app.series_options ⊆ columns df → (1 ≤ len df)%nat →
  selected_series ⊆ app.series_options →
  ∃ first last cards chart_element,
    date_min df = Some first ∧ date_max df = Some last
    ∧ summary_cards df = (cards, Ok ())
    ∧ app.chart (app.filter_time_range time_range df) selected_series
      = ([chart_element], Ok ())
    ∧ main files time_range selected_series =
        ([app.st_title "📊 US Labor Statistics Dashboard";
          app.st_markdown app.intro_text;
          app.st_info ("📅 Data Range: " +:+ strftime_B_Y first
                         +:+ " to " +:+ strftime_B_Y last);
          app.st_header "📈 Current Indicators";
          app.st_columns [1; 1; 1; 1]]
         ++ cards
         ++ [app.st_divider;
             app.st_header "📉 Time Series Analysis";
             app.st_columns [1; 3];
             app.st_selectbox "Select Time Range:"
               ["Full Range"; "Last 12 Months"; "Last 6 Months"] 0;
             app.st_multiselect "Select Series to Display:" app.series_options
               ["Unemployment_Rate"; "Total_Nonfarm_Employees"];
             chart_element;
             app.st_expander "📋 View Raw Data";
             app.st_dataframe
               (sort_values false (app.filter_time_range time_range df));
             app.st_divider;
             app.st_markdown app.footer_text],
         Ok ()).
Proof.
  intros Hload Hcols Hlen Hsel.
  destruct (date_min_max_Some df Hlen) as (first & last & Hmin & Hmax).
  destruct (summary_cards_values str_float df Hcols Hlen)
    as (u&n&a&w&du&dn&da&dw&_&_&_&_&_&_&_&_& Hcards).
  destruct (chart_Ok (app.filter_time_range time_range df) selected_series)
    as (el & Hchart & _); [by rewrite filter_time_range_columns|done|].
  exists first, last, (four_cards u n a w du dn da dw), el.
  split_and!; try done.
  unfold app.main. rewrite Hload. simpl. rewrite Hmin, Hmax. simpl.
  rewrite Hcards. simpl. by rewrite Hchart.
Qed.

End pass_whole.

Lemma chart_KeyError_witness :
  app.chart fixture.three_months ["Unemployment_Rate"; "Avg_Weekly_Hours"]
  = ([], Raise (KeyError "Avg_Weekly_Hours")).
Proof.
  apply (chart_KeyError fixture.three_months ["Unemployment_Rate"] []
           "Avg_Weekly_Hours").
  - compute_done.
  - compute_done.
  - left. compute_done.
Defined.

Lemma load_data_Ok_iff_witness :
  app.load_data sample.read_csv sample.to_datetime fixture.earlier_run
  = Ok fixture.all_indicators.
Proof.
  apply (load_data_Ok_iff sample.read_csv sample.to_datetime).
  exists (sample.to_csv fixture.all_indicators),
         (mkFrame (columns fixture.all_indicators)
            (prod_map sample.iso_date id <$> rows fixture.all_indicators)).
  split_and!.
  - reflexivity.
  - vm_compute. reflexivity.
  - reflexivity.
  - repeat constructor.
Defined.

Lemma main_load_error_witness :
  app.main sample.read_csv sample.to_datetime sample.str_float fixture.empty_file
    "Full Range" []
  = ([app.st_title "📊 US Labor Statistics Dashboard";
      app.st_markdown app.intro_text],
     Raise (ValueError "No columns to parse from file")).
Proof.
  apply (main_load_error sample.read_csv sample.to_datetime sample.str_float
           fixture.empty_file "Full Range" []).
  - reflexivity.
  - discriminate.
Defined.

Lemma main_finishes_witness :
  (app.main sample.read_csv sample.to_datetime sample.str_float
     fixture.earlier_run "Last 6 Months" ["Unemployment_Rate"]).2 = Ok ().
Proof.
  destruct (main_finishes sample.read_csv sample.to_datetime sample.str_float
              fixture.earlier_run fixture.all_indicators "Last 6 Months"
              ["Unemployment_Rate"])
    as (first & last & cards & el & _ & _ & _ & _ & ->).
  - vm_compute. reflexivity.
  - compute_done.
  - vm_compute. lia.
  - compute_done.
  - reflexivity.
Defined.

(** ** From the Fetcher to the Dashboard *)

Section pipeline.
Context (to_datetime : string → option Timestamp).
Context (to_numeric : string → float).
Context (to_csv : DataFrame → string).
Context (read_csv : string → result (Frame string float)).
Context (str_float : float → string).

Abbreviation clean_and_process_data :=
  (get_data.clean_and_process_data to_datetime to_numeric).
Abbreviation main_execution :=
  (get_data.main_execution to_datetime to_numeric to_csv).
Abbreviation load_data := (app.load_data read_csv to_datetime).
Abbreviation main := (app.main read_csv to_datetime str_float).

(** The names the Fetcher gives the requested series are the columns the
    Dashboard reads. *)
Lemma series_options_named (c : string) :
  c ∈ app.series_options →
  ∃ series_id, series_id ∈ get_data.series_ids ∧ column_name series_id = c.
Proof.
  unfold app.series_options. intros Hc.
  repeat (apply elem_of_cons in Hc as [->|Hc]).
  - exists "LNS14000000". split; [compute_done|reflexivity].
  - exists "CES0000000001". split; [compute_done|reflexivity].
  - exists "CES0500000003". split; [compute_done|reflexivity].
  - exists "CES0500000007". split; [compute_done|reflexivity].
  - by apply elem_of_nil in Hc.
Qed.

Lemma reshape_indicator_columns (api_response : bls.body)
    (series_list : list bls.series) (t : DataFrame) :
  bls.Results api_response = Some series_list →
  (∀ series_id, series_id ∈ get_data.series_ids →
     ∃ s it, s ∈ series_list ∧ bls.seriesID s = series_id
             ∧ it ∈ bls.data s ∧ startswith (bls.period it) "M" = true) →
  clean_and_process_data api_response = Ok t →
  app.series_options ⊆ columns t.
Proof.
  intros Hres Hall
    (series_list' & long & index & Hres' & Hlong & Hpivot & _)%reshape_Ok_inv.
  rewrite Hres in Hres'. injection Hres' as <-.
  apply long_table_Ok in Hlong as [_ Hlong].
  apply pivot_Ok_inv in Hpivot as (_ & _ & cols & _ & _ & _ & _ & Hin & [= <- _]).
  intros c (series_id & Hid & <-)%series_options_named.
  destruct (Hall series_id Hid) as (s & it & Hs & <- & Hit & HM).
  apply Hin.
  assert (observation_of (column_name (bls.seriesID s)) it
            ∈ get_data.all_data series_list) as [i Hi]%list_elem_of_lookup.
  { unfold get_data.all_data. apply list_elem_of_bind. exists s. split; [|done].
    apply list_elem_of_bind. exists it. split; [|done].
    rewrite keep_cases, HM. by apply list_elem_of_singleton. }
  destruct (Forall2_lookup_l _ _ _ _ _ Hlong Hi) as ([[d c] v] & Hr & _ & Hname & _).
  simpl in Hname. subst c. exists d, v. by eapply list_elem_of_lookup_2.
Qed.

(** X23: when each of the four requested series comes back with at least
    one monthly observation, the table the Fetcher returns has the four
    columns the Dashboard reads, under the names the Dashboard uses; with a
    row in it the four cards are shown and any selection can be charted. *)
Theorem reshape_feeds_dashboard (api_response : bls.body)
    (series_list : list bls.series) (t : DataFrame) :
  bls.Results api_response = Some series_list →
  (∀ series_id, series_id ∈ get_data.series_ids →
     ∃ s it, s ∈ series_list ∧ bls.seriesID s = series_id
             ∧ it ∈ bls.data s ∧ startswith (bls.period it) "M" = true) →
  clean_and_process_data api_response = Ok t →
  app.series_options ⊆ columns t
  ∧ ((1 ≤ len t)%nat → (app.summary_cards str_float t).2 = Ok ())
  ∧ (∀ time_range selected_series,
       selected_series ⊆ app.series_options →
       (app.chart (app.filter_time_range time_range t) selected_series).2 = Ok ()).
Proof.
  intros Hres Hall Ht.
  pose proof (reshape_indicator_columns _ _ _ Hres Hall Ht) as Hcols.
  split_and!; [done|..].
  - intros Hlen.
    by destruct (summary_cards_values str_float t Hcols Hlen)
      as (?&?&?&?&?&?&?&?&_&_&_&_&_&_&_&_& ->).
  - intros time_range selected_series Hsel.
    destruct (chart_Ok (app.filter_time_range time_range t) selected_series)
      as (el & -> & _); [by rewrite filter_time_range_columns|done..].
Qed.

(** X24: the two programs one after the other.  When the fetch returns the
    four requested series, each with a monthly observation, the reshaped
    table has a row, and the Dashboard's load reads back the table the
    Fetcher wrote, then the Fetcher's run returns and the Dashboard's pass
    over the files it leaves finishes without an exception, whatever the
    files were before, the time range and the selection among the four
    series. *)
Theorem dashboard_after_fetch (post : bls.network) (σ : gmap string string)
    (api_response : bls.body) (series_list : list bls.series) (t : DataFrame)
    (time_range : string) (selected_series : list string) :
  get_data.fetch_bls_data post get_data.series_ids
    get_data.start_year get_data.end_year = Ok api_response →
  bls.Results api_response = Some series_list →
  (∀ series_id, series_id ∈ get_data.series_ids →
     ∃ s it, s ∈ series_list ∧ bls.seriesID s = series_id
             ∧ it ∈ bls.data s ∧ startswith (bls.period it) "M" = true) →
  clean_and_process_data api_response = Ok t →
  (1 ≤ len t)%nat →
  load_data (<["labor_data.csv" := to_csv t]> σ) = Ok t →
  selected_series ⊆ app.series_options →
  (main_execution post σ).1 = Ok ()
  ∧ (main (main_execution post σ).2 time_range selected_series).2 = Ok ().
Proof.
  intros Hfetch Hres Hall Ht Hlen Hload Hsel.
  pose proof (reshape_indicator_columns _ _ _ Hres Hall Ht) as Hcols.
  destruct (main_execution_cases to_datetime to_numeric to_csv post σ)
    as [(e & _ & He)|(api' & t' & Hfetch' & Ht' & ->)].
  { rewrite Hfetch in He. simpl in He. by rewrite Ht in He. }
  rewrite Hfetch in Hfetch'. injection Hfetch' as <-.
  rewrite Ht in Ht'. injection Ht' as <-.
  split; [done|]. simpl.
  destruct (date_min_max_Some t Hlen) as (first & last & Hmin & Hmax).
  destruct (summary_cards_values str_float t Hcols Hlen)
    as (u&n&a&w&du&dn&da&dw&_&_&_&_&_&_&_&_& Hcards).
  destruct (chart_Ok (app.filter_time_range time_range t) selected_series)
    as (el & Hchart & _); [by rewrite filter_time_range_columns|done|].
  unfold app.main. rewrite Hload. simpl. rewrite Hmin, Hmax. simpl.
  rewrite Hcards. simpl. by rewrite Hchart.
Qed.

End pipeline.

Lemma four_series_monthly (series_id : string) :
  series_id ∈ get_data.series_ids →
  ∃ s it, s ∈ default [] (bls.Results fixture.four_series)
          ∧ bls.seriesID s = series_id
          ∧ it ∈ bls.data s ∧ startswith (bls.period it) "M" = true.
Proof.
  unfold get_data.series_ids. intros Hid.
  repeat (apply elem_of_cons in Hid as [->|Hid]);
    [..|by apply elem_of_nil in Hid].
  - eexists (bls.mkSeries "LNS14000000" _), (bls.mkItem "2024" "M03" "3.9").
    split_and!; [by constructor|reflexivity|by constructor|reflexivity].
  - eexists (bls.mkSeries "CES0000000001" _), (bls.mkItem "2024" "M03" "157531").
    split_and!; [by right; left|reflexivity|by constructor|reflexivity].
  - eexists (bls.mkSeries "CES0500000003" _), (bls.mkItem "2024" "M03" "34.75").
    split_and!; [by do 2 right; left|reflexivity|by constructor|reflexivity].
  - eexists (bls.mkSeries "CES0500000007" _), (bls.mkItem "2024" "M03" "34.4").
    split_and!; [by do 3 right; left|reflexivity|by constructor|reflexivity].
Qed.

Lemma reshape_feeds_dashboard_witness :
  app.series_options ⊆ columns fixture.all_indicators
  ∧ (app.summary_cards sample.str_float fixture.all_indicators).2 = Ok ()
  ∧ (app.chart (app.filter_time_range "Last 6 Months" fixture.all_indicators)
       ["Avg_Weekly_Hours"]).2 = Ok ().
Proof.
  destruct (reshape_feeds_dashboard sample.to_datetime sample.to_numeric
              sample.str_float fixture.four_series
              (default [] (bls.Results fixture.four_series))
              fixture.all_indicators eq_refl four_series_monthly) as (Hcols & Hcards & Hchart).
  - vm_compute. reflexivity.
  - split_and!; [done| |].
    + apply Hcards. vm_compute. lia.
    + apply Hchart. compute_done.
Defined.

Lemma dashboard_after_fetch_witness :
  (get_data.main_execution sample.to_datetime sample.to_numeric sample.to_csv
     (fixture.answers fixture.four_series) ∅).1 = Ok ()
  ∧ (app.main sample.read_csv sample.to_datetime sample.str_float
       (get_data.main_execution sample.to_datetime sample.to_numeric sample.to_csv
          (fixture.answers fixture.four_series) ∅).2
       "Last 12 Months" ["Unemployment_Rate"; "Avg_Hourly_Earnings"]).2 = Ok ().
Proof.
  apply (dashboard_after_fetch sample.to_datetime sample.to_numeric sample.to_csv
           sample.read_csv sample.str_float (fixture.answers fixture.four_series) ∅
           fixture.four_series (default [] (bls.Results fixture.four_series))
           fixture.all_indicators
           "Last 12 Months" ["Unemployment_Rate"; "Avg_Hourly_Earnings"]).
  - reflexivity.
  - reflexivity.
  - exact four_series_monthly.
  - vm_compute. reflexivity.
  - vm_compute. lia.
  - vm_compute. reflexivity.
  - compute_done.
Defined.
